(** * Cookify chatbot core: vector index, multi-strategy retrieval, confidence scorer

    A shallow embedding of
      - [backend/chatbot/vector_db_manager.py]  (classes [VectorDBManager] and
        [HybridVectorDB]),
      - [backend/chatbot/mongodb_sync.py]       (class [RecipeSearchOptimizer] and
        the searchable text of [MongoDBRecipeSync]),
      - [backend/chatbot/confidence_scorer.py]  (class [AdvancedConfidenceScorer]),
    followed by the properties of the specification stated over it, and by
    further properties of the code.

    Conventions of the embedding.
      - Python and NumPy floating-point numbers are idealised as real numbers
        ([R]); rounding is not modelled.
      - A Python exception is a value: a computation returns [Ok v] or
        [Raise e].  A method that mutates [self] is a function from the state
        before to a result paired with the state at the point of return or of
        the raise.
      - Python strings are the byte strings of their UTF-8 encoding.
        Unicode-aware primitives ([str.lower], [str.strip], [re.findall]) are
        parameters of the sections that use them.
      - FAISS is an external library.  Its indexes are modelled from its
        documented interface: an index stores its vectors by ordinal, [add]
        appends, [search] returns exactly [k] (distance, label) pairs, best
        first, padded with label [-1].  The vectors an approximate index
        visits for a query are a parameter ([Scan]). *)

From Stdlib Require Import Reals Lra Lia ZArith List String Ascii Bool Sorted.
From stdpp Require Import base decidable option list gmap strings sets.
Import ListNotations.

(* ===================================================================== *)
(** * Part I.  Definitions                                                *)
(* ===================================================================== *)

(** ** The Python runtime: exceptions, floats, sorting, strings *)
Module Py.

(** The exceptions the modelled code can raise. *)
Inductive exn : Type :=
| ValueError
| IndexError
| KeyError
| AttributeError
| AssertionError
| RuntimeError.

Inductive result (A : Type) : Type :=
| Ok (a : A)
| Raise (e : exn).
Arguments Ok {A} a.
Arguments Raise {A} e.

Definition bind {A B : Type} (c : result A) (k : A -> result B) : result B :=
  match c with
  | Ok a => k a
  | Raise e => Raise e
  end.

(** A method over a mutable object of type [S]: the state is threaded, and a
    raise keeps the state reached so far. *)
Definition method (S A : Type) : Type := S -> result A * S.

Definition mret {S A : Type} (a : A) : method S A := fun s => (Ok a, s).
Definition mraise {S A : Type} (e : exn) : method S A := fun s => (Raise e, s).
Definition mbind {S A B : Type} (c : method S A) (k : A -> method S B) : method S B :=
  fun s => match c s with
           | (Ok a, s') => k a s'
           | (Raise e, s') => (Raise e, s')
           end.
Definition mget {S : Type} : method S S := fun s => (Ok s, s).
Definition mlift {S A : Type} (c : result A) : method S A := fun s => (c, s).

(** Comparisons of floats are decidable (classically, on [R]). *)
#[global] Instance Rlt_decision (x y : R) : Decision (x < y)%R := Rlt_dec x y.
#[global] Instance Rle_decision (x y : R) : Decision (x <= y)%R := Rle_dec x y.

(** [x >= y] and [x < y] as Python evaluates them. *)
Definition fge (x y : R) : bool := bool_decide (y <= x)%R.
Definition flt (x y : R) : bool := bool_decide (x < y)%R.
Arguments fge : simpl never.
Arguments flt : simpl never.

Section Sorting.
Context {A : Type}.
(** [before y x]: [y] sorts strictly before [x]. *)
Variable before : A -> A -> bool.

(** Stable insertion: [x] preceded every element of [l] in the input, so it
    goes in front of the first element that does not sort strictly before
    it. *)
Fixpoint insert_by (x : A) (l : list A) : list A :=
  match l with
  | [] => [x]
  | y :: l' => if before y x then y :: insert_by x l' else x :: y :: l'
  end.

Definition sort_by (l : list A) : list A := foldr insert_by [] l.
End Sorting.

(** [sorted(l, key=key, reverse=True)] and [l.sort(key=key, reverse=True)]:
    descending by key, elements of equal key in their original order. *)
Definition sorted_desc {A : Type} (key : A -> R) (l : list A) : list A :=
  sort_by (fun y x => flt (key x) (key y)) l.

(** [sorted(l, key=key)]: ascending by key, stable. *)
Definition sorted_asc {A : Type} (key : A -> R) (l : list A) : list A :=
  sort_by (fun y x => flt (key y) (key x)) l.

(** [descending key l]: the keys never increase along [l]; [ascending key l]:
    they never decrease. *)
Definition descending {A : Type} (key : A -> R) (l : list A) : Prop :=
  StronglySorted (fun a b => key b <= key a)%R l.

Definition ascending {A : Type} (key : A -> R) (l : list A) : Prop :=
  StronglySorted (fun a b => key a <= key b)%R l.

(** [l[i]] for an integer [i]: negative indexes count from the end. *)
Definition getitem {A : Type} (l : list A) (i : Z) : result A :=
  let n := Z.of_nat (length l) in
  let j := if (i <? 0)%Z then (n + i)%Z else i in
  if ((0 <=? j)%Z && (j <? n)%Z)%bool
  then match nth_error l (Z.to_nat j) with
       | Some a => Ok a
       | None => Raise IndexError
       end
  else Raise IndexError.

(** [needle in hay] on strings. *)
Fixpoint contains (needle hay : string) : bool :=
  (String.prefix needle hay
   || match hay with
      | EmptyString => false
      | String _ rest => contains needle rest
      end)%bool.

(** [any(w in s for w in ws)]. *)
Definition any_in (ws : list string) (s : string) : bool :=
  existsb (fun w => contains w s) ws.

(** [sep.join(parts)]. *)
Fixpoint join (sep : string) (parts : list string) : string :=
  match parts with
  | [] => EmptyString
  | [p] => p
  | p :: rest => (p ++ sep ++ join sep rest)%string
  end.

(** [s.endswith(c)] for a one-byte suffix. *)
Fixpoint endswith_char (s : string) (c : ascii) : bool :=
  match s with
  | EmptyString => false
  | String a EmptyString => Ascii.eqb a c
  | String _ rest => endswith_char rest c
  end.

(** [len(s)]: the number of code points, i.e. of bytes that are not UTF-8
    continuation bytes (10xxxxxx). *)
Definition is_continuation (a : ascii) : bool :=
  let n := nat_of_ascii a in ((128 <=? n) && (n <? 192))%nat%bool.

Fixpoint len (s : string) : nat :=
  match s with
  | EmptyString => 0
  | String a rest => if is_continuation a then len rest else S (len rest)
  end.

(** [numpy.mean] of a non-empty list; [sum(l)]. *)
Definition fsum (l : list R) : R := foldr Rplus 0%R l.
Definition mean (l : list R) : R := (fsum l / INR (length l))%R.

End Py.

Notation "'do' x <- c ; k" := (Py.bind c (fun x => k))
  (at level 10, x name, c at level 100, k at level 200, only parsing).
Notation "'run' x <- c ; k" := (Py.mbind c (fun x => k))
  (at level 10, x name, c at level 100, k at level 200, only parsing).

(** ** FAISS: the library's indexes, modelled from their interface *)
Module Faiss.
Import Py.
Local Open Scope R_scope.

Definition vec : Type := list R.

(** A two-dimensional float array of shape [(length rows, shape1)]. *)
Record ndarray : Type := { shape1 : nat; rows : list vec }.

Definition well_shaped (a : ndarray) : Prop :=
  Forall (fun r => length r = shape1 a) (rows a).

(** [len(a)], that is [a.shape[0]]. *)
Definition nrows (a : ndarray) : nat := length (rows a).

Definition dot (u v : vec) : R := fsum (zip_with Rmult u v).
Definition l2sqr (u v : vec) : R :=
  fsum (zip_with (fun a b => (a - b) * (a - b)) u v).

(** [faiss.normalize_L2]: every row of non-zero norm is scaled to norm 1. *)
Definition renorm (v : vec) : vec :=
  if bool_decide (0 < dot v v)
  then map (fun x => x * / sqrt (dot v v)) v
  else v.

Definition normalize_L2 (a : ndarray) : ndarray :=
  {| shape1 := shape1 a; rows := map renorm (rows a) |}.

Inductive MetricType : Type := METRIC_INNER_PRODUCT | METRIC_L2.

Inductive index_class : Type :=
| IndexFlat
| IndexIVFFlat (nlist : nat)
| IndexHNSWFlat (M : nat).

(** An index object: its class, dimension, metric, training flag and the
    vectors it stores, by ordinal. *)
Record index : Type := {
  cls : index_class;
  d : nat;
  metric_type : MetricType;
  is_trained : bool;
  xb : list vec
}.

Definition ntotal (i : index) : nat := length (xb i).

(** [faiss.IndexFlatIP(d)]. *)
Definition IndexFlatIP (dim : nat) : index :=
  {| cls := IndexFlat; d := dim; metric_type := METRIC_INNER_PRODUCT;
     is_trained := true; xb := [] |}.

(** [faiss.IndexIVFFlat(quantizer, d, nlist)].  The constructor's fourth
    parameter is the metric, [METRIC_L2] when omitted as here; the metric of
    the quantizer only steers the assignment to clusters. *)
Definition new_IndexIVFFlat (dim nlist : nat) : index :=
  {| cls := IndexIVFFlat nlist; d := dim; metric_type := METRIC_L2;
     is_trained := false; xb := [] |}.

(** [faiss.IndexHNSWFlat(d, M)].  The third parameter is the metric,
    [METRIC_L2] when omitted as here. *)
Definition new_IndexHNSWFlat (dim M : nat) : index :=
  {| cls := IndexHNSWFlat M; d := dim; metric_type := METRIC_L2;
     is_trained := true; xb := [] |}.

(** [index.train(x)]: a no-op except for an inverted-file index, whose
    clustering needs at least [nlist] points. *)
Definition train (i : index) (x : ndarray) : result index :=
  if negb (shape1 x =? d i)%nat then Raise AssertionError
  else match cls i with
       | IndexIVFFlat nlist =>
           if is_trained i then Ok i
           else if (nrows x <? nlist)%nat then Raise RuntimeError
           else Ok {| cls := cls i; d := d i; metric_type := metric_type i;
                      is_trained := true; xb := xb i |}
       | _ => Ok i
       end.

(** [index.add(x)]: appends the rows; refused by an untrained index. *)
Definition add (i : index) (x : ndarray) : result index :=
  if negb (shape1 x =? d i)%nat then Raise AssertionError
  else if negb (is_trained i) then Raise RuntimeError
  else Ok {| cls := cls i; d := d i; metric_type := metric_type i;
             is_trained := is_trained i; xb := xb i ++ rows x |}.

(** The ordinals an approximate index (inverted file, HNSW graph) visits for
    a query.  A flat index visits all of them. *)
Class Scan : Type := scanned : index -> vec -> list nat.

Definition exhaustive : Scan := fun i _ => seq 0 (ntotal i).

Definition candidates `{Scan} (i : index) (q : vec) : list nat :=
  match cls i with
  | IndexFlat => seq 0 (ntotal i)
  | _ => remove_dups (List.filter (fun n => (n <? ntotal i)%nat) (scanned i q))
  end.

Definition distance (i : index) (q x : vec) : R :=
  match metric_type i with
  | METRIC_INNER_PRODUCT => dot q x
  | METRIC_L2 => l2sqr q x
  end.

(** Best first: largest inner product, or smallest L2 distance. *)
Definition ranked (i : index) (hits : list (R * Z)) : list (R * Z) :=
  match metric_type i with
  | METRIC_INNER_PRODUCT => sorted_desc fst hits
  | METRIC_L2 => sorted_asc fst hits
  end.

(** The largest finite 32-bit float. *)
Definition FLT_MAX : R := 340282346638528859811704183484516925440.

(** The entry that fills the result when fewer than [k] vectors are found. *)
Definition padding (i : index) : R * Z :=
  (match metric_type i with
   | METRIC_INNER_PRODUCT => - FLT_MAX
   | METRIC_L2 => FLT_MAX
   end, (-1)%Z).

Definition hit (i : index) (q : vec) (n : nat) : option (R * Z) :=
  (fun x => (distance i q x, Z.of_nat n)) <$> xb i !! n.

(** [index.search(q, k)] for a single query row: the rows [D[0]] and [I[0]]
    zipped, of length exactly [k]. *)
Definition search `{Scan} (i : index) (q : vec) (k : Z) : result (list (R * Z)) :=
  if negb (length q =? d i)%nat then Raise AssertionError
  else if (k <=? 0)%Z then Raise AssertionError
  else
    let best := take (Z.to_nat k) (ranked i (omap (hit i q) (candidates i q))) in
    Ok (best ++ replicate (Z.to_nat k - length best) (padding i)).

End Faiss.

(** ** vector_db_manager.py: class VectorDBManager *)
Module VectorDB.
Import Py.
Local Open Scope R_scope.

Section Manager.
(** The type of a metadata dictionary; the manager never looks inside. *)
Context {Meta : Type}.
Context `{Faiss.Scan}.

(** The attributes of a [VectorDBManager] instance.  [index] is [None]
    when [index_type] is none of the three known names. *)
Record VectorDBManager : Type := {
  dimension : nat;
  index_type : string;
  index : option Faiss.index;
  metadata : list Meta;
  is_trained : bool
}.

Definition _create_index (dim : nat) (ty : string) : option Faiss.index :=
  if String.eqb ty "Flat" then Some (Faiss.IndexFlatIP dim)
  else if String.eqb ty "IVF" then Some (Faiss.new_IndexIVFFlat dim 100)
  else if String.eqb ty "HNSW" then Some (Faiss.new_IndexHNSWFlat dim 16)
  else None.

Definition __init__ (dim : nat) (ty : string) : VectorDBManager :=
  {| dimension := dim; index_type := ty; index := _create_index dim ty;
     metadata := []; is_trained := false |}.

(** Attribute assignments [self.index = ...], [self.is_trained = ...] and
    [self.metadata.extend(...)]. *)
Definition set_index (i : Faiss.index) : method VectorDBManager unit :=
  fun self => (Ok tt, {| dimension := dimension self; index_type := index_type self;
                         index := Some i; metadata := metadata self;
                         is_trained := is_trained self |}).

Definition set_is_trained (b : bool) : method VectorDBManager unit :=
  fun self => (Ok tt, {| dimension := dimension self; index_type := index_type self;
                         index := index self; metadata := metadata self;
                         is_trained := b |}).

Definition extend_metadata (md : list Meta) : method VectorDBManager unit :=
  fun self => (Ok tt, {| dimension := dimension self; index_type := index_type self;
                         index := index self; metadata := metadata self ++ md;
                         is_trained := is_trained self |}).

(** Reading [self.index] to call a method on it. *)
Definition the_index : method VectorDBManager Faiss.index :=
  fun self => match index self with
              | Some i => (Ok i, self)
              | None => (Raise AttributeError, self)
              end.

(** [add_documents(self, embeddings, metadata)]. *)
Definition add_documents (embeddings : Faiss.ndarray) (md : list Meta)
  : method VectorDBManager unit :=
  run self <- mget;
  if negb (Faiss.shape1 embeddings =? dimension self)%nat then mraise ValueError
  else
    let embeddings := Faiss.normalize_L2 embeddings in
    run _ <- (if (String.eqb (index_type self) "IVF" && negb (is_trained self))%bool
              then if (100 <=? Faiss.nrows embeddings)%nat
                   then run i <- the_index;
                        run i' <- mlift (Faiss.train i embeddings);
                        run _ <- set_index i';
                        set_is_trained true
                   else set_index (Faiss.IndexFlatIP (dimension self))
              else mret tt);
    run i <- the_index;
    run i' <- mlift (Faiss.add i embeddings);
    run _ <- set_index i';
    extend_metadata md.

(** One entry of the list [search] returns. *)
Record search_result : Type := {
  r_metadata : Meta;
  similarity_score : R;
  r_index : Z
}.

(** The score and the label an entry carries. *)
Definition entry (r : search_result) : R * Z := (similarity_score r, r_index r).

(** [idx != -1 and score >= threshold]. *)
Definition keeps (threshold : R) (hit : R * Z) : bool :=
  (negb (snd hit =? -1)%Z && fge (fst hit) threshold)%bool.

(** The loop over [zip(scores[0], indices[0])]. *)
Fixpoint collect (md : list Meta) (threshold : R) (hits : list (R * Z))
  : result (list search_result) :=
  match hits with
  | [] => Ok []
  | (score, idx) :: rest =>
      if keeps threshold (score, idx)
      then do m <- getitem md idx;
           do rs <- collect md threshold rest;
           Ok ({| r_metadata := m; similarity_score := score; r_index := idx |} :: rs)
      else collect md threshold rest
  end.

(** [search(self, query_embedding, k, threshold)]; the query is given by
    its components, which [reshape(1, -1)] lays out as one row. *)
Definition search (self : VectorDBManager) (query_embedding : Faiss.vec)
    (k : Z) (threshold : R) : result (list search_result) :=
  match index self with
  | None => Raise AttributeError
  | Some i =>
      if (Faiss.ntotal i =? 0)%nat then Ok []
      else
        let q := Faiss.renorm query_embedding in
        do hits <- Faiss.search i q k;
        collect (metadata self) threshold hits
  end.

Record stats : Type := {
  total_documents : nat;
  s_index_type : string;
  s_dimension : nat;
  s_is_trained : bool;
  index_size_mb : R
}.

Definition get_stats (self : VectorDBManager) : stats :=
  {| total_documents := length (metadata self);
     s_index_type := index_type self;
     s_dimension := dimension self;
     s_is_trained := is_trained self;
     index_size_mb :=
       match index self with
       | Some i => INR (Faiss.ntotal i * dimension self * 4) / (1024 * 1024)
       | None => 0
       end |}.

(** The manager is in the fallback state: its index type says inverted
    file, the index it holds is a flat one. *)
Definition fell_back (self : VectorDBManager) : bool :=
  (String.eqb (index_type self) "IVF"
   && match index self with
      | Some i => match Faiss.cls i with Faiss.IndexFlat => true | _ => false end
      | None => false
      end)%bool.

(** The lockstep invariant between the metadata table and the index. *)
Definition lockstep (self : VectorDBManager) : Prop :=
  match index self with
  | Some i => length (metadata self) = Faiss.ntotal i
  | None => metadata self = []
  end.

(** The managers a program can build: a fresh one, then successful calls of
    [add_documents]. *)
Inductive reachable : VectorDBManager -> Prop :=
| reach_init dim ty : reachable (__init__ dim ty)
| reach_add self e md self' :
    reachable self ->
    add_documents e md self = (Ok tt, self') ->
    reachable self'.

End Manager.
Arguments VectorDBManager Meta : clear implicits.
Arguments search_result Meta : clear implicits.

End VectorDB.

(** ** mongodb_sync.py: class RecipeSearchOptimizer *)
Module Retrieval.
Import Py.
Local Open Scope R_scope.

Section Optimizer.
(** Document identifiers (the [_id] of the document store) are opaque. *)
Context `{Countable Id}.
(** [str.lower]. *)
Variable lower : string -> string.

(** A recipe document, by the fields the strategies read; [None] is an
    absent key. *)
Record recipe : Type := {
  _id : option Id;
  name : option string;
  ingredients : option (list string);
  category : option string
}.

(** A strategy's result: [{**recipe, 'match_type': ..}], with a
    ['similarity_score'] for the semantic strategy. *)
Record found : Type := {
  source : recipe;
  match_type : string;
  similarity_score : option R
}.

Definition tagged (tag : string) (r : recipe) : found :=
  {| source := r; match_type := tag; similarity_score := None |}.

(** [result.get('_id')]. *)
Definition get_id (r : found) : option Id := _id (source r).

(** [recipe.get('name') and query_lower in recipe['name'].lower()]. *)
Definition name_matches (query_lower : string) (r : recipe) : bool :=
  match name r with
  | Some n => negb (String.eqb n "") && contains query_lower (lower n)
  | None => false
  end.

Definition _exact_match_search (query : string) (recipes : list recipe) : list found :=
  let query_lower := lower query in
  map (tagged "exact_name") (List.filter (name_matches query_lower) recipes).

Definition ingredients_match (query_lower : string) (r : recipe) : bool :=
  match ingredients r with
  | Some (i :: l) => contains query_lower (lower (join " " (i :: l)))
  | _ => false
  end.

Definition _ingredient_based_search (query : string) (recipes : list recipe) : list found :=
  let query_lower := lower query in
  map (tagged "ingredient") (List.filter (ingredients_match query_lower) recipes).

Definition category_keywords : list (string * string) :=
  [ ("món chính", "monchinh");
    ("món phụ", "monphu");
    ("tráng miệng", "trangmieng");
    ("đồ uống", "douong");
    ("ăn vặt", "anvat") ].

(** The first keyword found in the query decides the category. *)
Definition target_category (query_lower : string) : option string :=
  snd <$> List.find (fun kc => contains (fst kc) query_lower) category_keywords.

Definition _category_filter_search (query : string) (recipes : list recipe) : list found :=
  let query_lower := lower query in
  match target_category query_lower with
  | None => []
  | Some target =>
      map (tagged "category")
          (List.filter (fun r => bool_decide (category r = Some target)) recipes)
  end.

Definition score_of (r : found) : R := default 0 (similarity_score r).

(** [_semantic_search(query, recipes, embeddings, model, threshold)];
    [model query] is the row [model.encode([query])] returns. *)
Definition _semantic_search (query : string) (recipes : list recipe)
    (embeddings : Faiss.ndarray) (model : string -> Faiss.vec) (threshold : R)
  : result (list found) :=
  if negb (length recipes =? Faiss.nrows embeddings)%nat then Ok []
  else
    let query_embedding := model query in
    if negb (Faiss.shape1 embeddings =? length query_embedding)%nat
    then Raise ValueError
    else
      let similarities := map (fun row => Faiss.dot row query_embedding)
                              (Faiss.rows embeddings) in
      let results :=
        omap (fun rs : recipe * R =>
                if fge (snd rs) threshold
                then Some {| source := fst rs; match_type := "semantic";
                             similarity_score := Some (snd rs) |}
                else None)
             (zip recipes similarities) in
      Ok (sorted_desc score_of results).

(** The de-duplication loop: [seen_ids] and [unique_results]. *)
Definition dedup_step (st : gset (option Id) * list found) (r : found)
  : gset (option Id) * list found :=
  if decide (get_id r ∈ st.1) then st
  else ({[ get_id r ]} ∪ st.1, st.2 ++ [r]).

Definition unique_results (all_results : list found) : list found :=
  (fold_left dedup_step all_results (∅, [])).2.

(** Strategy 4 runs only when both embeddings and a model are supplied. *)
Definition semantic_results (query : string) (recipes : list recipe)
    (embeddings : option Faiss.ndarray) (model : option (string -> Faiss.vec))
  : result (list found) :=
  match embeddings, model with
  | Some e, Some m => _semantic_search query recipes e m (7 / 10)
  | _, _ => Ok []
  end.

Definition multi_strategy_search (query : string) (recipes : list recipe)
    (embeddings : option Faiss.ndarray) (model : option (string -> Faiss.vec))
  : result (list found) :=
  let exact_results := _exact_match_search query recipes in
  let ingredient_results := _ingredient_based_search query recipes in
  let category_results := _category_filter_search query recipes in
  do semantic <- semantic_results query recipes embeddings model;
  let all_results :=
    exact_results ++ ingredient_results ++ category_results ++ semantic in
  Ok (take 10 (unique_results all_results)).

(** The merge in the words of the specification: an entry is kept when no
    earlier entry of the concatenation carries its document id. *)
Definition is_first_occurrence (l : list found) (i : nat) (x : found) : bool :=
  forallb (fun y => bool_decide (get_id y ≠ get_id x)) (take i l).

(** The first occurrences among [rest], the part of [l] that starts at
    position [n]. *)
Definition first_occurrences_from (l : list found) (n : nat) (rest : list found)
  : list found :=
  omap (fun x => x)
       (imap (fun i x => if is_first_occurrence l (n + i) x then Some x else None) rest).

Definition first_occurrences (l : list found) : list found :=
  first_occurrences_from l 0 l.

End Optimizer.

End Retrieval.

(** ** confidence_scorer.py: class AdvancedConfidenceScorer *)
Module Scorer.
Import Py.
Local Open Scope R_scope.

Inductive ConfidenceLevel : Type :=
| VERY_HIGH
| HIGH
| MEDIUM
| LOW
| VERY_LOW.

(** An insertion-ordered [Dict[str, float]]. *)
Definition factor_dict : Type := list (string * R).

(** [d[key]]. *)
Fixpoint dict_get (d : factor_dict) (key : string) : result R :=
  match d with
  | [] => Raise KeyError
  | (k, v) :: d' => if String.eqb k key then Ok v else dict_get d' key
  end.

Record ConfidenceScore : Type := {
  overall_score : R;
  level : ConfidenceLevel;
  factors : factor_dict;
  explanation : string;
  recommendations : list string
}.

(** The value under ['createdAt'] of a retrieved document. *)
Inductive timestamp : Type :=
| NoTimestamp            (* absent, [None] or empty: falsy *)
| BadTimestamp           (* parsing it or subtracting it from now raises *)
| At (t : Z).            (* a naive datetime, microseconds since the epoch *)

(** A retrieved document, by the fields the scorer reads; an absent string
    field is [""], an absent list is [[]]. *)
Record doc : Type := {
  doc_type : string;
  name : string;
  searchable_text : string;
  question : string;
  answer : string;
  createdAt : timestamp;
  ingredients : list string;
  instructions : list string
}.

Definition weights : factor_dict :=
  [ ("semantic_similarity", 25 / 100);
    ("keyword_match", 20 / 100);
    ("context_relevance", 15 / 100);
    ("data_freshness", 10 / 100);
    ("source_reliability", 10 / 100);
    ("query_clarity", 10 / 100);
    ("answer_completeness", 10 / 100) ].

Definition cooking_keywords : list (string * list string) :=
  [ ("ingredients", ["nguyên liệu"; "thành phần"; "gia vị"; "rau củ"; "thịt"; "cá"]);
    ("cooking_methods", ["nấu"; "chiên"; "luộc"; "nướng"; "xào"; "hấp"; "om"; "kho"]);
    ("time_related", ["thời gian"; "phút"; "giờ"; "nhanh"; "chậm"; "lâu"]);
    ("difficulty", ["dễ"; "khó"; "đơn giản"; "phức tạp"; "cơ bản"; "nâng cao"]);
    ("taste", ["ngon"; "ngọt"; "mặn"; "chua"; "cay"; "đắng"; "béo"]);
    ("nutrition", ["dinh dưỡng"; "vitamin"; "protein"; "carb"; "chất béo"; "calo"]) ].

(** [(a - b).days] for two datetimes in microseconds: whole days, rounded
    towards minus infinity. *)
Definition microseconds_per_day : Z := 86400000000.
Definition days_between (a b : Z) : Z := ((a - b) / microseconds_per_day)%Z.

(** A document does not lie in the future of the clock. *)
Definition not_future (current_time : Z) (d : doc) : Prop :=
  match createdAt d with
  | At created_time => (created_time <= current_time)%Z
  | _ => True
  end.

(** *** Factor 1: semantic similarity *)

(** [np.exp(-np.arange(n) * 0.5)]. *)
Definition decay_weights (n : nat) : list R :=
  map (fun i => exp (- INR i * (1 / 2))) (seq 0 n).

(** [np.average(a, weights=w)]. *)
Definition average (a w : list R) : R := fsum (zip_with Rmult a w) / fsum w.

Definition weighted_avg (similarity_scores : list R) : R :=
  let w := decay_weights (length similarity_scores) in
  let w := map (fun x => x / fsum w) w in
  average similarity_scores w.

Definition _calculate_semantic_similarity (similarity_scores : list R) : R :=
  match similarity_scores with
  | [] => 0
  | _ =>
      let sigmoid_score := 2 / (1 + exp (- 4 * (weighted_avg similarity_scores - 1 / 2))) in
      Rmin sigmoid_score 1
  end.

(** The factor as the specification words it: the decayed average passed
    through the logistic function centred at 0.5 with steepness 4. *)
Definition logistic (centre steepness x : R) : R :=
  1 / (1 + exp (- steepness * (x - centre))).

Definition spec_semantic_similarity (similarity_scores : list R) : R :=
  match similarity_scores with
  | [] => 0
  | _ => logistic (1 / 2) 4 (weighted_avg similarity_scores)
  end.

Section Factors.
(** [str.lower], [str.strip], [re.findall(r'\b\w+\b', .)] and the format
    [f"{x:.2f}"]. *)
Variable lower : string -> string.
Variable strip : string -> string.
Variable words : string -> list string.
Variable fmt2 : R -> string.

(** *** Factor 2: keyword match *)
Definition keyword_text (d : doc) : string :=
  if String.eqb (doc_type d) "recipe" then (name d ++ " " ++ searchable_text d)%string
  else if String.eqb (doc_type d) "faq" then (question d ++ " " ++ answer d)%string
  else "".

Definition word_set (s : string) : gset string := list_to_set (words (lower s)).

Definition doc_matches (query_words : gset string) (d : doc) : nat :=
  size (query_words ∩ word_set (keyword_text d)).

Definition _calculate_keyword_match (query : string) (docs : list doc) : R :=
  match docs with
  | [] => 0
  | _ =>
      let query_words := word_set query in
      let total_matches := foldr Nat.add 0%nat (map (doc_matches query_words) docs) in
      let total_possible := size query_words in
      if (total_possible =? 0)%nat then 0
      else
        let avg_match_rate :=
          (INR total_matches / INR (length docs)) / INR total_possible in
        Rmin avg_match_rate 1
  end.

(** *** Factor 3: context relevance *)
Definition context_text (d : doc) : string :=
  if String.eqb (doc_type d) "recipe" then lower (searchable_text d)
  else if String.eqb (doc_type d) "faq" then lower (question d ++ " " ++ answer d)%string
  else "".

Definition category_score (query_lower : string) (d : doc) (keywords : list string) : R :=
  if (any_in keywords query_lower && any_in keywords (context_text d))%bool
  then 2 / 10 else 0.

Definition doc_relevance (query_lower : string) (d : doc) : R :=
  let score := fsum (map (fun ck => category_score query_lower d (snd ck)) cooking_keywords) in
  let score :=
    if ((contains "công thức" query_lower || contains "cách làm" query_lower)
        && String.eqb (doc_type d) "recipe")%bool
    then score + 3 / 10 else score in
  let score :=
    if (any_in ["tại sao"; "làm sao"; "như thế nào"; "có nên"] query_lower
        && String.eqb (doc_type d) "faq")%bool
    then score + 3 / 10 else score in
  Rmin score 1.

Definition _calculate_context_relevance (query : string) (docs : list doc) : R :=
  match docs with
  | [] => 0
  | _ => mean (map (doc_relevance (lower query)) docs)
  end.

(** *** Factor 4: data freshness; [current_time] is [datetime.now()] *)
Definition doc_freshness (current_time : Z) (d : doc) : R :=
  if String.eqb (doc_type d) "recipe" then
    match createdAt d with
    | At created_time =>
        let days_old := days_between current_time created_time in
        Rmax 0 (1 - IZR days_old / 365)
    | BadTimestamp => 7 / 10
    | NoTimestamp => 7 / 10
    end
  else 8 / 10.

Definition _calculate_data_freshness (current_time : Z) (docs : list doc) : R :=
  match docs with
  | [] => 5 / 10
  | _ => mean (map (doc_freshness current_time) docs)
  end.

(** *** Factor 5: source reliability *)
Definition is_nonempty {A : Type} (l : list A) : bool :=
  match l with [] => false | _ => true end.

Definition doc_reliability (d : doc) : R :=
  let score :=
    if String.eqb (doc_type d) "recipe" then
      let score := 8 / 10 in
      let score :=
        if (is_nonempty (ingredients d) && is_nonempty (instructions d))%bool
        then score + 1 / 10 else score in
      if (3 <=? length (instructions d))%nat then score + 1 / 10 else score
    else if String.eqb (doc_type d) "faq" then
      let score := 9 / 10 in
      if (50 <? len (answer d))%nat then score + 1 / 10 else score
    else 5 / 10 in
  Rmin score 1.

Definition _calculate_source_reliability (docs : list doc) : R :=
  match docs with
  | [] => 5 / 10
  | _ => mean (map doc_reliability docs)
  end.

(** *** Factor 6: query clarity *)
Definition _calculate_query_clarity (query : string) : R :=
  let query_lower := strip (lower query) in
  if (len query_lower <? 5)%nat then 2 / 10
  else
    let score := 5 / 10 in
    let length := len query_lower in
    let score :=
      if ((10 <=? length) && (length <=? 50))%nat%bool then score + 2 / 10
      else if (50 <? length)%nat then score + 1 / 10
      else score in
    let score :=
      if any_in ["cách làm"; "công thức"; "nguyên liệu"; "thời gian"; "làm sao"] query_lower
      then score + 2 / 10 else score in
    let score :=
      if any_in ["gì"; "sao"; "nào"; "bao nhiêu"; "như thế nào"] query_lower
      then score + 1 / 10 else score in
    let score :=
      if endswith_char query_lower "?"%char then score + 1 / 10 else score in
    Rmin score 1.

(** *** Factor 7: answer completeness *)
Definition _calculate_answer_completeness (query ans : string) : R :=
  if (len ans <? 10)%nat then 1 / 10
  else
    let score := 5 / 10 in
    let answer_length := len ans in
    let score :=
      if ((50 <=? answer_length) && (answer_length <=? 500))%nat%bool then score + 2 / 10
      else if (500 <? answer_length)%nat then score + 1 / 10
      else score in
    let score :=
      if existsb (fun marker => contains marker ans) ["1."; "2."; "-"; "•"]
      then score + 1 / 10 else score in
    let query_lower := lower query in
    let answer_lower := lower ans in
    let score :=
      if (contains "cách làm" query_lower || contains "công thức" query_lower)%bool
      then
        let score :=
          if contains "nguyên liệu" answer_lower then score + 1 / 10 else score in
        if any_in ["bước"; "cách"; "làm"] answer_lower then score + 1 / 10 else score
      else score in
    Rmin score 1.

(** *** Level, explanation, recommendations *)
Definition _get_confidence_level (score : R) : ConfidenceLevel :=
  if fge score (9 / 10) then VERY_HIGH
  else if fge score (7 / 10) then HIGH
  else if fge score (5 / 10) then MEDIUM
  else if fge score (3 / 10) then LOW
  else VERY_LOW.

(** [sorted(factors.items(), key=lambda x: x[1], reverse=True)], then its
    first and its last item. *)
Definition sorted_factors (fs : factor_dict) : list (string * R) :=
  sorted_desc snd fs.

Definition extremes (fs : factor_dict) : result ((string * R) * (string * R)) :=
  do strongest <- getitem (sorted_factors fs) 0;
  do weakest <- getitem (sorted_factors fs) (-1);
  Ok (strongest, weakest).

Definition explanation_text (overall : R) (strongest weakest : string * R) : string :=
  join " | "
    [ ("Điểm tin cậy tổng thể: " ++ fmt2 overall)%string;
      ("Yếu tố mạnh nhất: " ++ fst strongest ++ " (" ++ fmt2 (snd strongest) ++ ")")%string;
      ("Yếu tố yếu nhất: " ++ fst weakest ++ " (" ++ fmt2 (snd weakest) ++ ")")%string ].

Definition _generate_explanation (fs : factor_dict) (overall : R) : result string :=
  do sw <- extremes fs;
  Ok (explanation_text overall (fst sw) (snd sw)).

Definition recommend_if_low (fs : factor_dict) (key message : string)
  : result (list string) :=
  do v <- dict_get fs key;
  Ok (if flt v (5 / 10) then [message] else []).

Definition _generate_recommendations (fs : factor_dict) (lvl : ConfidenceLevel)
  : result (list string) :=
  match lvl with
  | LOW | VERY_LOW =>
      do r1 <- recommend_if_low fs "semantic_similarity"
                 "Thử đặt câu hỏi với từ khóa cụ thể hơn";
      do r2 <- recommend_if_low fs "keyword_match"
                 "Sử dụng thuật ngữ nấu ăn chính xác hơn";
      do r3 <- recommend_if_low fs "query_clarity"
                 "Làm rõ câu hỏi với chi tiết cụ thể";
      Ok (r1 ++ r2 ++ r3)
  | MEDIUM => Ok ["Kết quả khá tốt, có thể cần thêm thông tin để chính xác hơn"]
  | _ => Ok ["Kết quả có độ tin cậy cao"]
  end.

(** [sum(factors[f] * self.weights[f] for f in factors)]. *)
Fixpoint weighted_terms (fs : factor_dict) : result (list R) :=
  match fs with
  | [] => Ok []
  | (f, v) :: fs' =>
      do w <- dict_get weights f;
      do rest <- weighted_terms fs';
      Ok (v * w :: rest)
  end.

Definition weighted_sum (fs : factor_dict) : result R :=
  do terms <- weighted_terms fs;
  Ok (fold_left Rplus terms 0).

(** The seven factors, in the order the dictionary receives them. *)
Definition compute_factors (current_time : Z) (query : string) (retrieved_docs : list doc)
    (similarity_scores : list R) (ans : string) : factor_dict :=
  [ ("semantic_similarity", _calculate_semantic_similarity similarity_scores);
    ("keyword_match", _calculate_keyword_match query retrieved_docs);
    ("context_relevance", _calculate_context_relevance query retrieved_docs);
    ("data_freshness", _calculate_data_freshness current_time retrieved_docs);
    ("source_reliability", _calculate_source_reliability retrieved_docs);
    ("query_clarity", _calculate_query_clarity query);
    ("answer_completeness", _calculate_answer_completeness query ans) ].

(** [calculate_confidence(self, query, retrieved_docs, similarity_scores,
    answer)], given the reading of the clock. *)
Definition calculate_confidence (current_time : Z) (query : string)
    (retrieved_docs : list doc) (similarity_scores : list R) (ans : string)
  : result ConfidenceScore :=
  let fs := compute_factors current_time query retrieved_docs similarity_scores ans in
  do overall <- weighted_sum fs;
  let lvl := _get_confidence_level overall in
  do text <- _generate_explanation fs overall;
  do recs <- _generate_recommendations fs lvl;
  Ok {| overall_score := overall; level := lvl; factors := fs;
        explanation := text; recommendations := recs |}.

End Factors.

(** The reading of "identifies the factor by value, ties broken by encounter
    order": the extreme value, and among equal values the one met first. *)
Definition first_strongest (fs : factor_dict) (s : string * R) : Prop :=
  exists pre post, fs = pre ++ s :: post
    /\ Forall (fun f => snd f < snd s) pre
    /\ Forall (fun f => snd f <= snd s) post.

Definition first_weakest (fs : factor_dict) (w : string * R) : Prop :=
  exists pre post, fs = pre ++ w :: post
    /\ Forall (fun f => snd w < snd f) pre
    /\ Forall (fun f => snd w <= snd f) post.

(** Among equal smallest values, the one met last. *)
Definition last_weakest (fs : factor_dict) (w : string * R) : Prop :=
  exists pre post, fs = pre ++ w :: post
    /\ Forall (fun f => snd w <= snd f) pre
    /\ Forall (fun f => snd w < snd f) post.

End Scorer.

(** ** Concrete inputs used to exercise the definitions *)
Module Examples.
Import Py.
Local Open Scope R_scope.

(** Two orthogonal unit vectors of dimension 2, and batches of them. *)
Definition e1 : Faiss.vec := [1; 0].
Definition e2 : Faiss.vec := [0; 1].
Definition batch (vs : list Faiss.vec) : Faiss.ndarray :=
  {| Faiss.shape1 := 2; Faiss.rows := vs |}.

(** The state a method call leaves behind. *)
Definition after {S A : Type} (call : method S A) (s : S) : S := snd (call s).

(** A manager with the default index type, fed two one-document batches. *)
Definition ivf0 : VectorDB.VectorDBManager string := VectorDB.__init__ 2 "IVF".
Definition ivf1 : VectorDB.VectorDBManager string :=
  after (VectorDB.add_documents (batch [e1]) ["A"]) ivf0.
Definition ivf2 : VectorDB.VectorDBManager string :=
  after (VectorDB.add_documents (batch [e2]) ["B"]) ivf1.

(** The same manager after an empty batch. *)
Definition ivf_empty_batch : VectorDB.VectorDBManager string :=
  after (VectorDB.add_documents (batch []) []) ivf0.

(** A graph-index manager holding the two vectors. *)
Definition hnsw0 : VectorDB.VectorDBManager string := VectorDB.__init__ 2 "HNSW".
Definition hnsw1 : VectorDB.VectorDBManager string :=
  after (VectorDB.add_documents (batch [e1; e2]) ["A"; "B"]) hnsw0.

(** A fallen-back manager that later receives a batch of 100, and a manager
    that receives the 101 vectors at once. *)
Definition ivf_late : VectorDB.VectorDBManager string :=
  after (VectorDB.add_documents (batch (replicate 100 e2)) (replicate 100 "B")) ivf1.
Definition ivf_once : VectorDB.VectorDBManager string :=
  after (VectorDB.add_documents (batch (e1 :: replicate 100 e2)) ("A" :: replicate 100 "B")) ivf0.

(** A batch of one vector of dimension 3. *)
Definition batch3 : Faiss.ndarray :=
  {| Faiss.shape1 := 3; Faiss.rows := [[1; 0; 0]] |}.

(** Two recipes of a document store keyed by numbers. *)
Definition pho : Retrieval.recipe (Id := nat) :=
  {| Retrieval._id := Some 1%nat; Retrieval.name := Some "pho bo";
     Retrieval.ingredients := Some ["banh pho"; "thit bo"];
     Retrieval.category := Some "monchinh" |}.
Definition che : Retrieval.recipe (Id := nat) :=
  {| Retrieval._id := Some 2%nat; Retrieval.name := Some "che dau";
     Retrieval.ingredients := Some ["dau xanh"; "duong"];
     Retrieval.category := Some "trangmieng" |}.

(** [str.lower] on text that is already in lower case. *)
Definition already_lower (s : string) : string := s.

(** Two factors of equal value. *)
Definition tied_factors : Scorer.factor_dict :=
  [ ("keyword_match", 0%R); ("context_relevance", 0%R) ].

(** Factor values whose weighted sum is 0.385. *)
Definition quiet_factors : Scorer.factor_dict :=
  [ ("semantic_similarity", 1 / 2); ("keyword_match", 1 / 2);
    ("context_relevance", 0); ("data_freshness", 1 / 2);
    ("source_reliability", 1 / 2); ("query_clarity", 1 / 2);
    ("answer_completeness", 1 / 10) ].

(** A reading of the clock (2025-11-03T00:00:00, in microseconds), and a
    recipe stored with a timestamp [days] days after it. *)
Definition clock : Z := 1762128000000000.
Definition recipe_ahead (days : Z) : Scorer.doc :=
  {| Scorer.doc_type := "recipe"; Scorer.name := "pho bo";
     Scorer.searchable_text := "pho bo"; Scorer.question := "";
     Scorer.answer := "";
     Scorer.createdAt := Scorer.At (clock + days * Scorer.microseconds_per_day);
     Scorer.ingredients := ["banh pho"]; Scorer.instructions := ["nau"] |}.

(** A flat manager holding the two vectors. *)
Definition flat0 : VectorDB.VectorDBManager string := VectorDB.__init__ 2 "Flat".
Definition flat1 : VectorDB.VectorDBManager string :=
  after (VectorDB.add_documents (batch [e1; e2]) ["A"; "B"]) flat0.

End Examples.

(** ** vector_db_manager.py: class HybridVectorDB *)
Module Hybrid.
Import Py.
Local Open Scope R_scope.

(** [l[:k]] for an integer [k]: a negative [k] drops the last [-k] items. *)
Definition slice_to {A : Type} (l : list A) (k : Z) : list A :=
  if (k <? 0)%Z then take (Z.to_nat (Z.of_nat (length l) + k)) l
  else take (Z.to_nat k) l.

(** [item[key]] on a dictionary whose key may be absent. *)
Definition require {A : Type} (field : option A) : result A :=
  match field with
  | Some a => Ok a
  | None => Raise KeyError
  end.

(** An item of the FAQ data set; [None] is an absent key. *)
Record faq_item : Type := {
  f_question : option string;
  f_answer : option string;
  f_category : option string;
  f_tags : option (list string)
}.

(** A recipe document of the document store; [None] is an absent key. *)
Record recipe_doc : Type := {
  d_id : option string;
  d_name : option string;
  d_description : option string;
  d_ingredients : option (list string);
  d_instructions : option (list string);
  d_category : option string;
  d_cookingTime : option string;
  d_difficulty : option string
}.

(** The two shapes of metadata dictionary the loaders build. *)
Inductive metadata : Type :=
| Faq (question answer category : string) (tags : list string)
| Recipe (recipe_id name description : string)
         (ingredients instructions : list string)
         (category cookingTime difficulty searchable_text : string).

(** [m['type']] and [m.get('recipe_id')]. *)
Definition type_of (m : metadata) : string :=
  match m with
  | Faq _ _ _ _ => "faq"
  | Recipe _ _ _ _ _ _ _ _ _ => "recipe"
  end.

Definition recipe_id_of (m : metadata) : option string :=
  match m with
  | Faq _ _ _ _ => None
  | Recipe recipe_id _ _ _ _ _ _ _ _ => Some recipe_id
  end.

(** The dictionary [add_faq_data] builds for one item. *)
Definition faq_metadata (item : faq_item) : result metadata :=
  do question <- require (f_question item);
  do answer <- require (f_answer item);
  Ok (Faq question answer (default "general" (f_category item))
          (default [] (f_tags item))).

(** The loop [for item in faq_data: metadata.append(...)]. *)
Fixpoint faq_metadata_list (faq_data : list faq_item) : result (list metadata) :=
  match faq_data with
  | [] => Ok []
  | item :: rest =>
      do m <- faq_metadata item;
      do ms <- faq_metadata_list rest;
      Ok (m :: ms)
  end.

(** The dictionary [add_recipe_data] builds for one recipe. *)
Definition recipe_metadata (recipe : recipe_doc) : metadata :=
  let name := default "" (d_name recipe) in
  let description := default "" (d_description recipe) in
  let ingredients := default [] (d_ingredients recipe) in
  let searchable_text :=
    (name ++ " " ++ description ++ " " ++ join " " ingredients)%string in
  Recipe (default "" (d_id recipe)) name description ingredients
         (default [] (d_instructions recipe))
         (default "" (d_category recipe))
         (default "" (d_cookingTime recipe))
         (default "" (d_difficulty recipe))
         searchable_text.

(** A [HybridVectorDB] instance: the inherited manager and the three lists
    of [data_sources]. *)
Record HybridVectorDB : Type := {
  manager : VectorDB.VectorDBManager metadata;
  faq : list metadata;
  recipes : list metadata;
  tips : list metadata
}.

Definition __init__ (dim : nat) : HybridVectorDB :=
  {| manager := VectorDB.__init__ dim "IVF"; faq := []; recipes := []; tips := [] |}.

(** A method inherited from the manager, run on the hybrid object. *)
Definition inherited {A : Type} (call : method (VectorDB.VectorDBManager metadata) A)
  : method HybridVectorDB A :=
  fun self =>
    let (r, m) := call (manager self) in
    (r, {| manager := m; faq := faq self; recipes := recipes self; tips := tips self |}).

Definition set_faq (ms : list metadata) : method HybridVectorDB unit :=
  fun self => (Ok tt, {| manager := manager self; faq := ms;
                         recipes := recipes self; tips := tips self |}).

Definition set_recipes (ms : list metadata) : method HybridVectorDB unit :=
  fun self => (Ok tt, {| manager := manager self; faq := faq self;
                         recipes := ms; tips := tips self |}).

(** [add_faq_data(self, faq_data, embeddings)]. *)
Definition add_faq_data (faq_data : list faq_item) (embeddings : Faiss.ndarray)
  : method HybridVectorDB unit :=
  run ms <- mlift (faq_metadata_list faq_data);
  run _ <- inherited (VectorDB.add_documents embeddings ms);
  set_faq ms.

(** [add_recipe_data(self, recipes, embeddings)]. *)
Definition add_recipe_data (docs : list recipe_doc) (embeddings : Faiss.ndarray)
  : method HybridVectorDB unit :=
  let ms := map recipe_metadata docs in
  run _ <- inherited (VectorDB.add_documents embeddings ms);
  set_recipes ms.

(** [search_by_type(self, query_embedding, data_type, k)]; the inner search
    runs with the default threshold 0.5. *)
Definition search_by_type `{Faiss.Scan} (self : HybridVectorDB)
    (query_embedding : Faiss.vec) (data_type : string) (k : Z)
  : result (list (VectorDB.search_result metadata)) :=
  do all_results <- VectorDB.search (manager self) query_embedding (k * 3) (1 / 2);
  let filtered_results :=
    List.filter (fun r => String.eqb (type_of (VectorDB.r_metadata r)) data_type)
                all_results in
  Ok (slice_to filtered_results k).

(** [get_recipe_by_id(self, recipe_id)]: the first matching item. *)
Definition is_recipe_with_id (recipe_id : string) (item : metadata) : bool :=
  (String.eqb (type_of item) "recipe"
   && bool_decide (recipe_id_of item = Some recipe_id))%bool.

Definition get_recipe_by_id (self : HybridVectorDB) (recipe_id : string)
  : option metadata :=
  List.find (is_recipe_with_id recipe_id) (VectorDB.metadata (manager self)).

End Hybrid.

(** ** vector_db_manager.py: save and load *)
Module Persistence.
Import Py.

Section Files.
Context {Meta : Type}.

(** The dictionary [save] pickles; a file written by another version may
    lack ['is_trained']. *)
Record pickled : Type := {
  p_metadata : list Meta;
  p_dimension : nat;
  p_index_type : string;
  p_is_trained : option bool
}.

(** A file holds a serialised index or a pickled dictionary; the file system
    maps paths to files and accepts every write. *)
Inductive file : Type :=
| IndexFile (i : Faiss.index)
| PickleFile (p : pickled).

Definition filesystem : Type := gmap string file.

(** The exceptions of this layer beside those of [Py.exn]. *)
Inductive failure : Type :=
| Exn (e : exn)
| TypeError
| UnpicklingError.

Inductive outcome (A : Type) : Type :=
| Done (a : A)
| Failed (f : failure).

(** [save(self, index_path, metadata_path)]: the index file is written
    first, then the metadata file. *)
Definition save (self : VectorDB.VectorDBManager Meta) (index_path metadata_path : string)
    (fs : filesystem) : outcome unit * filesystem :=
  match VectorDB.index self with
  | None => (Failed unit TypeError, fs)
  | Some i =>
      let fs := <[index_path := IndexFile i]> fs in
      let fs := <[metadata_path :=
                    PickleFile {| p_metadata := VectorDB.metadata self;
                                  p_dimension := VectorDB.dimension self;
                                  p_index_type := VectorDB.index_type self;
                                  p_is_trained := Some (VectorDB.is_trained self) |}]> fs in
      (Done unit tt, fs)
  end.

(** [load(self, index_path, metadata_path)]: the returned manager is the
    object after the call. *)
Definition load (self : VectorDB.VectorDBManager Meta) (index_path metadata_path : string)
    (fs : filesystem) : outcome bool * VectorDB.VectorDBManager Meta :=
  match fs !! index_path, fs !! metadata_path with
  | None, _ | _, None => (Done bool false, self)
  | Some (PickleFile _), Some _ => (Failed bool (Exn RuntimeError), self)
  | Some (IndexFile i), Some f =>
      let self1 :=
        {| VectorDB.dimension := VectorDB.dimension self;
           VectorDB.index_type := VectorDB.index_type self;
           VectorDB.index := Some i;
           VectorDB.metadata := VectorDB.metadata self;
           VectorDB.is_trained := VectorDB.is_trained self |} in
      match f with
      | IndexFile _ => (Failed bool UnpicklingError, self1)
      | PickleFile data =>
          (Done bool true,
           {| VectorDB.dimension := p_dimension data;
              VectorDB.index_type := p_index_type data;
              VectorDB.index := Some i;
              VectorDB.metadata := p_metadata data;
              VectorDB.is_trained := default false (p_is_trained data) |})
      end
  end.

End Files.

End Persistence.

(** ** mongodb_sync.py: the searchable text of a recipe *)
Module Sync.
Import Py.

(** A recipe document, by the fields the text is built from; [None] is an
    absent key, and a list field holding something else than a list is
    absent too. *)
Record recipe : Type := {
  name : option string;
  description : option string;
  category : option string;
  ingredients : option (list string);
  instructions : option (list string);
  cookingTime : option string;
  difficulty : option string;
  tags : option (list string)
}.

Definition category_map : list (string * string) :=
  [ ("monchinh", "món chính");
    ("monphu", "món phụ");
    ("trangmieng", "tráng miệng");
    ("douong", "đồ uống");
    ("anvat", "ăn vặt") ].

(** [category_map.get(code, code)]. *)
Definition category_name (code : string) : string :=
  default code (snd <$> List.find (fun kv => String.eqb (fst kv) code) category_map).

(** A part for a truthy string field, for a truthy list field. *)
Definition text_part (label : string) (field : option string) : list string :=
  match field with
  | Some s => if String.eqb s "" then [] else [(label ++ s)%string]
  | None => []
  end.

Definition list_part (label sep : string) (field : option (list string)) : list string :=
  match field with
  | Some (x :: l) => [(label ++ join sep (x :: l))%string]
  | _ => []
  end.

(** The part for a truthy category: its code is shown by its name. *)
Definition category_part (field : option string) : list string :=
  match field with
  | Some c => if String.eqb c "" then [] else [("Danh mục: " ++ category_name c)%string]
  | None => []
  end.

(** [_recipe_to_searchable_text(self, recipe)]. *)
Definition _recipe_to_searchable_text (r : recipe) : string :=
  let parts :=
    text_part "Tên món: " (name r)
    ++ text_part "Mô tả: " (description r)
    ++ category_part (category r)
    ++ list_part "Nguyên liệu: " ", " (ingredients r)
    ++ list_part "Cách làm: " ". " (instructions r)
    ++ text_part "Thời gian: " (cookingTime r)
    ++ text_part "Độ khó: " (difficulty r)
    ++ list_part "Tags: " ", " (tags r) in
  join " | " parts.

End Sync.

(** ** Sequences of calls on a manager *)
Module Runs.
Import Py.

Section Fed.
Context {Meta : Type}.

(** The managers built by calls that pass one metadata entry per vector. *)
Inductive fed : VectorDB.VectorDBManager Meta -> Prop :=
| fed_init dim ty : fed (VectorDB.__init__ dim ty)
| fed_add self e md self' :
    fed self ->
    Faiss.nrows e = length md ->
    VectorDB.add_documents e md self = (Ok tt, self') ->
    fed self'.

End Fed.

End Runs.

(** ** The order of the confidence levels *)
Module Levels.

(** The position of a level, from the lowest to the highest. *)
Definition rank (l : Scorer.ConfidenceLevel) : nat :=
  match l with
  | Scorer.VERY_LOW => 0
  | Scorer.LOW => 1
  | Scorer.MEDIUM => 2
  | Scorer.HIGH => 3
  | Scorer.VERY_HIGH => 4
  end.

End Levels.

(** ** Further concrete inputs *)
Module MoreExamples.
Import Py Examples.
Local Open Scope R_scope.

(** The index the flat example manager holds. *)
Definition flat1_store : Faiss.index :=
  {| Faiss.cls := Faiss.IndexFlat; Faiss.d := 2;
     Faiss.metric_type := Faiss.METRIC_INNER_PRODUCT; Faiss.is_trained := true;
     Faiss.xb := map Faiss.renorm [e1; e2] |}.

(** The two entries a search for [e1] over the flat example returns. *)
Definition flat1_hits : list (VectorDB.search_result string) :=
  [ {| VectorDB.r_metadata := "A"; VectorDB.similarity_score := 1; VectorDB.r_index := 0 |};
    {| VectorDB.r_metadata := "B"; VectorDB.similarity_score := 0; VectorDB.r_index := 1 |} ].

(** A hybrid store of dimension 2, a FAQ item, one that lacks its answer,
    and two versions of a recipe document under the same id. *)
Definition hybrid0 : Hybrid.HybridVectorDB := Hybrid.__init__ 2.

Definition faq1 : Hybrid.faq_item :=
  {| Hybrid.f_question := Some "pho la gi"; Hybrid.f_answer := Some "mot mon nuoc";
     Hybrid.f_category := None; Hybrid.f_tags := None |}.

Definition faq_without_answer : Hybrid.faq_item :=
  {| Hybrid.f_question := Some "pho la gi"; Hybrid.f_answer := None;
     Hybrid.f_category := None; Hybrid.f_tags := None |}.

Definition doc_pho : Hybrid.recipe_doc :=
  {| Hybrid.d_id := Some "r1"; Hybrid.d_name := Some "pho bo";
     Hybrid.d_description := None; Hybrid.d_ingredients := Some ["banh pho"; "thit bo"];
     Hybrid.d_instructions := None; Hybrid.d_category := Some "monchinh";
     Hybrid.d_cookingTime := None; Hybrid.d_difficulty := None |}.

Definition doc_pho_revised : Hybrid.recipe_doc :=
  {| Hybrid.d_id := Some "r1"; Hybrid.d_name := Some "pho ga";
     Hybrid.d_description := None; Hybrid.d_ingredients := Some ["banh pho"; "thit ga"];
     Hybrid.d_instructions := None; Hybrid.d_category := Some "monchinh";
     Hybrid.d_cookingTime := None; Hybrid.d_difficulty := None |}.

(** The store after one FAQ item, then one recipe; and after a recipe, then
    its revision. *)
Definition hybrid_faq : Hybrid.HybridVectorDB :=
  after (Hybrid.add_faq_data [faq1] (batch [e1])) hybrid0.
Definition hybrid_faq_recipe : Hybrid.HybridVectorDB :=
  after (Hybrid.add_recipe_data [doc_pho] (batch [e2])) hybrid_faq.
Definition hybrid_recipe : Hybrid.HybridVectorDB :=
  after (Hybrid.add_recipe_data [doc_pho] (batch [e1])) hybrid0.
Definition hybrid_revised : Hybrid.HybridVectorDB :=
  after (Hybrid.add_recipe_data [doc_pho_revised] (batch [e2])) hybrid_recipe.

(** The two files of the chatbot, and the file system after the flat
    example manager is saved on an empty one. *)
Definition index_path : string := "./vector_index.faiss".
Definition metadata_path : string := "./vector_metadata.pkl".
Definition saved_files : Persistence.filesystem (Meta := string) :=
  snd (Persistence.save flat1 index_path metadata_path ∅).

(** A recipe document of the sync layer. *)
Definition sync_pho : Sync.recipe :=
  {| Sync.name := Some "pho bo"; Sync.description := None;
     Sync.category := Some "monchinh";
     Sync.ingredients := Some ["banh pho"; "thit bo"];
     Sync.instructions := None; Sync.cookingTime := None;
     Sync.difficulty := None; Sync.tags := None |}.

(** A word splitter that takes the text as one word, and a number format
    that prints nothing. *)
Definition one_word (s : string) : list string := [s].
Definition no_digits (x : R) : string := "".

(** The entry a search for [e1] returns on the store holding the recipe. *)
Definition hybrid_recipe_hit : VectorDB.search_result Hybrid.metadata :=
  {| VectorDB.r_metadata := Hybrid.recipe_metadata doc_pho;
     VectorDB.similarity_score := 1; VectorDB.r_index := 0 |}.

End MoreExamples.

(* ===================================================================== *)
(** * Part II.  Properties                                                *)
(* ===================================================================== *)

(** ** Facts about the Python runtime model *)
Module PyFacts.
Import Py.
Local Open Scope R_scope.

Lemma fge_true (x y : R) : fge x y = true <-> y <= x.
Proof. unfold fge. apply bool_decide_eq_true. Qed.

Lemma fge_false (x y : R) : fge x y = false <-> x < y.
Proof.
  unfold fge. rewrite bool_decide_eq_false. split; intros Hxy; lra.
Qed.

Lemma flt_true (x y : R) : flt x y = true <-> x < y.
Proof. unfold flt. apply bool_decide_eq_true. Qed.

Lemma flt_false (x y : R) : flt x y = false <-> y <= x.
Proof.
  unfold flt. rewrite bool_decide_eq_false. split; intros Hxy; lra.
Qed.

Lemma Ok_inj {A : Type} (a b : A) : Ok a = Ok b -> a = b.
Proof. intros [= ->]. reflexivity. Qed.

Lemma bind_ok {A B : Type} (c : result A) (k : A -> result B) (b : B) :
  bind c k = Ok b <-> exists a, c = Ok a /\ k a = Ok b.
Proof.
  destruct c as [a|e]; simpl; split.
  - intros Hk. exists a. split; [reflexivity | exact Hk].
  - intros (a' & Ha & Hk). injection Ha as ->. exact Hk.
  - discriminate.
  - intros (a' & Ha & _). discriminate.
Qed.

Section SortFacts.
Context {A : Type} (before : A -> A -> bool).

Lemma insert_by_perm (x : A) (l : list A) : insert_by before x l ≡ₚ x :: l.
Proof.
  induction l as [|y l IH]; simpl; [reflexivity|].
  destruct (before y x); [|reflexivity].
  rewrite IH. apply Permutation_swap.
Qed.

Lemma sort_by_perm (l : list A) : sort_by before l ≡ₚ l.
Proof.
  induction l as [|x l IH]; simpl; [reflexivity|].
  unfold sort_by in *. simpl. rewrite insert_by_perm, IH. reflexivity.
Qed.

Lemma sort_by_length (l : list A) : length (sort_by before l) = length l.
Proof. apply Permutation_length, sort_by_perm. Qed.

Lemma sort_by_cons (x : A) (l : list A) :
  sort_by before (x :: l) = insert_by before x (sort_by before l).
Proof. reflexivity. Qed.

(** An element that every element of [l] precedes goes last. *)
Lemma insert_by_all_before (x : A) (l : list A) :
  Forall (fun y => before y x = true) l -> insert_by before x l = l ++ [x].
Proof.
  induction 1 as [|y l Hy _ IH]; simpl; [reflexivity|].
  rewrite Hy, IH. reflexivity.
Qed.

(** An element that the last one does not precede leaves it last. *)
Lemma insert_by_keeps_last (x w : A) (l : list A) :
  before w x = false -> exists init, insert_by before x (l ++ [w]) = init ++ [w].
Proof.
  intros Hw. induction l as [|y l [init IH]]; simpl.
  - rewrite Hw. exists [x]. reflexivity.
  - destruct (before y x).
    + rewrite IH. exists (y :: init). reflexivity.
    + exists (x :: y :: l). reflexivity.
Qed.

(** The output is ordered by any transitive relation that agrees with
    the two outcomes of the comparison. *)
Variable rel : A -> A -> Prop.
Hypothesis rel_trans : forall a b c, rel a b -> rel b c -> rel a c.
Hypothesis before_true : forall x y, before y x = true -> rel y x.
Hypothesis before_false : forall x y, before y x = false -> rel x y.

Lemma insert_by_sorted (x : A) (l : list A) :
  StronglySorted rel l -> StronglySorted rel (insert_by before x l).
Proof using rel_trans before_true before_false.
  induction 1 as [|y l Hl IH Hy]; simpl.
  - repeat constructor.
  - destruct (before y x) eqn:Hb.
    + constructor; [exact IH|].
      rewrite insert_by_perm.
      constructor; [apply before_true, Hb | exact Hy].
    + constructor; [constructor; assumption|].
      constructor; [apply before_false, Hb|].
      apply (Forall_impl _ _ _ Hy). intros z Hz.
      apply rel_trans with y; [apply before_false, Hb | exact Hz].
Qed.

Lemma sort_by_sorted (l : list A) : StronglySorted rel (sort_by before l).
Proof using rel_trans before_true before_false.
  induction l as [|x l IH]; [constructor|].
  rewrite sort_by_cons. apply insert_by_sorted, IH.
Qed.
End SortFacts.

Lemma sorted_desc_descending {A : Type} (key : A -> R) (l : list A) :
  descending key (sorted_desc key l).
Proof.
  apply sort_by_sorted.
  - intros a b c Hab Hbc. lra.
  - intros x y Hb. apply flt_true in Hb. lra.
  - intros x y Hb. apply flt_false in Hb. lra.
Qed.

Lemma sorted_asc_ascending {A : Type} (key : A -> R) (l : list A) :
  ascending key (sorted_asc key l).
Proof.
  apply sort_by_sorted.
  - intros a b c Hab Hbc. lra.
  - intros x y Hb. apply flt_true in Hb. lra.
  - intros x y Hb. apply flt_false in Hb. lra.
Qed.

Lemma getitem_first {A : Type} (x : A) (l : list A) : getitem (x :: l) 0 = Ok x.
Proof.
  unfold getitem. cbv zeta.
  change (0 <? 0)%Z with false. cbv iota.
  change (0 <=? 0)%Z with true.
  assert (Hn : (0 <? Z.of_nat (length (x :: l)))%Z = true).
  { apply Z.ltb_lt. simpl. lia. }
  rewrite Hn. reflexivity.
Qed.

Lemma getitem_last {A : Type} (l : list A) (x : A) : getitem (l ++ [x]) (-1) = Ok x.
Proof.
  unfold getitem. cbv zeta.
  change (-1 <? 0)%Z with true. cbv iota.
  rewrite length_app. simpl length.
  replace (Z.of_nat (length l + 1) + -1)%Z with (Z.of_nat (length l)) by lia.
  assert (H0 : (0 <=? Z.of_nat (length l))%Z = true) by (apply Z.leb_le; lia).
  assert (H1 : (Z.of_nat (length l) <? Z.of_nat (length l + 1))%Z = true)
    by (apply Z.ltb_lt; lia).
  rewrite H0, H1, Nat2Z.id. simpl.
  rewrite nth_error_app2 by lia. rewrite Nat.sub_diag. reflexivity.
Qed.

Lemma getitem_nil {A : Type} (i : Z) : getitem (@nil A) i = Raise IndexError.
Proof.
  unfold getitem. cbv zeta. simpl length. change (Z.of_nat 0) with 0%Z.
  destruct (i <? 0)%Z eqn:Hi.
  - assert (Hj : (0 <=? 0 + i)%Z = false) by (apply Z.leb_gt; apply Z.ltb_lt in Hi; lia).
    rewrite Hj. reflexivity.
  - rewrite Hi, andb_false_r. reflexivity.
Qed.

Lemma filter_sublist {A : Type} (f : A -> bool) (l : list A) :
  List.filter f l `sublist_of` l.
Proof.
  induction l as [|x l IH]; simpl; [constructor|].
  destruct (f x); [apply sublist_skip | apply sublist_cons]; exact IH.
Qed.

Lemma StronglySorted_sublist {A : Type} (rel : A -> A -> Prop) (l1 l2 : list A) :
  l1 `sublist_of` l2 -> StronglySorted rel l2 -> StronglySorted rel l1.
Proof.
  induction 1 as [|x l1 l2 Hsub IH|x l1 l2 Hsub IH]; intros Hs.
  - constructor.
  - apply StronglySorted_inv in Hs as [Hs Hx].
    constructor; [apply IH, Hs|].
    apply Forall_forall. intros y Hy.
    rewrite Forall_forall in Hx. apply Hx.
    eapply elem_of_sublist; eassumption.
  - apply StronglySorted_inv in Hs as [Hs _]. apply IH, Hs.
Qed.

Lemma StronglySorted_map {A B : Type} (f : A -> B) (rel : B -> B -> Prop) (l : list A) :
  StronglySorted rel (map f l) <-> StronglySorted (fun a b => rel (f a) (f b)) l.
Proof.
  induction l as [|x l IH]; simpl.
  - split; constructor.
  - split; intros Hs; apply StronglySorted_inv in Hs as [Hs Hx];
      (constructor; [apply IH, Hs|]).
    + rewrite List.Forall_map in Hx. exact Hx.
    + rewrite List.Forall_map. exact Hx.
Qed.

(** Settles the float comparisons of a goal whose operands are known. *)
Ltac fcompare :=
  repeat match goal with
         | |- context [fge ?a ?b] =>
             first [ rewrite (proj2 (fge_true a b)) by lra
                   | rewrite (proj2 (fge_false a b)) by lra ]
         | |- context [flt ?a ?b] =>
             first [ rewrite (proj2 (flt_true a b)) by lra
                   | rewrite (proj2 (flt_false a b)) by lra ]
         end.

Lemma filter_length_le {A : Type} (f : A -> bool) (l : list A) :
  (length (List.filter f l) <= length l)%nat.
Proof. apply sublist_length, filter_sublist. Qed.

End PyFacts.

(** ** Facts about the FAISS model *)
Module FaissFacts.
Import Py PyFacts.
Local Open Scope R_scope.

Lemma nrows_normalize (a : Faiss.ndarray) :
  Faiss.nrows (Faiss.normalize_L2 a) = Faiss.nrows a.
Proof. unfold Faiss.nrows, Faiss.normalize_L2. simpl. apply length_map. Qed.

Lemma ntotal_flat (dim : nat) : Faiss.ntotal (Faiss.IndexFlatIP dim) = 0%nat.
Proof. reflexivity. Qed.

(** A vector of norm 1 is left as it is. *)
Lemma renorm_unit (v : Faiss.vec) : Faiss.dot v v = 1 -> Faiss.renorm v = v.
Proof.
  intros Hv. unfold Faiss.renorm. rewrite Hv.
  rewrite bool_decide_eq_true_2 by lra.
  rewrite sqrt_1. rewrite <- (map_id v) at 2.
  apply map_ext. intros x. unfold id. field.
Qed.

Section SearchFacts.
Context `{Faiss.Scan}.

Lemma search_length (i : Faiss.index) (q : Faiss.vec) (k : Z) hits :
  Faiss.search i q k = Ok hits -> length hits = Z.to_nat k.
Proof.
  unfold Faiss.search.
  destruct (negb _); [discriminate|].
  destruct (k <=? 0)%Z; [discriminate|].
  intros [= <-]. rewrite length_app, length_replicate, length_take. lia.
Qed.

(** Every entry is a stored vector with its ordinal, or the padding. *)
Lemma hit_label (i : Faiss.index) (q : Faiss.vec) (n : nat) (h : R * Z) :
  Faiss.hit i q n = Some h -> (0 <= snd h)%Z.
Proof.
  unfold Faiss.hit. destruct (Faiss.xb i !! n); simpl; [|discriminate].
  intros [= <-]. simpl. lia.
Qed.

Lemma ranked_perm (i : Faiss.index) (hits : list (R * Z)) :
  Faiss.ranked i hits ≡ₚ hits.
Proof.
  unfold Faiss.ranked, sorted_desc, sorted_asc.
  destruct (Faiss.metric_type i); apply sort_by_perm.
Qed.

(** The result of a search splits into real hits and padding. *)
Lemma search_shape (i : Faiss.index) (q : Faiss.vec) (k : Z) hits :
  Faiss.search i q k = Ok hits ->
  exists best n,
    hits = best ++ replicate n (Faiss.padding i)
    /\ best = take (Z.to_nat k) (Faiss.ranked i (omap (Faiss.hit i q) (Faiss.candidates i q)))
    /\ Forall (fun h => (0 <= snd h)%Z) best.
Proof.
  unfold Faiss.search.
  destruct (negb _); [discriminate|].
  destruct (k <=? 0)%Z; [discriminate|].
  intros [= <-]. eexists _, _. split; [reflexivity|]. split; [reflexivity|].
  apply Forall_take. rewrite ranked_perm.
  apply Forall_forall. intros h Hh.
  apply list_elem_of_omap in Hh as (n & _ & Hn).
  eapply hit_label, Hn.
Qed.
End SearchFacts.

End FaissFacts.

(** ** vector_db_manager.py: properties *)
Module VectorDBFacts.
Import Py PyFacts FaissFacts VectorDB.
Local Open Scope R_scope.
Local Arguments Nat.leb : simpl never.
Local Arguments Nat.ltb : simpl never.

Section ManagerFacts.
Context {Meta : Type}.
Context `{Faiss.Scan}.
Abbreviation manager := (VectorDBManager Meta).

(** The entries [collect] returns are the hits the filter keeps, in order. *)
Lemma collect_entries (md : list Meta) (thr : R) hits rs :
  collect md thr hits = Ok rs ->
  map entry rs = List.filter (keeps thr) hits.
Proof.
  revert rs. induction hits as [|[score idx] hits IH]; simpl; intros rs.
  - intros [= <-]. reflexivity.
  - destruct (keeps thr (score, idx)); [|apply IH].
    intros Hc. apply bind_ok in Hc as (m & _ & Hc).
    apply bind_ok in Hc as (rs' & Hrs & [= <-]).
    simpl. f_equal. apply IH, Hrs.
Qed.

Lemma keeps_padding (thr : R) (i : Faiss.index) (n : nat) :
  List.filter (keeps thr) (replicate n (Faiss.padding i)) = [].
Proof. induction n as [|n IH]; simpl; [reflexivity | exact IH]. Qed.

(** What [search] returns, in terms of the index's ranked hits. *)
Lemma search_entries (self : manager) (i : Faiss.index) q k thr rs :
  index self = Some i ->
  search self q k thr = Ok rs ->
  rs = [] \/
  map entry rs =
    List.filter (keeps thr)
      (take (Z.to_nat k)
         (Faiss.ranked i (omap (Faiss.hit i (Faiss.renorm q))
                               (Faiss.candidates i (Faiss.renorm q))))).
Proof.
  intros Hi. unfold search. rewrite Hi.
  destruct (Faiss.ntotal i =? 0)%nat.
  - intros [= <-]. left. reflexivity.
  - intros Hs. right. apply bind_ok in Hs as (hits & Hh & Hc).
    apply search_shape in Hh as (best & n & -> & -> & _).
    apply collect_entries in Hc. rewrite Hc.
    rewrite List.filter_app, keeps_padding, app_nil_r. reflexivity.
Qed.

(** [search] returns at most [k] entries. *)
Lemma search_at_most_k (self : manager) q k thr rs :
  search self q k thr = Ok rs -> (length rs <= Z.to_nat k)%nat.
Proof.
  intros Hs. destruct (index self) as [i|] eqn:Hi.
  - destruct (search_entries self i q k thr rs Hi Hs) as [-> | He].
    + simpl. lia.
    + rewrite <- (length_map entry), He.
      etransitivity; [apply filter_length_le|].
      rewrite length_take. lia.
  - unfold search in Hs. rewrite Hi in Hs. discriminate.
Qed.

(** Every returned score passed the comparison with the threshold. *)
Lemma search_above_threshold (self : manager) q k thr rs :
  search self q k thr = Ok rs ->
  Forall (fun r => thr <= similarity_score r) rs.
Proof.
  intros Hs. destruct (index self) as [i|] eqn:Hi.
  - destruct (search_entries self i q k thr rs Hi Hs) as [-> | He].
    + constructor.
    + apply Forall_forall. intros r Hr.
      assert (Hin : In (entry r) (map entry rs)).
      { apply in_map, list_elem_of_In, Hr. }
      rewrite He in Hin. apply filter_In in Hin as [_ Hk].
      unfold keeps in Hk. apply andb_true_iff in Hk as [_ Hk].
      apply fge_true in Hk. exact Hk.
  - unfold search in Hs. rewrite Hi in Hs. discriminate.
Qed.

(** Over an inner-product index the scores never increase along the result. *)
Lemma search_descending_inner_product (self : manager) (i : Faiss.index) q k thr rs :
  index self = Some i ->
  Faiss.metric_type i = Faiss.METRIC_INNER_PRODUCT ->
  search self q k thr = Ok rs ->
  descending similarity_score rs.
Proof.
  intros Hi Hm Hs.
  destruct (search_entries self i q k thr rs Hi Hs) as [-> | He]; [constructor|].
  unfold descending.
  apply (StronglySorted_map entry (fun a b => fst b <= fst a)).
  rewrite He. eapply StronglySorted_sublist; [apply filter_sublist|].
  eapply StronglySorted_sublist; [apply sublist_take|].
  unfold Faiss.ranked. rewrite Hm. apply sorted_desc_descending.
Qed.

(** Over an L2 index the returned values never decrease: they are distances. *)
Lemma search_ascending_l2 (self : manager) (i : Faiss.index) q k thr rs :
  index self = Some i ->
  Faiss.metric_type i = Faiss.METRIC_L2 ->
  search self q k thr = Ok rs ->
  ascending similarity_score rs.
Proof.
  intros Hi Hm Hs.
  destruct (search_entries self i q k thr rs Hi Hs) as [-> | He]; [constructor|].
  unfold ascending.
  apply (StronglySorted_map entry (fun a b => fst a <= fst b)).
  rewrite He. eapply StronglySorted_sublist; [apply filter_sublist|].
  eapply StronglySorted_sublist; [apply sublist_take|].
  unfold Faiss.ranked. rewrite Hm. apply sorted_asc_ascending.
Qed.

(** The three ways a call of [add_documents] succeeds. *)
Lemma add_documents_inv (self self' : manager) e md :
  add_documents e md self = (Ok tt, self') ->
  Faiss.shape1 e = dimension self /\
  exists i0 i' t',
    Faiss.add i0 (Faiss.normalize_L2 e) = Ok i' /\
    self' = {| dimension := dimension self; index_type := index_type self;
               index := Some i'; metadata := metadata self ++ md;
               is_trained := t' |} /\
    ( (index_type self = "IVF" /\ is_trained self = false
       /\ (Faiss.nrows e < 100)%nat
       /\ i0 = Faiss.IndexFlatIP (dimension self) /\ t' = false)
      \/ (index_type self = "IVF" /\ is_trained self = false
          /\ (100 <= Faiss.nrows e)%nat
          /\ (exists i, index self = Some i
                        /\ Faiss.train i (Faiss.normalize_L2 e) = Ok i0)
          /\ t' = true)
      \/ ((index_type self <> "IVF" \/ is_trained self = true)
          /\ index self = Some i0 /\ t' = is_trained self) ).
Proof.
  unfold add_documents, mbind, mget.
  destruct (Faiss.shape1 e =? dimension self)%nat eqn:Hd; simpl; [|discriminate].
  apply Nat.eqb_eq in Hd. intros Ha. split; [exact Hd|].
  destruct (String.eqb (index_type self) "IVF") eqn:Hty; simpl in Ha.
  - apply String.eqb_eq in Hty.
    destruct (is_trained self) eqn:Htr; simpl in Ha.
    + unfold mret, the_index in Ha.
      destruct (index self) as [i|] eqn:Hi; [|discriminate].
      unfold mlift in Ha.
      destruct (Faiss.add i (Faiss.normalize_L2 e)) as [i'|] eqn:Hadd; [|discriminate].
      simpl in Ha. injection Ha as <-.
      exists i, i', (is_trained self). split; [exact Hadd|]. split; [reflexivity|].
      right. right. auto.
    + rewrite nrows_normalize in Ha.
      destruct (100 <=? Faiss.nrows e)%nat eqn:Hn.
      * apply Nat.leb_le in Hn.
        unfold the_index in Ha. simpl in Ha.
        destruct (index self) as [i|] eqn:Hi; [|discriminate].
        unfold mlift in Ha.
        destruct (Faiss.train i (Faiss.normalize_L2 e)) as [i0|] eqn:Htrain; [|discriminate].
        simpl in Ha.
        destruct (Faiss.add i0 (Faiss.normalize_L2 e)) as [i'|] eqn:Hadd; [|discriminate].
        simpl in Ha. injection Ha as <-.
        exists i0, i', true. split; [exact Hadd|]. split; [reflexivity|].
        right. left. repeat split; eauto.
      * apply Nat.leb_gt in Hn.
        simpl in Ha. unfold mlift in Ha.
        destruct (Faiss.add _ (Faiss.normalize_L2 e)) as [i'|] eqn:Hadd; [|discriminate].
        simpl in Ha. injection Ha as <-.
        eexists _, i', (is_trained self). split; [exact Hadd|]. split; [reflexivity|].
        left. repeat split; auto.
  - apply String.eqb_neq in Hty.
    unfold mret, the_index in Ha.
    destruct (index self) as [i|] eqn:Hi; [|discriminate].
    unfold mlift in Ha.
    destruct (Faiss.add i (Faiss.normalize_L2 e)) as [i'|] eqn:Hadd; [|discriminate].
    simpl in Ha. injection Ha as <-.
    exists i, i', (is_trained self). split; [exact Hadd|]. split; [reflexivity|].
    right. right. auto.
Qed.

(** The fallback branch, computed. *)
Lemma add_documents_fallback (self : manager) e md :
  index_type self = "IVF" -> is_trained self = false ->
  Faiss.shape1 e = dimension self -> (Faiss.nrows e < 100)%nat ->
  add_documents e md self =
    (Ok tt,
     {| dimension := dimension self; index_type := index_type self;
        index := Some {| Faiss.cls := Faiss.IndexFlat; Faiss.d := dimension self;
                         Faiss.metric_type := Faiss.METRIC_INNER_PRODUCT;
                         Faiss.is_trained := true;
                         Faiss.xb := Faiss.rows (Faiss.normalize_L2 e) |};
        metadata := metadata self ++ md; is_trained := is_trained self |}).
Proof.
  intros Hty Htr Hd Hn.
  unfold add_documents, mbind, mget.
  rewrite Hd, Nat.eqb_refl. cbn [negb].
  rewrite Hty, Htr. cbn [String.eqb Ascii.eqb Bool.eqb andb negb].
  rewrite nrows_normalize.
  apply Nat.leb_gt in Hn. rewrite Hn.
  unfold set_index, the_index, mlift, extend_metadata, Faiss.add. simpl.
  rewrite Hd, Nat.eqb_refl. simpl. rewrite ?Hty, ?Htr. reflexivity.
Qed.

(** Outside the fallback branch, a call on a healthy index appends. *)
Lemma add_documents_plain (self : manager) (i : Faiss.index) e md :
  (index_type self <> "IVF" \/ is_trained self = true) ->
  index self = Some i -> Faiss.is_trained i = true -> Faiss.d i = dimension self ->
  Faiss.shape1 e = dimension self ->
  add_documents e md self =
    (Ok tt,
     {| dimension := dimension self; index_type := index_type self;
        index := Some {| Faiss.cls := Faiss.cls i; Faiss.d := Faiss.d i;
                         Faiss.metric_type := Faiss.metric_type i;
                         Faiss.is_trained := Faiss.is_trained i;
                         Faiss.xb := Faiss.xb i ++ Faiss.rows (Faiss.normalize_L2 e) |};
        metadata := metadata self ++ md; is_trained := is_trained self |}).
Proof.
  intros Hc Hi Ht Hdi Hd.
  unfold add_documents, mbind, mget.
  rewrite Hd, Nat.eqb_refl. cbn [negb].
  assert (Hb : (String.eqb (index_type self) "IVF" && negb (is_trained self))%bool = false).
  { destruct Hc as [Hc | Hc].
    - apply String.eqb_neq in Hc. rewrite Hc. reflexivity.
    - rewrite Hc. apply andb_false_r. }
  rewrite Hb. unfold mret, the_index. rewrite Hi.
  unfold mlift, Faiss.add. simpl. rewrite Hdi, Hd, Nat.eqb_refl, Ht. reflexivity.
Qed.

(** The lockstep invariant survives a call with as many metadata entries as
    vectors, unless the call falls back over a manager that already holds
    documents. *)
Lemma add_documents_keeps_lockstep (self self' : manager) e md :
  lockstep self ->
  Faiss.nrows e = length md ->
  (index_type self = "IVF" -> is_trained self = false ->
   (Faiss.nrows e < 100)%nat -> metadata self = []) ->
  add_documents e md self = (Ok tt, self') ->
  lockstep self'.
Proof.
  intros Hl Hlen Hfresh Ha.
  apply add_documents_inv in Ha as (Hd & i0 & i' & t' & Hadd & -> & Hcase).
  unfold lockstep. simpl.
  unfold Faiss.add in Hadd.
  destruct (negb (Faiss.shape1 _ =? Faiss.d i0)%nat); [discriminate|].
  destruct (negb (Faiss.is_trained i0)); [discriminate|].
  injection Hadd as <-. unfold Faiss.ntotal. simpl.
  rewrite !length_app, length_map. fold (Faiss.nrows e). rewrite <- Hlen.
  destruct Hcase as [(Hty & Htr & Hn & -> & _) | [(_ & _ & _ & (i & Hi & Htrain) & _) | (_ & Hi & _)]].
  - rewrite (Hfresh Hty Htr Hn). reflexivity.
  - unfold lockstep in Hl. rewrite Hi in Hl.
    assert (Hxb : Faiss.xb i0 = Faiss.xb i).
    { unfold Faiss.train in Htrain.
      destruct (negb _); [discriminate|].
      destruct (Faiss.cls i); try (injection Htrain as <-; reflexivity).
      destruct (Faiss.is_trained i); [injection Htrain as <-; reflexivity|].
      destruct (Faiss.nrows _ <? nlist)%nat; [discriminate|].
      injection Htrain as <-. reflexivity. }
    rewrite Hxb. unfold Faiss.ntotal in Hl. lia.
  - unfold lockstep in Hl. rewrite Hi in Hl. unfold Faiss.ntotal in Hl. lia.
Qed.

(** The defect in general: a fallback over a manager that already holds
    documents leaves the metadata table longer than the index. *)
Lemma repeated_fallback_breaks_lockstep (self : manager) e md :
  index_type self = "IVF" -> is_trained self = false ->
  metadata self <> [] ->
  Faiss.shape1 e = dimension self -> (Faiss.nrows e < 100)%nat ->
  Faiss.nrows e = length md ->
  exists self', add_documents e md self = (Ok tt, self') /\ ~ lockstep self'.
Proof.
  intros Hty Htr Hmd Hd Hn Hlen.
  eexists. split; [apply add_documents_fallback; assumption|].
  unfold lockstep, Faiss.ntotal. simpl.
  rewrite length_app, length_map. fold (Faiss.nrows e). rewrite Hlen.
  destruct (metadata self); [contradiction|]. simpl. lia.
Qed.

(** The metric of the index each index type is created with. *)
Lemma created_metric (dim : nat) :
  Faiss.metric_type <$> _create_index dim "Flat" = Some Faiss.METRIC_INNER_PRODUCT
  /\ Faiss.metric_type <$> _create_index dim "IVF" = Some Faiss.METRIC_L2
  /\ Faiss.metric_type <$> _create_index dim "HNSW" = Some Faiss.METRIC_L2.
Proof. repeat split. Qed.

(** A reachable manager that reports an untrained inverted-file index either
    has fallen back or holds no vector. *)
Lemma reachable_untrained (s : manager) :
  reachable s ->
  index_type s = "IVF" -> is_trained s = false ->
  fell_back s = true \/ exists i, index s = Some i /\ Faiss.ntotal i = 0%nat.
Proof.
  induction 1 as [dim ty | self e md self' Hr IH Ha]; intros Hty Htr.
  - simpl in Hty. subst ty. right. eexists. split; reflexivity.
  - apply add_documents_inv in Ha as (Hd & i0 & i' & t' & Hadd & -> & Hcase).
    simpl in Hty, Htr.
    destruct Hcase as [(_ & _ & _ & -> & _) | [(_ & _ & _ & _ & ->) | ([Hne | Ht] & _ & ->)]].
    + left. unfold fell_back. simpl. rewrite Hty.
      unfold Faiss.add in Hadd.
      destruct (negb (_ =? _)%nat); [discriminate|].
      simpl in Hadd. injection Hadd as <-. reflexivity.
    + discriminate.
    + contradiction.
    + congruence.
Qed.

(** C7: a batch holding a vector whose length differs from the index
    dimension makes [add_documents] raise [ValueError] (the code's dimension
    mismatch error), and the manager -- index and metadata table -- is the one
    before the call. *)
Theorem add_documents_dimension_mismatch (self : manager) e md :
  Faiss.well_shaped e ->
  (exists v, v ∈ Faiss.rows e /\ length v <> dimension self) ->
  add_documents e md self = (Raise ValueError, self).
Proof.
  intros Hw (v & Hv & Hlen).
  unfold Faiss.well_shaped in Hw. rewrite Forall_forall in Hw.
  specialize (Hw v Hv).
  unfold add_documents, mbind, mget.
  destruct (Nat.eqb_spec (Faiss.shape1 e) (dimension self)) as [Heq | Hne].
  - congruence.
  - reflexivity.
Qed.

(** C8: when the index holds no vector, [search] returns the empty list for
    every query, every [k] and every threshold, and does not raise. *)
Theorem search_empty_index (self : manager) (i : Faiss.index) q k thr :
  index self = Some i ->
  Faiss.ntotal i = 0%nat ->
  search self q k thr = Ok [].
Proof.
  intros Hi Hn. unfold search. rewrite Hi, Hn. reflexivity.
Qed.

(** C4, as amended: on an untrained inverted-file manager that holds no
    document yet, [add_documents] with fewer than 100 vectors of the index
    dimension succeeds and leaves a manager that answers every search exactly
    as a flat manager given the same batch.  [get_stats] carries no flag for
    this: it keeps reporting index type IVF, untrained.  When the batch is
    non-empty and the dimension positive, no reachable manager that has not
    fallen back reports the same statistics. *)
Theorem ivf_small_batch_falls_back (self : manager) e md :
  index_type self = "IVF" -> is_trained self = false -> metadata self = [] ->
  Faiss.shape1 e = dimension self -> (Faiss.nrows e < 100)%nat ->
  exists self' flat',
    add_documents e md self = (Ok tt, self')
    /\ add_documents e md (__init__ (dimension self) "Flat") = (Ok tt, flat')
    /\ (forall q k thr, search self' q k thr = search flat' q k thr)
    /\ fell_back self' = true
    /\ get_stats self' =
         {| total_documents := length md; s_index_type := "IVF";
            s_dimension := dimension self; s_is_trained := false;
            index_size_mb := INR (Faiss.nrows e * dimension self * 4) / (1024 * 1024) |}
    /\ ((0 < Faiss.nrows e)%nat -> (0 < dimension self)%nat ->
         forall s : manager, reachable s -> fell_back s = false ->
                             get_stats s <> get_stats self').
Proof.
  intros Hty Htr Hmd Hd Hn.
  eexists _, _. split; [apply add_documents_fallback; assumption|].
  split.
  { apply (add_documents_plain _ (Faiss.IndexFlatIP (dimension self)));
      try reflexivity; try assumption.
    left. simpl. discriminate. }
  split.
  { intros q k thr. unfold search. simpl. rewrite Hmd. reflexivity. }
  split.
  { unfold fell_back. simpl. rewrite Hty. reflexivity. }
  split.
  { unfold get_stats. simpl. rewrite Hty, Htr, Hmd. simpl.
    unfold Faiss.ntotal. simpl. rewrite length_map. reflexivity. }
  intros Hpos Hdim s Hs Hnf Heq.
  unfold get_stats in Heq. simpl in Heq.
  injection Heq as _ Hty' _ Htr' Hsize.
  rewrite Hty in Hty'. rewrite Htr in Htr'.
  destruct (reachable_untrained s Hs Hty' Htr') as [Hf | (i & Hi & Hz)].
  - congruence.
  - rewrite Hi, Hz in Hsize. simpl in Hsize.
    unfold Faiss.ntotal in Hsize. simpl in Hsize. rewrite length_map in Hsize.
    fold (Faiss.nrows e) in Hsize.
    assert (Hgt : 0 < INR (Faiss.nrows e * dimension self * 4)).
    { apply lt_0_INR. nia. }
    lra.
Qed.

End ManagerFacts.

(** *** The definitions at concrete inputs *)
Import Examples.

Lemma e1_unit : Faiss.renorm e1 = e1.
Proof. apply renorm_unit. unfold Faiss.dot, e1. simpl. lra. Qed.

Lemma e2_unit : Faiss.renorm e2 = e2.
Proof. apply renorm_unit. unfold Faiss.dot, e2. simpl. lra. Qed.

Lemma hnsw1_index :
  index hnsw1 =
  Some {| Faiss.cls := Faiss.IndexHNSWFlat 16; Faiss.d := 2;
          Faiss.metric_type := Faiss.METRIC_L2; Faiss.is_trained := true;
          Faiss.xb := [e1; e2] |}.
Proof.
  change (index hnsw1) with
    (Some {| Faiss.cls := Faiss.IndexHNSWFlat 16; Faiss.d := 2;
             Faiss.metric_type := Faiss.METRIC_L2; Faiss.is_trained := true;
             Faiss.xb := [Faiss.renorm e1; Faiss.renorm e2] |}).
  rewrite e1_unit, e2_unit. reflexivity.
Qed.

Lemma flat1_index :
  index flat1 =
  Some {| Faiss.cls := Faiss.IndexFlat; Faiss.d := 2;
          Faiss.metric_type := Faiss.METRIC_INNER_PRODUCT; Faiss.is_trained := true;
          Faiss.xb := [e1; e2] |}.
Proof.
  change (index flat1) with
    (Some {| Faiss.cls := Faiss.IndexFlat; Faiss.d := 2;
             Faiss.metric_type := Faiss.METRIC_INNER_PRODUCT; Faiss.is_trained := true;
             Faiss.xb := [Faiss.renorm e1; Faiss.renorm e2] |}).
  rewrite e1_unit, e2_unit. reflexivity.
Qed.

(** Evaluates a search over the two stored vectors [e1], [e2]. *)
Ltac search_two Hindex :=
  unfold search; rewrite Hindex;
  change (Faiss.ntotal _ =? 0)%nat with false; cbv iota;
  rewrite e1_unit;
  unfold Faiss.search; simpl negb; cbv iota;
  change (2 <=? 0)%Z with false; cbv iota;
  unfold Faiss.candidates, Faiss.exhaustive, Faiss.scanned; simpl Faiss.cls; cbv iota;
  try (change (remove_dups _) with [0%nat; 1%nat]);
  unfold Faiss.hit; simpl omap;
  unfold Faiss.distance; simpl Faiss.metric_type; cbv iota;
  try replace (Faiss.l2sqr e1 e1) with 0 by (unfold Faiss.l2sqr, e1; simpl; lra);
  try replace (Faiss.l2sqr e1 e2) with 2 by (unfold Faiss.l2sqr, e1, e2; simpl; lra);
  try replace (Faiss.dot e1 e1) with 1 by (unfold Faiss.dot, e1; simpl; lra);
  try replace (Faiss.dot e1 e2) with 0 by (unfold Faiss.dot, e1, e2; simpl; lra);
  unfold Faiss.ranked; simpl Faiss.metric_type; cbv iota;
  unfold sorted_asc, sorted_desc, sort_by; simpl foldr; simpl fst.

(** On the flat index, which is built with the inner product, the most
    similar vector comes first with score 1. *)
Lemma search_flat_scores_descend :
  add_documents (batch [e1; e2]) ["A"; "B"] flat0 = (Ok tt, flat1)
  /\ @search string Faiss.exhaustive flat1 e1 2 0 =
       Ok [ {| r_metadata := "A"; similarity_score := 1; r_index := 0 |};
            {| r_metadata := "B"; similarity_score := 0; r_index := 1 |} ].
Proof.
  split; [reflexivity|].
  search_two flat1_index.
  rewrite (proj2 (flt_false 1 0)) by lra.
  simpl. unfold keeps. simpl.
  rewrite (proj2 (fge_true 1 0)) by lra.
  rewrite (proj2 (fge_true 0 0)) by lra.
  reflexivity.
Qed.

(** C1, at the failing input: a manager of index type HNSW holding the unit
    vectors [e1] and [e2], queried with [e1], [k = 2].  The index was built
    without a metric argument, so the values it returns are squared L2
    distances, smallest first: with threshold 0 the two similarity scores are
    0 then 2, which is not a descending order; with the default threshold 0.5
    the stored copy of the query is dropped and the orthogonal vector is
    returned. *)
Theorem search_hnsw_scores_ascend :
  add_documents (batch [e1; e2]) ["A"; "B"] hnsw0 = (Ok tt, hnsw1)
  /\ @search string Faiss.exhaustive hnsw1 e1 2 0 =
       Ok [ {| r_metadata := "A"; similarity_score := 0; r_index := 0 |};
            {| r_metadata := "B"; similarity_score := 2; r_index := 1 |} ]
  /\ ~ descending similarity_score
         [ {| r_metadata := "A"; similarity_score := 0; r_index := 0 |};
           {| r_metadata := "B"; similarity_score := 2; r_index := 1%Z |} ]
  /\ @search string Faiss.exhaustive hnsw1 e1 2 (1 / 2) =
       Ok [ {| r_metadata := "B"; similarity_score := 2; r_index := 1 |} ].
Proof.
  split; [reflexivity|]. split; [|split].
  - search_two hnsw1_index.
    rewrite (proj2 (flt_false 2 0)) by lra.
    simpl. unfold keeps. simpl.
    rewrite (proj2 (fge_true 0 0)) by lra.
    rewrite (proj2 (fge_true 2 0)) by lra.
    reflexivity.
  - unfold descending. intros Hs.
    apply StronglySorted_inv in Hs as [_ Hs].
    apply Forall_inv in Hs. simpl in Hs. lra.
  - search_two hnsw1_index.
    rewrite (proj2 (flt_false 2 0)) by lra.
    simpl. unfold keeps. simpl.
    rewrite (proj2 (fge_false 0 (1 / 2))) by lra.
    rewrite (proj2 (fge_true 2 (1 / 2))) by lra.
    reflexivity.
Qed.

(** C3, at the failing input: a manager with the default index type IVF
    receives two batches of one vector and one metadata entry each.  Both
    calls succeed.  The invariant holds after the first; the second call
    builds a new flat index, so the index holds one vector while the metadata
    table holds two entries. *)
Theorem lockstep_lost_on_second_small_batch :
  add_documents (batch [e1]) ["A"] ivf0 = (Ok tt, ivf1)
  /\ lockstep ivf1
  /\ add_documents (batch [e2]) ["B"] ivf1 = (Ok tt, ivf2)
  /\ length (metadata ivf2) = 2%nat
  /\ Faiss.ntotal <$> index ivf2 = Some 1%nat
  /\ ~ lockstep ivf2.
Proof.
  repeat split; try reflexivity.
  unfold lockstep. simpl. unfold Faiss.ntotal. simpl. lia.
Qed.

(** After the second batch the only stored vector is the one of document
    "B", and a search for it is answered with the metadata of document "A". *)
Lemma search_after_second_small_batch :
  @search string Faiss.exhaustive ivf2 e2 1 (1 / 2) =
  Ok [ {| r_metadata := "A"; similarity_score := 1; r_index := 0 |} ].
Proof.
  unfold search.
  change (index ivf2) with
    (Some {| Faiss.cls := Faiss.IndexFlat; Faiss.d := 2;
             Faiss.metric_type := Faiss.METRIC_INNER_PRODUCT; Faiss.is_trained := true;
             Faiss.xb := [Faiss.renorm e2] |}).
  rewrite e2_unit.
  change (Faiss.ntotal _ =? 0)%nat with false. cbv iota.
  unfold Faiss.search. simpl negb. cbv iota.
  change (1 <=? 0)%Z with false. cbv iota.
  unfold Faiss.candidates. simpl Faiss.cls. cbv iota.
  unfold Faiss.hit. simpl omap.
  unfold Faiss.distance. simpl Faiss.metric_type. cbv iota.
  replace (Faiss.dot e2 e2) with 1 by (unfold Faiss.dot, e2; simpl; lra).
  simpl. unfold keeps. simpl.
  rewrite (proj2 (fge_true 1 (1 / 2))) by lra.
  reflexivity.
Qed.

(** C4, counterexample: an empty batch makes a fresh IVF manager fall back,
    and [get_stats] returns what it returned before the call. *)
Lemma fallback_invisible_in_stats :
  add_documents (batch []) [] ivf0 = (Ok tt, ivf_empty_batch)
  /\ fell_back ivf0 = false
  /\ fell_back ivf_empty_batch = true
  /\ get_stats ivf_empty_batch = get_stats ivf0.
Proof. repeat split; reflexivity. Qed.

(** Nor does the state stay visible: once a later batch of 100 vectors has
    set [is_trained], the fallen-back manager reports the statistics of a
    manager that was trained on all 101 vectors at once. *)
Lemma fallback_invisible_after_training :
  add_documents (batch (replicate 100 e2)) (replicate 100 "B") ivf1 = (Ok tt, ivf_late)
  /\ add_documents (batch (e1 :: replicate 100 e2)) ("A" :: replicate 100 "B") ivf0
       = (Ok tt, ivf_once)
  /\ fell_back ivf_late = true
  /\ fell_back ivf_once = false
  /\ get_stats ivf_late = get_stats ivf_once.
Proof. repeat split; reflexivity. Qed.

Lemma ivf_small_batch_falls_back_witness :
  exists self' flat',
    add_documents (batch [e1]) ["A"] ivf0 = (Ok tt, self')
    /\ add_documents (batch [e1]) ["A"] (__init__ 2 "Flat") = (Ok tt, flat')
    /\ (forall q k thr,
          @search string Faiss.exhaustive self' q k thr
          = @search string Faiss.exhaustive flat' q k thr)
    /\ fell_back self' = true
    /\ get_stats self' =
         {| total_documents := 1; s_index_type := "IVF";
            s_dimension := 2; s_is_trained := false;
            index_size_mb := INR (1 * 2 * 4) / (1024 * 1024) |}
    /\ ((0 < 1)%nat -> (0 < 2)%nat ->
         forall s : VectorDBManager string,
           reachable s -> fell_back s = false -> get_stats s <> get_stats self').
Proof.
  apply (@ivf_small_batch_falls_back string Faiss.exhaustive ivf0 (batch [e1]) ["A"]).
  - reflexivity.
  - reflexivity.
  - reflexivity.
  - reflexivity.
  - unfold Faiss.nrows. simpl. lia.
Defined.

Lemma add_documents_dimension_mismatch_witness :
  add_documents batch3 ["A"] ivf0 = (Raise ValueError, ivf0).
Proof.
  apply (@add_documents_dimension_mismatch string ivf0 batch3 ["A"]).
  - unfold Faiss.well_shaped. simpl. repeat constructor.
  - exists [1; 0; 0]. split.
    + simpl. apply list_elem_of_here.
    + simpl. lia.
Defined.

Lemma search_empty_index_witness :
  @search string Faiss.exhaustive flat0 e1 5 (1 / 2) = Ok [].
Proof.
  apply (@search_empty_index string Faiss.exhaustive flat0 (Faiss.IndexFlatIP 2)).
  - reflexivity.
  - reflexivity.
Defined.

End VectorDBFacts.

(** ** mongodb_sync.py: properties of the merge *)
Module RetrievalFacts.
Import Py PyFacts Retrieval.

Section MergeFacts.
Context `{Countable Id}.
Variable lower : string -> string.
Abbreviation found := (@Retrieval.found Id).

Lemma first_occurrences_from_cons (l : list found) (n : nat) (x : found) rest :
  first_occurrences_from l n (x :: rest) =
  (if is_first_occurrence l n x then [x] else [])
  ++ first_occurrences_from l (S n) rest.
Proof.
  unfold first_occurrences_from. rewrite imap_cons. simpl.
  rewrite Nat.add_0_r.
  assert (Hext : imap ((fun i y => if is_first_occurrence l (n + i) y then Some y else None) ∘ S) rest
                 = imap (fun i y => if is_first_occurrence l (S n + i) y then Some y else None) rest).
  { apply imap_ext. intros i y _. simpl. rewrite Nat.add_succ_r. reflexivity. }
  rewrite Hext. destruct (is_first_occurrence l n x); reflexivity.
Qed.

(** An entry at the end of the processed prefix is a first occurrence exactly
    when its id has not been seen. *)
Lemma is_first_occurrence_prefix (pre rest : list found) (x : found) :
  is_first_occurrence (pre ++ rest) (length pre) x = true
  <-> get_id x ∉ map get_id pre.
Proof.
  unfold is_first_occurrence. rewrite take_app_length, forallb_forall.
  split.
  - intros Hall Hin. apply list_elem_of_fmap in Hin as (y & Hy & Hin).
    specialize (Hall y (proj1 (list_elem_of_In _ _) Hin)).
    apply bool_decide_eq_true in Hall. congruence.
  - intros Hnin y Hy. apply bool_decide_eq_true. intros Heq.
    apply Hnin. rewrite <- Heq.
    apply list_elem_of_fmap. exists y. split; [reflexivity|].
    apply list_elem_of_In, Hy.
Qed.

(** The loop, started after a processed prefix [pre], appends to its
    accumulator the first occurrences of the remaining entries. *)
Lemma fold_dedup_step (rest pre acc : list found) (seen : gset (option Id)) :
  (forall i, i ∈ seen <-> i ∈ map get_id pre) ->
  (fold_left dedup_step rest (seen, acc)).2
  = acc ++ first_occurrences_from (pre ++ rest) (length pre) rest.
Proof.
  revert pre acc seen.
  induction rest as [|x rest IH]; intros pre acc seen Hseen.
  - simpl. unfold first_occurrences_from. simpl. rewrite app_nil_r. reflexivity.
  - simpl fold_left. rewrite first_occurrences_from_cons.
    assert (Hcons : pre ++ x :: rest = (pre ++ [x]) ++ rest).
    { rewrite <- app_assoc. reflexivity. }
    assert (Hlen : S (length pre) = length (pre ++ [x])).
    { rewrite length_app. simpl. lia. }
    unfold dedup_step at 2. simpl.
    destruct (decide (get_id x ∈ seen)) as [Hin | Hnin].
    + assert (Hf : is_first_occurrence (pre ++ x :: rest) (length pre) x = false).
      { apply not_true_iff_false. rewrite is_first_occurrence_prefix.
        intros Hn. apply Hn, Hseen, Hin. }
      rewrite Hf. simpl. rewrite Hcons, Hlen.
      apply IH. intros i. rewrite Hseen, map_app. simpl.
      rewrite elem_of_app, list_elem_of_singleton.
      split; [auto|]. intros [Hi | ->]; [exact Hi | apply Hseen, Hin].
    + assert (Hf : is_first_occurrence (pre ++ x :: rest) (length pre) x = true).
      { apply is_first_occurrence_prefix. intros Hn. apply Hnin, Hseen, Hn. }
      rewrite Hf. simpl. rewrite Hcons, Hlen.
      rewrite (IH (pre ++ [x]) (acc ++ [x]) ({[get_id x]} ∪ seen)).
      * rewrite <- app_assoc. reflexivity.
      * intros i. rewrite elem_of_union, elem_of_singleton, Hseen, map_app. simpl.
        rewrite elem_of_app, list_elem_of_singleton. tauto.
Qed.

(** The loop computes the first occurrences by document id. *)
Lemma unique_results_first_occurrences (all_results : list found) :
  unique_results all_results = first_occurrences all_results.
Proof.
  unfold unique_results, first_occurrences.
  rewrite (fold_dedup_step all_results [] [] ∅); [reflexivity|].
  intros i. simpl. rewrite elem_of_nil. set_solver.
Qed.

Lemma elem_of_first_occurrences (l : list found) (r : found) :
  r ∈ first_occurrences l ->
  exists i, l !! i = Some r /\ is_first_occurrence l i r = true.
Proof.
  unfold first_occurrences, first_occurrences_from. intros Hr.
  apply list_elem_of_omap in Hr as (o & Ho & Hsome).
  apply elem_of_lookup_imap in Ho as (i & y & -> & Hy).
  simpl in Hsome. exists i.
  destruct (is_first_occurrence l i y) eqn:Hf; [|discriminate].
  injection Hsome as <-. split; assumption.
Qed.

Lemma exact_match_type (query : string) (recipes : list (@recipe Id)) (x : found) :
  x ∈ _exact_match_search lower query recipes -> match_type x = "exact_name".
Proof.
  unfold _exact_match_search. intros Hx.
  apply list_elem_of_fmap in Hx as (r & -> & _). reflexivity.
Qed.

(** C2: whenever [multi_strategy_search] returns, its result is the
    concatenation of the exact, ingredient, category and semantic results in
    that order, reduced to the first occurrence of each document id and cut
    to its first 10 entries; so it has at most 10 entries, and an entry whose
    document is among the exact matches carries the exact-match type. *)
Theorem multi_strategy_search_merge (query : string) (recipes : list (@recipe Id))
    embeddings model (res : list found) :
  multi_strategy_search lower query recipes embeddings model = Ok res ->
  exists semantic,
    semantic_results query recipes embeddings model = Ok semantic
    /\ res = take 10 (first_occurrences
                        (_exact_match_search lower query recipes
                         ++ _ingredient_based_search lower query recipes
                         ++ _category_filter_search lower query recipes
                         ++ semantic))
    /\ (length res <= 10)%nat
    /\ (forall r x, r ∈ res ->
                    x ∈ _exact_match_search lower query recipes ->
                    get_id r = get_id x ->
                    match_type r = "exact_name").
Proof.
  unfold multi_strategy_search. intros Hm.
  apply bind_ok in Hm as (semantic & Hsem & [= <-]).
  exists semantic. split; [exact Hsem|].
  rewrite unique_results_first_occurrences.
  split; [reflexivity|]. split.
  { rewrite length_take. lia. }
  intros r x Hr Hx Hid.
  apply elem_of_take in Hr as (i0 & Hr & _).
  assert (Hr' : r ∈ first_occurrences
                     (_exact_match_search lower query recipes
                      ++ _ingredient_based_search lower query recipes
                      ++ _category_filter_search lower query recipes ++ semantic)).
  { apply list_elem_of_lookup. exists i0. exact Hr. }
  apply elem_of_first_occurrences in Hr' as (i & Hi & Hfirst).
  apply list_elem_of_lookup in Hx as (j & Hj).
  pose proof (lookup_lt_Some _ _ _ Hj) as Hjlt.
  destruct (Nat.lt_ge_cases i (length (_exact_match_search lower query recipes))) as [Hlt | Hge].
  - rewrite lookup_app_l in Hi by exact Hlt.
    apply (exact_match_type query recipes).
    apply list_elem_of_lookup. exists i. exact Hi.
  - exfalso. unfold is_first_occurrence in Hfirst.
    rewrite forallb_forall in Hfirst.
    assert (Hin : x ∈ take i
                    (_exact_match_search lower query recipes
                     ++ _ingredient_based_search lower query recipes
                     ++ _category_filter_search lower query recipes ++ semantic)).
    { apply elem_of_take. exists j. split; [|lia].
      rewrite lookup_app_l by exact Hjlt. exact Hj. }
    specialize (Hfirst x (proj1 (list_elem_of_In _ _) Hin)).
    apply bool_decide_eq_true in Hfirst. congruence.
Qed.

(** Without embeddings or without a model the semantic strategy is skipped
    and the search returns. *)
Lemma multi_strategy_search_without_embeddings (query : string)
    (recipes : list (@recipe Id)) embeddings model :
  embeddings = None \/ model = None ->
  exists res, multi_strategy_search lower query recipes embeddings model = Ok res.
Proof.
  intros Hnone. unfold multi_strategy_search.
  assert (Hs : semantic_results query recipes embeddings model = Ok []).
  { unfold semantic_results. destruct Hnone as [-> | ->]; [reflexivity|].
    destruct embeddings; reflexivity. }
  rewrite Hs. simpl. eexists. reflexivity.
Qed.

End MergeFacts.

Import Examples.

(** The query "pho" over the two example recipes: the exact match and the
    ingredient match of the same document merge into the exact match. *)
Lemma multi_strategy_search_pho :
  multi_strategy_search already_lower "pho" [pho; che] None None
  = Ok [tagged "exact_name" pho].
Proof. vm_compute. reflexivity. Qed.

(** With embeddings, the first recipe also matches semantically (score 1,
    above the threshold 0.7) ... *)
Lemma semantic_search_pho :
  _semantic_search "pho" [pho; che] (batch [e1; e2]) (fun _ => e1) (7 / 10)
  = Ok [ {| source := pho; match_type := "semantic"; similarity_score := Some 1%R |} ].
Proof.
  unfold _semantic_search. simpl negb. cbv iota.
  unfold batch. simpl Faiss.rows. simpl map.
  replace (Faiss.dot e1 e1) with 1%R by (unfold Faiss.dot, e1; simpl; lra).
  replace (Faiss.dot e2 e1) with 0%R by (unfold Faiss.dot, e1, e2; simpl; lra).
  simpl zip. unfold omap. simpl.
  fcompare. reflexivity.
Qed.

(** ... and is still reported once, as an exact match. *)
Lemma multi_strategy_search_exact_beats_semantic :
  multi_strategy_search already_lower "pho" [pho; che]
    (Some (batch [e1; e2])) (Some (fun _ : string => e1))
  = Ok [tagged "exact_name" pho].
Proof.
  unfold multi_strategy_search, semantic_results.
  rewrite semantic_search_pho. cbn [bind].
  vm_compute. reflexivity.
Qed.

Lemma multi_strategy_search_merge_witness :
  exists semantic,
    semantic_results "pho" [pho; che] None None = Ok semantic
    /\ [tagged "exact_name" pho]
       = take 10 (first_occurrences
                    (_exact_match_search already_lower "pho" [pho; che]
                     ++ _ingredient_based_search already_lower "pho" [pho; che]
                     ++ _category_filter_search already_lower "pho" [pho; che]
                     ++ semantic))
    /\ (length [tagged "exact_name" pho] <= 10)%nat
    /\ (forall r x, r ∈ [tagged "exact_name" pho] ->
                    x ∈ _exact_match_search already_lower "pho" [pho; che] ->
                    get_id r = get_id x ->
                    match_type r = "exact_name").
Proof.
  apply (multi_strategy_search_merge already_lower "pho" [pho; che] None None).
  vm_compute. reflexivity.
Defined.

End RetrievalFacts.

(** ** confidence_scorer.py: properties *)
Module ScorerFacts.
Import Py PyFacts Scorer.
Local Open Scope R_scope.
Local Arguments Nat.leb : simpl never.
Local Arguments Nat.ltb : simpl never.

(** *** Sums and means *)
Lemma fsum_nonneg (l : list R) : Forall (fun x => 0 <= x) l -> 0 <= fsum l.
Proof.
  induction 1 as [|x l Hx _ IH]; simpl; [lra|].
  change (foldr Rplus 0 l) with (fsum l). lra.
Qed.

Lemma fsum_bounds (a b : R) (l : list R) :
  Forall (fun x => a <= x <= b) l ->
  a * INR (length l) <= fsum l <= b * INR (length l).
Proof.
  induction 1 as [|x l Hx _ IH].
  - simpl. lra.
  - change (fsum (x :: l)) with (x + fsum l).
    change (length (x :: l)) with (S (length l)). rewrite S_INR. lra.
Qed.

Lemma mean_bounds (a b : R) (l : list R) :
  l <> [] -> Forall (fun x => a <= x <= b) l -> a <= mean l <= b.
Proof.
  intros Hne Hall. unfold mean.
  assert (Hlen : 0 < INR (length l)).
  { apply lt_0_INR. destruct l; [contradiction | simpl; lia]. }
  pose proof (fsum_bounds a b l Hall) as [Hlo Hhi].
  split.
  - apply Rmult_le_reg_r with (INR (length l)); [exact Hlen|].
    unfold Rdiv. rewrite Rmult_assoc, Rinv_l by lra. lra.
  - apply Rmult_le_reg_r with (INR (length l)); [exact Hlen|].
    unfold Rdiv. rewrite Rmult_assoc, Rinv_l by lra. lra.
Qed.

Lemma mean_lower (a : R) (l : list R) :
  l <> [] -> Forall (fun x => a <= x) l -> a <= mean l.
Proof.
  intros Hne Hall. unfold mean.
  assert (Hlen : 0 < INR (length l)).
  { apply lt_0_INR. destruct l; [contradiction | simpl; lia]. }
  assert (Hlo : a * INR (length l) <= fsum l).
  { clear Hne Hlen. induction Hall as [|x l Hx _ IH].
    - simpl. lra.
    - change (fsum (x :: l)) with (x + fsum l).
      change (length (x :: l)) with (S (length l)). rewrite S_INR. lra. }
  apply Rmult_le_reg_r with (INR (length l)); [exact Hlen|].
  unfold Rdiv. rewrite Rmult_assoc, Rinv_l by lra. lra.
Qed.

Lemma fsum_scale (c : R) (l : list R) :
  fsum (map (fun x => x / c) l) = fsum l / c.
Proof.
  induction l as [|x l IH].
  - simpl. unfold Rdiv. ring.
  - change (fsum (map (fun x => x / c) (x :: l)))
      with (x / c + fsum (map (fun x => x / c) l)).
    change (fsum (x :: l)) with (x + fsum l).
    rewrite IH. unfold Rdiv. ring.
Qed.

Lemma fsum_zip_scale (c : R) (a l : list R) :
  fsum (zip_with Rmult a (map (fun x => x / c) l)) = fsum (zip_with Rmult a l) / c.
Proof.
  revert a. induction l as [|x l IH]; intros [|y a]; simpl;
    try (unfold Rdiv; ring).
  change (foldr Rplus 0 (zip_with Rmult a (map (fun x => x / c) l)))
    with (fsum (zip_with Rmult a (map (fun x => x / c) l))).
  change (foldr Rplus 0 (zip_with Rmult a l)) with (fsum (zip_with Rmult a l)).
  rewrite IH. unfold Rdiv. ring.
Qed.

(** *** Factor 1: the semantic similarity *)
Lemma decay_weights_pos (n : nat) : Forall (fun w => 0 < w) (decay_weights n).
Proof.
  unfold decay_weights. apply Forall_forall. intros w Hw.
  apply list_elem_of_fmap in Hw as (i & -> & _). apply exp_pos.
Qed.

Lemma fsum_pos (l : list R) : l <> [] -> Forall (fun w => 0 < w) l -> 0 < fsum l.
Proof.
  intros Hne Hall. destruct Hall as [|x l Hx Hl]; [contradiction|].
  change (fsum (x :: l)) with (x + fsum l).
  assert (0 <= fsum l); [|lra].
  apply fsum_nonneg. apply (Forall_impl _ _ _ Hl). intros y Hy. lra.
Qed.

Lemma decay_weights_sum_pos (n : nat) : 0 < fsum (decay_weights (S n)).
Proof.
  apply fsum_pos; [|apply decay_weights_pos].
  unfold decay_weights. simpl. discriminate.
Qed.

(** Normalising the weights does not change the weighted average: it is the
    sum of the scores weighted by [exp (-i/2)] over the sum of these
    weights. *)
Lemma weighted_avg_decay (s : R) (rest : list R) :
  weighted_avg (s :: rest)
  = fsum (zip_with Rmult (s :: rest) (decay_weights (length (s :: rest))))
    / fsum (decay_weights (length (s :: rest))).
Proof.
  unfold weighted_avg, average.
  set (w := decay_weights (length (s :: rest))).
  assert (Hpos : 0 < fsum w) by apply decay_weights_sum_pos.
  rewrite fsum_zip_scale, fsum_scale.
  field. lra.
Qed.

Lemma logistic_pos (c k x : R) : 0 < logistic c k x.
Proof.
  unfold logistic. pose proof (exp_pos (- k * (x - c))).
  apply Rdiv_lt_0_compat; lra.
Qed.

(** C6, as amended: the factor is 0 for an empty list; otherwise it is
    twice the logistic transform (centre 0.5, steepness 4) of the
    exponentially decayed weighted average of the scores (weight
    [exp (-i/2)] at rank [i]), capped at 1. *)
Theorem semantic_similarity_formula :
  _calculate_semantic_similarity [] = 0
  /\ forall (s : R) (rest : list R),
       weighted_avg (s :: rest)
       = fsum (zip_with Rmult (s :: rest) (decay_weights (length (s :: rest))))
         / fsum (decay_weights (length (s :: rest)))
       /\ _calculate_semantic_similarity (s :: rest)
          = Rmin (2 * logistic (1 / 2) 4 (weighted_avg (s :: rest))) 1.
Proof.
  split; [reflexivity|]. intros s rest. split; [apply weighted_avg_decay|].
  unfold _calculate_semantic_similarity, logistic.
  apply (f_equal (fun x => Rmin x 1)).
  replace (-4 * (weighted_avg (s :: rest) - 1 / 2))
    with (- (4) * (weighted_avg (s :: rest) - 1 / 2)) by ring.
  unfold Rdiv. ring.
Qed.

Lemma weighted_avg_single (s : R) : weighted_avg [s] = s.
Proof.
  rewrite weighted_avg_decay. simpl.
  pose proof (exp_pos (- 0 * (1 / 2))). field. lra.
Qed.

(** C6, counterexample: for the single score 0.5 the decayed average is
    0.5, the logistic transform of the specification gives 0.5, and the code
    returns 1. *)
Lemma semantic_similarity_not_logistic :
  _calculate_semantic_similarity [1 / 2] = 1
  /\ spec_semantic_similarity [1 / 2] = 1 / 2
  /\ _calculate_semantic_similarity [1 / 2] <> spec_semantic_similarity [1 / 2].
Proof.
  assert (Hcode : _calculate_semantic_similarity [1 / 2] = 1).
  { unfold _calculate_semantic_similarity. rewrite weighted_avg_single.
    replace (- 4 * (1 / 2 - 1 / 2)) with 0 by lra. rewrite exp_0.
    replace (2 / (1 + 1)) with 1 by lra. apply Rmin_left. lra. }
  assert (Hspec : spec_semantic_similarity [1 / 2] = 1 / 2).
  { unfold spec_semantic_similarity, logistic. rewrite weighted_avg_single.
    replace (- (4) * (1 / 2 - 1 / 2)) with 0 by lra. rewrite exp_0. lra. }
  split; [exact Hcode|]. split; [exact Hspec|].
  rewrite Hcode, Hspec. lra.
Qed.

(** *** The ranges of the factors *)
Lemma Rmin_1_bounds (x : R) : 0 <= x -> 0 <= Rmin x 1 <= 1.
Proof.
  intros Hx. split; [apply Rmin_glb; lra | apply Rmin_r].
Qed.

Ltac split_ifs :=
  repeat match goal with
         | |- context [if ?b then _ else _] => destruct b
         end.

Lemma semantic_similarity_bounds (similarity_scores : list R) :
  0 <= _calculate_semantic_similarity similarity_scores <= 1.
Proof.
  destruct similarity_scores as [|s rest]; simpl; [lra|].
  apply Rmin_1_bounds.
  pose proof (exp_pos (-4 * (weighted_avg (s :: rest) - 1 / 2))).
  left. apply Rdiv_lt_0_compat; lra.
Qed.

Section FactorFacts.
Variable lower : string -> string.
Variable strip : string -> string.
Variable words : string -> list string.
Variable fmt2 : R -> string.

Lemma keyword_match_bounds (query : string) (docs : list doc) :
  0 <= _calculate_keyword_match lower words query docs <= 1.
Proof.
  unfold _calculate_keyword_match.
  destruct docs as [|d docs]; [lra|].
  destruct (Nat.eqb_spec (size (word_set lower words query)) 0) as [Hz | Hnz]; [lra|].
  apply Rmin_1_bounds.
  assert (Hq : 0 < INR (size (word_set lower words query))).
  { apply lt_0_INR. lia. }
  assert (Hd : 0 < INR (length (d :: docs))).
  { apply lt_0_INR. simpl. lia. }
  apply Rmult_le_pos; [|left; apply Rinv_0_lt_compat, Hq].
  apply Rmult_le_pos; [apply pos_INR | left; apply Rinv_0_lt_compat, Hd].
Qed.

Lemma category_score_bounds (query_lower : string) (d : doc) (keywords : list string) :
  0 <= category_score lower query_lower d keywords.
Proof. unfold category_score. split_ifs; lra. Qed.

Lemma doc_relevance_bounds (query_lower : string) (d : doc) :
  0 <= doc_relevance lower query_lower d <= 1.
Proof.
  unfold doc_relevance.
  set (base := fsum (map (fun ck => category_score lower query_lower d (snd ck))
                         cooking_keywords)).
  assert (Hbase : 0 <= base).
  { apply fsum_nonneg, Forall_forall. intros x Hx.
    apply list_elem_of_fmap in Hx as (ck & -> & _).
    apply category_score_bounds. }
  apply Rmin_1_bounds. split_ifs; lra.
Qed.

Lemma context_relevance_bounds (query : string) (docs : list doc) :
  0 <= _calculate_context_relevance lower query docs <= 1.
Proof.
  unfold _calculate_context_relevance.
  destruct docs as [|d docs]; [lra|].
  apply mean_bounds; [discriminate|].
  apply Forall_forall. intros x Hx.
  apply list_elem_of_fmap in Hx as (d' & -> & _).
  apply doc_relevance_bounds.
Qed.

Lemma doc_freshness_nonneg (current_time : Z) (d : doc) :
  0 <= doc_freshness current_time d.
Proof.
  unfold doc_freshness. destruct (String.eqb _ _); [|lra].
  destruct (createdAt d); try lra. apply Rmax_l.
Qed.

Lemma doc_freshness_le_1 (current_time : Z) (d : doc) :
  not_future current_time d -> doc_freshness current_time d <= 1.
Proof.
  unfold not_future, doc_freshness. intros Hnf.
  destruct (String.eqb _ _); [|lra].
  destruct (createdAt d) as [| |t]; try lra.
  assert (Hdays : (0 <= days_between current_time t)%Z).
  { unfold days_between, microseconds_per_day. apply Z.div_pos; lia. }
  apply IZR_le in Hdays. apply Rmax_lub; [lra|].
  assert (0 <= IZR (days_between current_time t) / 365); [|lra].
  apply Rmult_le_pos; [exact Hdays | lra].
Qed.

Lemma data_freshness_nonneg (current_time : Z) (docs : list doc) :
  0 <= _calculate_data_freshness current_time docs.
Proof.
  unfold _calculate_data_freshness.
  destruct docs as [|d docs]; [lra|].
  apply mean_lower; [discriminate|].
  apply Forall_forall. intros x Hx.
  apply list_elem_of_fmap in Hx as (d' & -> & _).
  apply doc_freshness_nonneg.
Qed.

Lemma data_freshness_bounds (current_time : Z) (docs : list doc) :
  Forall (not_future current_time) docs ->
  0 <= _calculate_data_freshness current_time docs <= 1.
Proof.
  intros Hnf. split; [apply data_freshness_nonneg|].
  unfold _calculate_data_freshness.
  destruct docs as [|d docs]; [lra|].
  apply (mean_bounds 0 1); [discriminate|].
  apply Forall_forall. intros x Hx.
  apply list_elem_of_fmap in Hx as (d' & -> & Hd').
  rewrite Forall_forall in Hnf.
  split; [apply doc_freshness_nonneg | apply doc_freshness_le_1, Hnf, Hd'].
Qed.

Lemma doc_reliability_bounds (d : doc) : 0 <= doc_reliability d <= 1.
Proof.
  unfold doc_reliability. apply Rmin_1_bounds. split_ifs; lra.
Qed.

Lemma source_reliability_bounds (docs : list doc) :
  0 <= _calculate_source_reliability docs <= 1.
Proof.
  unfold _calculate_source_reliability.
  destruct docs as [|d docs]; [lra|].
  apply mean_bounds; [discriminate|].
  apply Forall_forall. intros x Hx.
  apply list_elem_of_fmap in Hx as (d' & -> & _).
  apply doc_reliability_bounds.
Qed.

Lemma query_clarity_bounds (query : string) :
  0 <= _calculate_query_clarity lower strip query <= 1.
Proof.
  unfold _calculate_query_clarity. cbv zeta.
  destruct (len (strip (lower query)) <? 5)%nat; [lra|].
  apply Rmin_1_bounds. split_ifs; lra.
Qed.

Lemma answer_completeness_bounds (query ans : string) :
  0 <= _calculate_answer_completeness lower query ans <= 1.
Proof.
  unfold _calculate_answer_completeness. cbv zeta.
  destruct (len ans <? 10)%nat; [lra|].
  apply Rmin_1_bounds. split_ifs; lra.
Qed.

(** *** Strongest and weakest factor *)
Lemma sorted_factors_head (f : string * R) (fs : factor_dict) :
  exists s rest, sorted_factors (f :: fs) = s :: rest /\ first_strongest (f :: fs) s.
Proof.
  revert f. induction fs as [|g fs IH]; intros f.
  - exists f, []. split; [reflexivity|].
    exists [], []. repeat split; constructor.
  - destruct (IH g) as (s' & rest' & Hs & (pre & post & Hl & Hpre & Hpost)).
    unfold sorted_factors, sorted_desc in *.
    rewrite sort_by_cons, Hs. simpl.
    destruct (flt (snd f) (snd s')) eqn:Hc.
    + apply flt_true in Hc. eexists _, _. split; [reflexivity|].
      exists (f :: pre), post. rewrite Hl. split; [reflexivity|].
      split; [constructor; assumption | exact Hpost].
    + apply flt_false in Hc. eexists _, _. split; [reflexivity|].
      exists [], (g :: fs). split; [reflexivity|]. split; [constructor|].
      rewrite Hl. apply Forall_app. split.
      * apply (Forall_impl _ _ _ Hpre). intros y Hy. lra.
      * constructor; [exact Hc|].
        apply (Forall_impl _ _ _ Hpost). intros y Hy. lra.
Qed.

Lemma sorted_factors_last (f : string * R) (fs : factor_dict) :
  exists w init, sorted_factors (f :: fs) = init ++ [w] /\ last_weakest (f :: fs) w.
Proof.
  revert f. induction fs as [|g fs IH]; intros f.
  - exists f, []. split; [reflexivity|].
    exists [], []. repeat split; constructor.
  - destruct (IH g) as (w' & init' & Hs & (pre & post & Hl & Hpre & Hpost)).
    assert (Hall : Forall (fun y => snd w' <= snd y) (g :: fs)).
    { rewrite Hl. apply Forall_app. split; [exact Hpre|].
      constructor; [lra|].
      apply (Forall_impl _ _ _ Hpost). intros y Hy. lra. }
    unfold sorted_factors, sorted_desc in *.
    rewrite sort_by_cons.
    destruct (flt (snd f) (snd w')) eqn:Hc.
    + apply flt_true in Hc.
      rewrite insert_by_all_before.
      * eexists _, _. split; [reflexivity|].
        exists [], (g :: fs). split; [reflexivity|]. split; [constructor|].
        apply (Forall_impl _ _ _ Hall). intros y Hy. lra.
      * rewrite sort_by_perm.
        apply (Forall_impl _ _ _ Hall). intros y Hy.
        apply flt_true. lra.
    + rewrite Hs.
      destruct (insert_by_keeps_last (fun y x => flt (snd x) (snd y)) f w' init' Hc)
        as [init Hi].
      rewrite Hi. exists w', init. split; [reflexivity|].
      apply flt_false in Hc.
      exists (f :: pre), post. rewrite Hl. split; [reflexivity|].
      split; [constructor; assumption | exact Hpost].
Qed.

(** The two items the explanation is built from. *)
Lemma extremes_nonempty (f : string * R) (fs : factor_dict) :
  exists s w,
    extremes (f :: fs) = Ok (s, w)
    /\ first_strongest (f :: fs) s
    /\ last_weakest (f :: fs) w.
Proof.
  destruct (sorted_factors_head f fs) as (s & rest & Hs & Hfirst).
  destruct (sorted_factors_last f fs) as (w & init & Hw & Hlast).
  exists s, w. split; [|split; assumption].
  unfold extremes. rewrite Hs at 1. rewrite getitem_first. cbn [bind].
  rewrite Hw, getitem_last. reflexivity.
Qed.

(** C9, as amended: for a non-empty factor mapping the explanation names,
    with the overall score, the largest factor and the smallest factor; among
    equal largest values the one met first, among equal smallest values the
    one met last.  For the empty mapping the function raises. *)
Theorem explanation_names_extremes (overall : R) :
  _generate_explanation fmt2 [] overall = Raise IndexError
  /\ forall (f : string * R) (fs : factor_dict),
       exists s w,
         extremes (f :: fs) = Ok (s, w)
         /\ first_strongest (f :: fs) s
         /\ last_weakest (f :: fs) w
         /\ _generate_explanation fmt2 (f :: fs) overall
            = Ok (explanation_text fmt2 overall s w).
Proof.
  split; [reflexivity|]. intros f fs.
  destruct (extremes_nonempty f fs) as (s & w & He & Hfirst & Hlast).
  exists s, w.
  split; [exact He|]. split; [exact Hfirst|]. split; [exact Hlast|].
  unfold _generate_explanation. rewrite He. reflexivity.
Qed.

(** *** The scorer returns *)
Lemma weighted_sum_factors (current_time : Z) (query : string) (docs : list doc)
    (similarity_scores : list R) (ans : string) :
  weighted_sum (compute_factors lower strip words current_time query docs similarity_scores ans)
  = Ok (_calculate_semantic_similarity similarity_scores * (25 / 100)
        + _calculate_keyword_match lower words query docs * (20 / 100)
        + _calculate_context_relevance lower query docs * (15 / 100)
        + _calculate_data_freshness current_time docs * (10 / 100)
        + _calculate_source_reliability docs * (10 / 100)
        + _calculate_query_clarity lower strip query * (10 / 100)
        + _calculate_answer_completeness lower query ans * (10 / 100)).
Proof.
  unfold weighted_sum, compute_factors. simpl. f_equal. ring.
Qed.

Lemma recommendations_return (current_time : Z) (query : string) (docs : list doc)
    (similarity_scores : list R) (ans : string) (lvl : ConfidenceLevel) :
  exists recs,
    _generate_recommendations
      (compute_factors lower strip words current_time query docs similarity_scores ans) lvl
    = Ok recs.
Proof.
  unfold _generate_recommendations, recommend_if_low, compute_factors.
  destruct lvl; simpl; eexists; reflexivity.
Qed.

(** [calculate_confidence] never raises; its factors are the seven computed
    values and its overall score their weighted sum. *)
Lemma calculate_confidence_returns (current_time : Z) (query : string) (docs : list doc)
    (similarity_scores : list R) (ans : string) :
  exists cs,
    calculate_confidence lower strip words fmt2 current_time query docs similarity_scores ans
    = Ok cs
    /\ factors cs
       = compute_factors lower strip words current_time query docs similarity_scores ans
    /\ weighted_sum (factors cs) = Ok (overall_score cs).
Proof.
  unfold calculate_confidence. cbv zeta.
  rewrite weighted_sum_factors. cbn [bind].
  match goal with
  | |- context [_generate_explanation fmt2 ?fs ?o] =>
      destruct (extremes_nonempty
                  ("semantic_similarity", _calculate_semantic_similarity similarity_scores)
                  (tail fs))
        as (s & w & Ht & _ & _)
  end.
  match goal with
  | |- context [_generate_recommendations _ ?l] =>
      destruct (recommendations_return current_time query docs similarity_scores ans l)
        as [recs Hr]
  end.
  unfold _generate_explanation. unfold compute_factors in *. simpl tail in Ht.
  rewrite Ht. cbn [bind fst snd]. rewrite Hr. cbn [bind].
  eexists. split; [reflexivity|]. simpl.
  split; [reflexivity|]. apply weighted_sum_factors.
Qed.

Lemma factors_data_freshness (current_time : Z) (query : string) (docs : list doc)
    (similarity_scores : list R) (ans : string) :
  dict_get (compute_factors lower strip words current_time query docs similarity_scores ans)
           "data_freshness"
  = Ok (_calculate_data_freshness current_time docs).
Proof. reflexivity. Qed.

(** When no retrieved document is dated after the clock, every factor and
    the overall score lie in [0, 1]. *)
Lemma confidence_bounds_without_future (current_time : Z) (query : string)
    (docs : list doc) (similarity_scores : list R) (ans : string) :
  Forall (not_future current_time) docs ->
  exists cs,
    calculate_confidence lower strip words fmt2 current_time query docs similarity_scores ans
    = Ok cs
    /\ Forall (fun kv => 0 <= snd kv <= 1) (factors cs)
    /\ 0 <= overall_score cs <= 1.
Proof.
  intros Hnf.
  destruct (calculate_confidence_returns current_time query docs similarity_scores ans)
    as (cs & Hcs & Hf & Hsum).
  exists cs. split; [exact Hcs|].
  pose proof (semantic_similarity_bounds similarity_scores) as H1.
  pose proof (keyword_match_bounds query docs) as H2.
  pose proof (context_relevance_bounds query docs) as H3.
  pose proof (data_freshness_bounds current_time docs Hnf) as H4.
  pose proof (source_reliability_bounds docs) as H5.
  pose proof (query_clarity_bounds query) as H6.
  pose proof (answer_completeness_bounds query ans) as H7.
  split.
  - rewrite Hf. unfold compute_factors.
    do 7 (constructor; [simpl; lra|]). constructor.
  - rewrite Hf, weighted_sum_factors in Hsum. injection Hsum as <-. lra.
Qed.

End FactorFacts.

(** *** The definitions at concrete inputs *)
Import Examples.

Lemma days_between_ahead (n : Z) :
  days_between clock (clock + n * microseconds_per_day) = (- n)%Z.
Proof.
  unfold days_between.
  replace (clock - (clock + n * microseconds_per_day))%Z
    with ((- n) * microseconds_per_day)%Z by ring.
  apply Z.div_mul. unfold microseconds_per_day. lia.
Qed.

(** The freshness of a single recipe stored [n] days ahead of the clock. *)
Lemma data_freshness_ahead (n : Z) :
  (0 <= n)%Z ->
  _calculate_data_freshness clock [recipe_ahead n] = 1 + IZR n / 365.
Proof.
  intros Hn. unfold _calculate_data_freshness, mean. simpl.
  unfold doc_freshness. simpl.
  rewrite days_between_ahead, opp_IZR.
  apply IZR_le in Hn.
  assert (Hq : 0 <= IZR n / 365) by (apply Rmult_le_pos; lra).
  rewrite Rmax_right by lra. field.
Qed.

(** C5, at the failing input: a single retrieved recipe whose [createdAt]
    is one day after the reading of the clock.  Whatever the query, the
    similarity scores and the answer, [calculate_confidence] returns, and its
    [data_freshness] factor is 366/365, above 1.  With a timestamp ten years
    ahead the factor is 11 and the overall score exceeds 1. *)
Theorem freshness_exceeds_one (lower strip : string -> string)
    (words : string -> list string) (fmt2 : R -> string)
    (query : string) (similarity_scores : list R) (ans : string) :
  (exists cs,
     calculate_confidence lower strip words fmt2 clock query [recipe_ahead 1]
       similarity_scores ans = Ok cs
     /\ dict_get (factors cs) "data_freshness" = Ok (366 / 365)
     /\ 1 < 366 / 365)
  /\ (exists cs,
        calculate_confidence lower strip words fmt2 clock query [recipe_ahead 3650]
          similarity_scores ans = Ok cs
        /\ dict_get (factors cs) "data_freshness" = Ok 11
        /\ 1 < overall_score cs).
Proof.
  split.
  - destruct (calculate_confidence_returns lower strip words fmt2 clock query
                [recipe_ahead 1] similarity_scores ans) as (cs & Hcs & Hf & _).
    exists cs. split; [exact Hcs|]. split; [|lra].
    rewrite Hf, factors_data_freshness.
    rewrite data_freshness_ahead by lia. f_equal. lra.
  - destruct (calculate_confidence_returns lower strip words fmt2 clock query
                [recipe_ahead 3650] similarity_scores ans) as (cs & Hcs & Hf & Hsum).
    exists cs. split; [exact Hcs|]. split.
    + rewrite Hf, factors_data_freshness.
      rewrite data_freshness_ahead by lia. f_equal. lra.
    + rewrite Hf, weighted_sum_factors in Hsum. apply Ok_inj in Hsum.
      rewrite <- Hsum.
      rewrite data_freshness_ahead by lia.
      pose proof (semantic_similarity_bounds similarity_scores).
      pose proof (keyword_match_bounds lower words query [recipe_ahead 3650]).
      pose proof (context_relevance_bounds lower query [recipe_ahead 3650]).
      pose proof (source_reliability_bounds [recipe_ahead 3650]).
      pose proof (query_clarity_bounds lower strip query).
      pose proof (answer_completeness_bounds lower query ans).
      lra.
Qed.

(** C9, counterexample: two factors of equal value.  The code reports the
    second one as the weakest; the first one is the weakest met first. *)
Lemma weakest_tie_goes_to_last :
  extremes tied_factors = Ok (("keyword_match", 0), ("context_relevance", 0))
  /\ first_weakest tied_factors ("keyword_match", 0)
  /\ ~ first_weakest tied_factors ("context_relevance", 0).
Proof.
  split; [|split].
  - unfold extremes, sorted_factors, sorted_desc, sort_by, tied_factors.
    simpl foldr. simpl snd. fcompare. reflexivity.
  - exists [], [("context_relevance", 0)]. split; [reflexivity|].
    split; [constructor|]. constructor; [simpl; lra | constructor].
  - intros (pre & post & Hl & Hpre & _).
    unfold tied_factors in Hl.
    destruct pre as [|p pre]; [discriminate|].
    injection Hl as <- Hl.
    apply Forall_inv in Hpre. simpl in Hpre. lra.
Qed.

(** C10: at level LOW or VERY_LOW, a mapping whose semantic similarity,
    keyword match and query clarity are all at least 0.5 gets no
    recommendation; and such mappings exist: the factors [quiet_factors] have
    the weighted sum 0.385, below 0.5, which classifies as LOW. *)
Theorem no_recommendation_when_three_factors_high :
  (forall (fs : factor_dict) (lvl : ConfidenceLevel) (a b c : R),
     lvl = LOW \/ lvl = VERY_LOW ->
     dict_get fs "semantic_similarity" = Ok a ->
     dict_get fs "keyword_match" = Ok b ->
     dict_get fs "query_clarity" = Ok c ->
     1 / 2 <= a -> 1 / 2 <= b -> 1 / 2 <= c ->
     _generate_recommendations fs lvl = Ok [])
  /\ (exists overall,
        weighted_sum quiet_factors = Ok overall
        /\ overall = 385 / 1000
        /\ overall < 1 / 2
        /\ _get_confidence_level overall = LOW
        /\ _generate_recommendations quiet_factors (_get_confidence_level overall) = Ok []).
Proof.
  assert (Hall : forall (fs : factor_dict) (lvl : ConfidenceLevel) (a b c : R),
             lvl = LOW \/ lvl = VERY_LOW ->
             dict_get fs "semantic_similarity" = Ok a ->
             dict_get fs "keyword_match" = Ok b ->
             dict_get fs "query_clarity" = Ok c ->
             1 / 2 <= a -> 1 / 2 <= b -> 1 / 2 <= c ->
             _generate_recommendations fs lvl = Ok []).
  { intros fs lvl a b c Hlvl Ha Hb Hc Hal Hbl Hcl.
    unfold _generate_recommendations, recommend_if_low.
    destruct Hlvl as [-> | ->]; rewrite Ha, Hb, Hc; cbn [bind];
      replace (5 / 10) with (1 / 2) by lra; fcompare; reflexivity. }
  split; [exact Hall|].
  assert (Hsum : weighted_sum quiet_factors = Ok (385 / 1000)).
  { unfold weighted_sum, quiet_factors. simpl. f_equal. lra. }
  assert (Hlevel : _get_confidence_level (385 / 1000) = LOW).
  { unfold _get_confidence_level. fcompare. reflexivity. }
  exists (385 / 1000). split; [exact Hsum|]. split; [reflexivity|].
  split; [lra|]. split; [exact Hlevel|].
  rewrite Hlevel.
  apply (Hall quiet_factors LOW (1 / 2) (1 / 2) (1 / 2)); try reflexivity; try lra.
  left. reflexivity.
Qed.

Lemma no_recommendation_witness :
  _generate_recommendations quiet_factors LOW = Ok [].
Proof.
  apply (proj1 no_recommendation_when_three_factors_high
           quiet_factors LOW (1 / 2) (1 / 2) (1 / 2)).
  - left. reflexivity.
  - reflexivity.
  - reflexivity.
  - reflexivity.
  - lra.
  - lra.
  - lra.
Defined.

End ScorerFacts.

(** ** vector_db_manager.py: further properties of the manager *)
Module VectorDBMore.
Import Py PyFacts FaissFacts VectorDB VectorDBFacts.
Local Open Scope R_scope.
Local Arguments Nat.leb : simpl never.
Local Arguments Nat.ltb : simpl never.

(** What [index.add] and [index.train] leave untouched. *)
Lemma faiss_add_inv (i i' : Faiss.index) (x : Faiss.ndarray) :
  Faiss.add i x = Ok i' ->
  Faiss.shape1 x = Faiss.d i /\ Faiss.is_trained i = true
  /\ Faiss.cls i' = Faiss.cls i /\ Faiss.d i' = Faiss.d i
  /\ Faiss.metric_type i' = Faiss.metric_type i
  /\ Faiss.is_trained i' = true
  /\ Faiss.xb i' = Faiss.xb i ++ Faiss.rows x.
Proof.
  unfold Faiss.add.
  destruct (Nat.eqb_spec (Faiss.shape1 x) (Faiss.d i)) as [Hd|]; [|discriminate].
  destruct (Faiss.is_trained i) eqn:Ht; [|discriminate].
  simpl. intros [= <-]. simpl. auto 10.
Qed.

Lemma faiss_train_inv (i i' : Faiss.index) (x : Faiss.ndarray) :
  Faiss.train i x = Ok i' ->
  Faiss.cls i' = Faiss.cls i /\ Faiss.d i' = Faiss.d i
  /\ Faiss.metric_type i' = Faiss.metric_type i
  /\ Faiss.xb i' = Faiss.xb i
  /\ (Faiss.is_trained i' = true \/ i' = i).
Proof.
  unfold Faiss.train.
  destruct (negb _); [discriminate|].
  destruct (Faiss.cls i) eqn:Hc; try (intros [= <-]; auto 10).
  destruct (Faiss.is_trained i); [intros [= <-]; auto 10|].
  destruct (Faiss.nrows x <? nlist)%nat; [discriminate|].
  intros [= <-]. simpl. auto 10.
Qed.

Section MoreManagerFacts.
Context {Meta : Type}.
Context `{Faiss.Scan}.
Abbreviation manager := (VectorDBManager Meta).

(** Every entry [collect] returns carries the metadata found at its index. *)
Lemma collect_metadata (md : list Meta) (thr : R) hits (rs : list (search_result Meta)) :
  collect md thr hits = Ok rs ->
  Forall (fun r => getitem md (r_index r) = Ok (r_metadata r)) rs.
Proof.
  revert rs. induction hits as [|[score idx] hits IH]; simpl; intros rs.
  - intros [= <-]. constructor.
  - destruct (keeps thr (score, idx)); [|apply IH].
    intros Hc. apply bind_ok in Hc as (m & Hm & Hc).
    apply bind_ok in Hc as (rs' & Hrs & [= <-]).
    constructor; [exact Hm | apply IH, Hrs].
Qed.

(** The label of a hit is the ordinal of a stored vector. *)
Lemma hit_in_range (i : Faiss.index) (q : Faiss.vec) (n : nat) (h : R * Z) :
  Faiss.hit i q n = Some h ->
  (0 <= snd h < Z.of_nat (Faiss.ntotal i))%Z.
Proof.
  unfold Faiss.hit. destruct (Faiss.xb i !! n) as [x|] eqn:Hx; simpl; [|discriminate].
  intros [= <-]. simpl. apply lookup_lt_Some in Hx. unfold Faiss.ntotal. lia.
Qed.

Lemma search_entries_in_range (self : manager) (i : Faiss.index) q k thr
    (rs : list (search_result Meta)) :
  index self = Some i ->
  search self q k thr = Ok rs ->
  Forall (fun r => (0 <= r_index r < Z.of_nat (Faiss.ntotal i))%Z) rs.
Proof.
  intros Hi Hs.
  destruct (search_entries self i q k thr rs Hi Hs) as [-> | He]; [constructor|].
  apply Forall_forall. intros r Hr.
  assert (Hin : In (entry r) (map entry rs)).
  { apply in_map, list_elem_of_In, Hr. }
  rewrite He in Hin. apply filter_In in Hin as [Hin _].
  apply list_elem_of_In in Hin.
  apply elem_of_take in Hin as (j & Hj & _).
  assert (Hr' : entry r ∈ Faiss.ranked i
                  (omap (Faiss.hit i (Faiss.renorm q))
                        (Faiss.candidates i (Faiss.renorm q)))).
  { apply list_elem_of_lookup. exists j. exact Hj. }
  rewrite ranked_perm in Hr'.
  apply list_elem_of_omap in Hr' as (n & _ & Hn).
  apply hit_in_range in Hn. exact Hn.
Qed.

Lemma search_metadata (self : manager) q k thr (rs : list (search_result Meta)) :
  search self q k thr = Ok rs ->
  Forall (fun r => getitem (metadata self) (r_index r) = Ok (r_metadata r)) rs.
Proof.
  unfold search. destruct (index self) as [i|]; [|discriminate].
  destruct (Faiss.ntotal i =? 0)%nat.
  - intros [= <-]. constructor.
  - intros Hs. apply bind_ok in Hs as (hits & _ & Hc). eapply collect_metadata, Hc.
Qed.

(** X1: for every index type, every query, [k] and threshold, a search that
    returns has at most [k] entries, each with a score at or above the
    threshold. *)
Theorem search_size_and_threshold (self : manager) q k thr (rs : list (search_result Meta)) :
  search self q k thr = Ok rs ->
  (length rs <= Z.to_nat k)%nat
  /\ Forall (fun r => thr <= similarity_score r) rs.
Proof.
  intros Hs. split.
  - eapply search_at_most_k, Hs.
  - eapply search_above_threshold, Hs.
Qed.

(** X2: every entry [search] returns carries the ordinal of a stored vector
    and the metadata found at that ordinal of the metadata table. *)
Theorem search_entry_is_stored (self : manager) (i : Faiss.index) q k thr
    (rs : list (search_result Meta)) :
  index self = Some i ->
  search self q k thr = Ok rs ->
  Forall (fun r => (0 <= r_index r < Z.of_nat (Faiss.ntotal i))%Z
                   /\ getitem (metadata self) (r_index r) = Ok (r_metadata r)) rs.
Proof.
  intros Hi Hs.
  pose proof (search_entries_in_range self i q k thr rs Hi Hs) as Hrange.
  pose proof (search_metadata self q k thr rs Hs) as Hmeta.
  rewrite Forall_forall in Hrange, Hmeta. apply Forall_forall.
  intros r Hr. split; [apply Hrange, Hr | apply Hmeta, Hr].
Qed.

(** X3: a successful [add_documents] only appends: the metadata table after
    the call is the table before followed by the batch, the dimension and
    the index type are unchanged, and [is_trained] is never reset. *)
Theorem add_documents_appends (self self' : manager) e md :
  add_documents e md self = (Ok tt, self') ->
  metadata self' = metadata self ++ md
  /\ dimension self' = dimension self
  /\ index_type self' = index_type self
  /\ (is_trained self = true -> is_trained self' = true)
  /\ exists i', index self' = Some i'.
Proof.
  intros Ha.
  apply add_documents_inv in Ha as (_ & i0 & i' & t' & _ & -> & Hcase).
  simpl. repeat split; eauto.
  intros Ht.
  destruct Hcase as [(_ & Hf & _) | [(_ & Hf & _) | (_ & _ & ->)]]; congruence.
Qed.

(** The index of a reachable manager has the manager's dimension, and is
    untrained only while the manager is an untrained inverted-file one. *)
Lemma reachable_index_sound (s : manager) (i : Faiss.index) :
  reachable s -> index s = Some i ->
  Faiss.d i = dimension s
  /\ (Faiss.is_trained i = false ->
      index_type s = "IVF" /\ is_trained s = false /\ Faiss.cls i = Faiss.IndexIVFFlat 100)
  /\ (Faiss.cls i = Faiss.IndexFlat ->
      Faiss.metric_type i = Faiss.METRIC_INNER_PRODUCT).
Proof.
  intros Hr. revert i. induction Hr as [dim ty | self e md self' Hr IH Ha]; intros i Hi.
  - simpl in Hi. unfold _create_index in Hi.
    destruct (String.eqb ty "Flat"); [injection Hi as <-; simpl; repeat split; try discriminate; auto|].
    destruct (String.eqb ty "IVF") eqn:Hivf.
    { apply String.eqb_eq in Hivf. injection Hi as <-. simpl.
      repeat split; auto; discriminate. }
    destruct (String.eqb ty "HNSW"); [|discriminate].
    injection Hi as <-. simpl. repeat split; auto; discriminate.
  - apply add_documents_inv in Ha as (Hd & i0 & i' & t' & Hadd & -> & Hcase).
    simpl in Hi. injection Hi as ->. simpl.
    apply faiss_add_inv in Hadd as (_ & _ & Hcls & Hdim & Hmet & Htr & _).
    rewrite Hcls, Hdim, Hmet, Htr.
    destruct Hcase as [(_ & _ & _ & -> & _) | [(_ & _ & _ & (i1 & Hi1 & Htrain) & _) | (_ & Hi0 & _)]].
    + simpl. repeat split; auto; discriminate.
    + apply faiss_train_inv in Htrain as (Hc1 & Hd1 & Hm1 & _ & _).
      destruct (IH i1 Hi1) as (IHd & _ & IHm).
      rewrite Hc1, Hd1, Hm1. repeat split; auto; discriminate.
    + destruct (IH i0 Hi0) as (IHd & _ & IHm).
      repeat split; auto; discriminate.
Qed.

(** X4: on a manager built by [add_documents] calls that has an index, a
    batch of the manager's dimension is always accepted: the only error such
    a call can raise is the dimension mismatch. *)
Theorem add_documents_accepts (s : manager) e md :
  reachable s -> index s <> None ->
  Faiss.shape1 e = dimension s ->
  exists s', add_documents e md s = (Ok tt, s').
Proof.
  intros Hr Hsome Hd.
  destruct (index s) as [i|] eqn:Hi; [|contradiction].
  destruct (reachable_index_sound s i Hr Hi) as (Hdi & Huntrained & _).
  destruct (String.eqb (index_type s) "IVF" && negb (is_trained s))%bool eqn:Hb.
  - apply andb_true_iff in Hb as [Hty Htr].
    apply String.eqb_eq in Hty. apply negb_true_iff in Htr.
    destruct (Nat.lt_ge_cases (Faiss.nrows e) 100) as [Hn | Hn].
    + eexists. apply add_documents_fallback; assumption.
    + unfold add_documents, mbind, mget.
      rewrite Hd, Nat.eqb_refl. cbn [negb].
      rewrite Hty, Htr. cbn [String.eqb Ascii.eqb Bool.eqb andb negb].
      rewrite nrows_normalize. apply Nat.leb_le in Hn. rewrite Hn.
      unfold the_index at 1. rewrite Hi. unfold mlift at 1.
      assert (Htrain : exists i0, Faiss.train i (Faiss.normalize_L2 e) = Ok i0
                                  /\ Faiss.is_trained i0 = true /\ Faiss.d i0 = Faiss.d i).
      { unfold Faiss.train. simpl Faiss.shape1. rewrite Hd, Hdi, Nat.eqb_refl. cbn [negb].
        destruct (Faiss.is_trained i) eqn:Hti.
        - destruct (Faiss.cls i); eexists; split; try reflexivity; auto.
        - destruct (Huntrained eq_refl) as (_ & _ & ->).
          rewrite nrows_normalize.
          apply Nat.leb_le in Hn.
          assert (Hlt : (Faiss.nrows e <? 100)%nat = false) by (apply Nat.ltb_ge; exact Hn).
          rewrite Hlt. eexists. split; [reflexivity|]. simpl. auto. }
      destruct Htrain as (i0 & -> & Ht0 & Hd0).
      unfold set_index, set_is_trained, the_index, mlift, extend_metadata, Faiss.add.
      simpl. rewrite Hd0, Hdi, Hd, Nat.eqb_refl, Ht0. simpl. eexists. reflexivity.
  - assert (Hc : index_type s <> "IVF" \/ is_trained s = true).
    { apply andb_false_iff in Hb as [Hb | Hb].
      - left. apply String.eqb_neq, Hb.
      - right. apply negb_false_iff, Hb. }
    assert (Ht : Faiss.is_trained i = true).
    { destruct (Faiss.is_trained i) eqn:Hti; [reflexivity|].
      destruct (Huntrained eq_refl) as (Hty & Htr & _).
      destruct Hc as [Hc | Hc]; congruence. }
    eexists. apply (add_documents_plain s i); assumption.
Qed.

(** A manager that has fallen back stays so. *)
Lemma fell_back_stays (self self' : manager) e md :
  fell_back self = true ->
  add_documents e md self = (Ok tt, self') ->
  fell_back self' = true.
Proof.
  unfold fell_back. intros Hf Ha.
  apply andb_true_iff in Hf as [Hty Hflat].
  destruct (index self) as [i|] eqn:Hi; [|discriminate].
  destruct (Faiss.cls i) eqn:Hc; try discriminate.
  apply add_documents_inv in Ha as (_ & i0 & i' & t' & Hadd & -> & Hcase).
  simpl. rewrite Hty. simpl.
  apply faiss_add_inv in Hadd as (_ & _ & Hcls & _).
  rewrite Hcls.
  destruct Hcase as [(_ & _ & _ & -> & _) | [(_ & _ & _ & (i1 & Hi1 & Htrain) & _) | (_ & Hi0 & _)]].
  - reflexivity.
  - apply faiss_train_inv in Htrain as (Hc1 & _).
    rewrite Hc1. assert (i1 = i) by congruence. subst i1. rewrite Hc. reflexivity.
  - assert (i0 = i) by congruence. subst i0. rewrite Hc. reflexivity.
Qed.

(** X5: a manager built by calls that pass one metadata entry per vector,
    and that has not fallen back to a flat index, keeps the metadata table
    exactly as long as the index. *)
Theorem lockstep_without_fallback (s : manager) :
  Runs.fed s -> fell_back s = false -> lockstep s.
Proof.
  induction 1 as [dim ty | self e md self' Hfed IH Hlen Ha]; intros Hnf.
  - unfold lockstep. simpl. unfold _create_index.
    destruct (String.eqb ty "Flat"); [reflexivity|].
    destruct (String.eqb ty "IVF"); [reflexivity|].
    destruct (String.eqb ty "HNSW"); reflexivity.
  - assert (Hself : fell_back self = false).
    { destruct (fell_back self) eqn:Hf; [|reflexivity].
      rewrite (fell_back_stays self self' e md Hf Ha) in Hnf. discriminate. }
    apply (add_documents_keeps_lockstep self self' e md (IH Hself) Hlen); [|exact Ha].
    intros Hty Htr Hn. exfalso.
    pose proof Ha as Ha'. apply add_documents_inv in Ha' as (Hd & _).
    rewrite (add_documents_fallback self e md Hty Htr Hd Hn) in Ha.
    injection Ha as <-. unfold fell_back in Hnf. simpl in Hnf.
    rewrite Hty in Hnf. discriminate.
Qed.

(** X6: on an untrained inverted-file manager every call with fewer than
    100 vectors starts the index afresh: afterwards the index holds exactly
    the vectors of that call, the metadata table holds the earlier entries
    and the new ones, and the training flag is still unset -- so a manager
    that held documents has a metadata table longer than its index. *)
Theorem small_batch_restarts_index (self : manager) e md :
  index_type self = "IVF" -> is_trained self = false ->
  Faiss.shape1 e = dimension self -> (Faiss.nrows e < 100)%nat ->
  exists self' i',
    add_documents e md self = (Ok tt, self')
    /\ index self' = Some i'
    /\ Faiss.xb i' = Faiss.rows (Faiss.normalize_L2 e)
    /\ Faiss.ntotal i' = Faiss.nrows e
    /\ metadata self' = metadata self ++ md
    /\ is_trained self' = false
    /\ (metadata self <> [] -> Faiss.nrows e = length md -> ~ lockstep self').
Proof.
  intros Hty Htr Hd Hn.
  eexists _, _. split; [apply add_documents_fallback; assumption|].
  simpl. split; [reflexivity|]. split; [reflexivity|].
  split; [unfold Faiss.ntotal; simpl; apply length_map|].
  split; [reflexivity|]. split; [exact Htr|].
  intros Hne Hlen. unfold lockstep, Faiss.ntotal. simpl.
  rewrite length_app, length_map. fold (Faiss.nrows e). rewrite Hlen.
  destruct (metadata self); [contradiction|]. simpl. lia.
Qed.

(** The metric of a reachable manager's index is decided by its class. *)
Lemma reachable_index_metric (s : manager) (i : Faiss.index) :
  reachable s -> index s = Some i ->
  Faiss.metric_type i =
    match Faiss.cls i with
    | Faiss.IndexFlat => Faiss.METRIC_INNER_PRODUCT
    | _ => Faiss.METRIC_L2
    end.
Proof.
  intros Hr. revert i. induction Hr as [dim ty | self e md self' Hr IH Ha]; intros i Hi.
  - simpl in Hi. unfold _create_index in Hi.
    destruct (String.eqb ty "Flat"); [injection Hi as <-; reflexivity|].
    destruct (String.eqb ty "IVF"); [injection Hi as <-; reflexivity|].
    destruct (String.eqb ty "HNSW"); [injection Hi as <-; reflexivity|discriminate].
  - apply add_documents_inv in Ha as (Hd & i0 & i' & t' & Hadd & -> & Hcase).
    simpl in Hi. injection Hi as ->.
    apply faiss_add_inv in Hadd as (_ & _ & Hcls & _ & Hmet & _).
    rewrite Hcls, Hmet.
    destruct Hcase as [(_ & _ & _ & -> & _) | [(_ & _ & _ & (i1 & Hi1 & Htrain) & _) | (_ & Hi0 & _)]].
    + reflexivity.
    + apply faiss_train_inv in Htrain as (Hc1 & _ & Hm1 & _).
      rewrite Hc1, Hm1. apply IH, Hi1.
    + apply IH, Hi0.
Qed.

(** X7: on a manager built by [add_documents] calls the order of the
    returned scores is decided by the class of the index it holds: a flat
    index (created as such, or by the fallback) gives scores that never
    increase, an inverted-file or graph index gives scores that never
    decrease. *)
Theorem search_order_by_index_class (s : manager) (i : Faiss.index) q k thr
    (rs : list (search_result Meta)) :
  reachable s -> index s = Some i ->
  search s q k thr = Ok rs ->
  (Faiss.cls i = Faiss.IndexFlat -> descending similarity_score rs)
  /\ (Faiss.cls i <> Faiss.IndexFlat -> ascending similarity_score rs).
Proof.
  intros Hr Hi Hs. pose proof (reachable_index_metric s i Hr Hi) as Hm.
  split; intros Hc.
  - rewrite Hc in Hm. eapply search_descending_inner_product; eassumption.
  - destruct (Faiss.cls i); [contradiction| |];
      eapply search_ascending_l2; eassumption.
Qed.

Lemma nth_error_is_lookup {A : Type} (l : list A) (n : nat) : nth_error l n = l !! n.
Proof. revert n. induction l as [|a l IH]; intros [|n]; simpl; auto. Qed.

Lemma getitem_lookup {A : Type} (l : list A) (n : nat) (a : A) :
  l !! n = Some a -> getitem l (Z.of_nat n) = Ok a.
Proof.
  intros Hl. pose proof (lookup_lt_Some _ _ _ Hl) as Hlt.
  unfold getitem. cbv zeta.
  assert (Hneg : (Z.of_nat n <? 0)%Z = false) by (apply Z.ltb_ge; lia).
  rewrite Hneg.
  assert (Hge : (0 <=? Z.of_nat n)%Z = true) by (apply Z.leb_le; lia).
  assert (Hlt' : (Z.of_nat n <? Z.of_nat (length l))%Z = true) by (apply Z.ltb_lt; lia).
  rewrite Hge, Hlt'. cbn [andb].
  rewrite Nat2Z.id, nth_error_is_lookup, Hl. reflexivity.
Qed.

Lemma getitem_in_range {A : Type} (l : list A) (z : Z) :
  (0 <= z < Z.of_nat (length l))%Z -> exists a, getitem l z = Ok a.
Proof.
  intros Hz.
  destruct (lookup_lt_is_Some_2 l (Z.to_nat z)) as [a Ha]; [lia|].
  exists a. rewrite <- (Z2Nat.id z) by lia. apply getitem_lookup, Ha.
Qed.

Lemma collect_total (md : list Meta) (thr : R) hits :
  Forall (fun h => keeps thr h = true -> exists m, getitem md (snd h) = Ok m) hits ->
  exists rs, collect md thr hits = Ok rs.
Proof.
  induction 1 as [|[score idx] hits Hh _ IH]; simpl.
  - eexists. reflexivity.
  - destruct IH as (rs & Hrs).
    destruct (keeps thr (score, idx)) eqn:Hk.
    + destruct (Hh eq_refl) as (m & Hm). simpl in Hm.
      rewrite Hm, Hrs. simpl. eexists. reflexivity.
    + eauto.
Qed.

Lemma omap_length_le {A B : Type} (f : A -> option B) (l : list A) :
  (length (omap f l) <= length l)%nat.
Proof.
  induction l as [|a l IH]; [reflexivity|].
  change (omap f (a :: l)) with (match f a with Some b => b :: omap f l | None => omap f l end).
  destruct (f a); simpl; lia.
Qed.

Lemma renorm_length (v : Faiss.vec) : length (Faiss.renorm v) = length v.
Proof.
  unfold Faiss.renorm. destruct (bool_decide _); [apply length_map | reflexivity].
Qed.

(** X8: a flat index searches exhaustively.  On a manager built by
    [add_documents] calls whose index is flat and whose metadata table is in
    lockstep with it, a search with [k] at least the number of stored
    vectors returns, and its result has an entry for every stored vector
    whose inner product with the normalised query reaches the threshold,
    with that product as score and the vector's own metadata. *)
Theorem flat_search_complete (s : manager) (i : Faiss.index) q k thr :
  reachable s -> index s = Some i ->
  Faiss.cls i = Faiss.IndexFlat ->
  lockstep s ->
  length q = dimension s ->
  (0 < Faiss.ntotal i)%nat ->
  (Z.of_nat (Faiss.ntotal i) <= k)%Z ->
  exists rs,
    search s q k thr = Ok rs
    /\ forall n x m,
         Faiss.xb i !! n = Some x -> metadata s !! n = Some m ->
         thr <= Faiss.dot (Faiss.renorm q) x ->
         exists r, r ∈ rs /\ r_index r = Z.of_nat n /\ r_metadata r = m
                   /\ similarity_score r = Faiss.dot (Faiss.renorm q) x.
Proof.
  intros Hr Hi Hc Hlock Hq Hpos Hk.
  pose proof (reachable_index_metric s i Hr Hi) as Hm. rewrite Hc in Hm.
  destruct (reachable_index_sound s i Hr Hi) as (Hd & _ & _).
  unfold lockstep in Hlock. rewrite Hi in Hlock.
  set (q' := Faiss.renorm q).
  set (found := Faiss.ranked i (omap (Faiss.hit i q') (Faiss.candidates i q'))).
  assert (Hcand : Faiss.candidates i q' = seq 0 (Faiss.ntotal i)).
  { unfold Faiss.candidates. rewrite Hc. reflexivity. }
  assert (Hlen : (length found <= Z.to_nat k)%nat).
  { unfold found. rewrite (Permutation_length (ranked_perm i _)).
    etransitivity; [apply omap_length_le|]. rewrite Hcand, length_seq. lia. }
  assert (Hsearch : Faiss.search i q' k
                    = Ok (found ++ replicate (Z.to_nat k - length found) (Faiss.padding i))).
  { unfold Faiss.search. unfold q' at 1. rewrite renorm_length, Hq, Hd, Nat.eqb_refl.
    cbn [negb].
    assert (Hk0 : (k <=? 0)%Z = false) by (apply Z.leb_gt; lia).
    rewrite Hk0. fold found.
    rewrite (take_ge found) by exact Hlen. reflexivity. }
  assert (Hfound : forall h, h ∈ found -> (0 <= snd h < Z.of_nat (Faiss.ntotal i))%Z).
  { intros h Hh. unfold found in Hh. rewrite ranked_perm in Hh.
    apply list_elem_of_omap in Hh as (n & _ & Hn). eapply hit_in_range, Hn. }
  destruct (collect_total (metadata s) thr
              (found ++ replicate (Z.to_nat k - length found) (Faiss.padding i)))
    as (rs & Hrs).
  { apply Forall_app. split; apply Forall_forall; intros h Hh.
    - intros _. apply getitem_in_range. rewrite Hlock. apply Hfound, Hh.
    - apply elem_of_replicate in Hh as [-> _]. unfold keeps. simpl. discriminate. }
  assert (Hs : search s q k thr = Ok rs).
  { unfold search. rewrite Hi.
    assert (Hnz : (Faiss.ntotal i =? 0)%nat = false) by (apply Nat.eqb_neq; lia).
    rewrite Hnz. fold q'. rewrite Hsearch. exact Hrs. }
  exists rs. split; [exact Hs|].
  intros n x m Hx Hmeta Hthr.
  assert (Hhit : Faiss.hit i q' n = Some (Faiss.dot q' x, Z.of_nat n)).
  { unfold Faiss.hit. rewrite Hx. simpl. unfold Faiss.distance. rewrite Hm. reflexivity. }
  assert (Hin : (Faiss.dot q' x, Z.of_nat n) ∈ found).
  { unfold found. rewrite ranked_perm. apply list_elem_of_omap.
    exists n. split; [|exact Hhit].
    rewrite Hcand. apply elem_of_seq. apply lookup_lt_Some in Hx.
    unfold Faiss.ntotal. lia. }
  assert (Hkept : In (Faiss.dot q' x, Z.of_nat n) (map entry rs)).
  { rewrite (collect_entries _ _ _ _ Hrs). apply filter_In. split.
    - apply in_or_app. left. apply list_elem_of_In, Hin.
    - unfold keeps. simpl. apply andb_true_iff. split.
      + apply negb_true_iff, Z.eqb_neq. lia.
      + apply fge_true. exact Hthr. }
  apply in_map_iff in Hkept as (r & He & Hrin).
  unfold entry in He. injection He as Hscore Hidx.
  exists r. split; [apply list_elem_of_In, Hrin|].
  split; [exact Hidx|]. split; [|exact Hscore].
  pose proof (collect_metadata _ _ _ _ Hrs) as Hall.
  rewrite Forall_forall in Hall.
  specialize (Hall r (proj2 (list_elem_of_In _ _) Hrin)).
  rewrite Hidx, (getitem_lookup _ _ _ Hmeta) in Hall.
  apply Ok_inj in Hall. symmetry. exact Hall.
Qed.

(** A search returns whenever the query has the index's dimension, [k] is
    positive and the metadata table is at least as long as the index. *)
Lemma search_returns (s : manager) (i : Faiss.index) q k thr :
  index s = Some i ->
  length q = Faiss.d i -> (0 < k)%Z ->
  (Faiss.ntotal i <= length (metadata s))%nat ->
  exists rs, search s q k thr = Ok rs.
Proof.
  intros Hi Hq Hk Hcover. unfold search. rewrite Hi.
  destruct (Faiss.ntotal i =? 0)%nat; [eexists; reflexivity|].
  unfold Faiss.search. rewrite renorm_length, Hq, Nat.eqb_refl. cbn [negb].
  assert (Hk0 : (k <=? 0)%Z = false) by (apply Z.leb_gt; lia).
  rewrite Hk0. cbn [bind].
  apply collect_total. apply Forall_app. split; apply Forall_forall; intros h Hh.
  - intros _. apply getitem_in_range.
    apply elem_of_take in Hh as (j & Hj & _).
    apply list_elem_of_lookup_2 in Hj. rewrite ranked_perm in Hj.
    apply list_elem_of_omap in Hj as (n & _ & Hn).
    apply hit_in_range in Hn. lia.
  - apply elem_of_replicate in Hh as [-> _]. unfold keeps. simpl. discriminate.
Qed.

Lemma fed_reachable (s : manager) : Runs.fed s -> reachable s.
Proof.
  induction 1 as [dim ty | self e md self' _ IH _ Ha];
    [apply reach_init | eapply reach_add; eassumption].
Qed.

(** Under one metadata entry per vector the index never outgrows the
    metadata table, with or without the fallback. *)
Lemma fed_index_within_metadata (s : manager) (i : Faiss.index) :
  Runs.fed s -> index s = Some i ->
  (Faiss.ntotal i <= length (metadata s))%nat.
Proof.
  intros Hf. revert i. induction Hf as [dim ty | self e md self' Hf IH Hlen Ha]; intros i Hi.
  - simpl in Hi. unfold _create_index in Hi.
    destruct (String.eqb ty "Flat"); [injection Hi as <-; unfold Faiss.ntotal; simpl; lia|].
    destruct (String.eqb ty "IVF"); [injection Hi as <-; unfold Faiss.ntotal; simpl; lia|].
    destruct (String.eqb ty "HNSW"); [injection Hi as <-; unfold Faiss.ntotal; simpl; lia|discriminate].
  - apply add_documents_inv in Ha as (Hd & i0 & i' & t' & Hadd & -> & Hcase).
    simpl in Hi. injection Hi as ->. simpl.
    apply faiss_add_inv in Hadd as (_ & _ & _ & _ & _ & _ & Hxb).
    unfold Faiss.ntotal in *. rewrite Hxb, !length_app. simpl.
    rewrite length_map. fold (Faiss.nrows e). rewrite Hlen.
    destruct Hcase as [(_ & _ & _ & -> & _) | [(_ & _ & _ & (i1 & Hi1 & Htrain) & _) | (_ & Hi0 & _)]].
    + simpl. lia.
    + apply faiss_train_inv in Htrain as (_ & _ & _ & Hx1 & _).
      rewrite Hx1. specialize (IH i1 Hi1). lia.
    + specialize (IH i0 Hi0). lia.
Qed.

(** X9: on a manager of a known index type built by calls that pass one
    metadata entry per vector, a search with a query of the manager's
    dimension and a positive [k] always returns a list: it raises neither on
    padding labels nor after the fallback has dropped vectors. *)
Theorem search_never_fails (s : manager) (i : Faiss.index) q k thr :
  Runs.fed s -> index s = Some i ->
  length q = dimension s -> (0 < k)%Z ->
  exists rs, search s q k thr = Ok rs.
Proof.
  intros Hf Hi Hq Hk.
  destruct (reachable_index_sound s i (fed_reachable s Hf) Hi) as (Hd & _).
  apply (search_returns s i); [exact Hi | congruence | exact Hk |].
  apply fed_index_within_metadata; assumption.
Qed.

End MoreManagerFacts.

Import Examples MoreExamples.

Lemma flat1_reachable : reachable flat1.
Proof. apply (reach_add flat0 (batch [e1; e2]) ["A"; "B"]); [apply reach_init | reflexivity]. Qed.

Lemma flat1_fed : Runs.fed flat1.
Proof.
  apply (Runs.fed_add flat0 (batch [e1; e2]) ["A"; "B"]);
    [apply Runs.fed_init | reflexivity | reflexivity].
Qed.

Lemma flat1_holds_store : index flat1 = Some flat1_store.
Proof. reflexivity. Qed.

Lemma flat1_search : @search string Faiss.exhaustive flat1 e1 2 0 = Ok flat1_hits.
Proof. apply search_flat_scores_descend. Qed.

Lemma search_size_and_threshold_witness :
  (length flat1_hits <= Z.to_nat 2)%nat
  /\ Forall (fun r => 0 <= similarity_score r) flat1_hits.
Proof.
  apply (search_size_and_threshold (H := Faiss.exhaustive) flat1 e1 2 0 flat1_hits).
  exact flat1_search.
Defined.

Lemma search_entry_is_stored_witness :
  Forall (fun r => (0 <= r_index r < Z.of_nat (Faiss.ntotal flat1_store))%Z
                   /\ getitem (metadata flat1) (r_index r) = Ok (r_metadata r)) flat1_hits.
Proof.
  apply (search_entry_is_stored (H := Faiss.exhaustive) flat1 flat1_store e1 2 0 flat1_hits).
  - exact flat1_holds_store.
  - exact flat1_search.
Defined.

Lemma add_documents_appends_witness :
  metadata ivf1 = metadata ivf0 ++ ["A"]
  /\ dimension ivf1 = dimension ivf0
  /\ index_type ivf1 = index_type ivf0
  /\ (is_trained ivf0 = true -> is_trained ivf1 = true)
  /\ exists i', index ivf1 = Some i'.
Proof.
  apply (add_documents_appends ivf0 ivf1 (batch [e1]) ["A"]).
  reflexivity.
Defined.

Lemma add_documents_accepts_witness :
  exists s', add_documents (batch [e1]) ["C"] flat1 = (Ok tt, s').
Proof.
  apply (add_documents_accepts flat1 (batch [e1]) ["C"]).
  - exact flat1_reachable.
  - rewrite flat1_holds_store. discriminate.
  - reflexivity.
Defined.

Lemma lockstep_without_fallback_witness : lockstep flat1.
Proof.
  apply (lockstep_without_fallback flat1).
  - exact flat1_fed.
  - reflexivity.
Defined.

Lemma small_batch_restarts_index_witness :
  exists self' i',
    add_documents (batch [e2]) ["B"] ivf1 = (Ok tt, self')
    /\ index self' = Some i'
    /\ Faiss.xb i' = Faiss.rows (Faiss.normalize_L2 (batch [e2]))
    /\ Faiss.ntotal i' = Faiss.nrows (batch [e2])
    /\ metadata self' = metadata ivf1 ++ ["B"]
    /\ is_trained self' = false
    /\ (metadata ivf1 <> [] -> Faiss.nrows (batch [e2]) = length ["B"] -> ~ lockstep self').
Proof.
  apply (small_batch_restarts_index ivf1 (batch [e2]) ["B"]).
  - reflexivity.
  - reflexivity.
  - reflexivity.
  - unfold Faiss.nrows. simpl. lia.
Defined.

Lemma search_order_by_index_class_witness :
  (Faiss.cls flat1_store = Faiss.IndexFlat -> descending similarity_score flat1_hits)
  /\ (Faiss.cls flat1_store <> Faiss.IndexFlat -> ascending similarity_score flat1_hits).
Proof.
  apply (search_order_by_index_class (H := Faiss.exhaustive) flat1 flat1_store e1 2 0 flat1_hits).
  - exact flat1_reachable.
  - exact flat1_holds_store.
  - exact flat1_search.
Defined.

Lemma search_never_fails_witness :
  exists rs, @search string Faiss.exhaustive flat1 e1 7 (1 / 2) = Ok rs.
Proof.
  apply (search_never_fails (H := Faiss.exhaustive) flat1 flat1_store e1 7 (1 / 2)).
  - exact flat1_fed.
  - exact flat1_holds_store.
  - reflexivity.
  - lia.
Defined.

Lemma flat_search_complete_witness :
  exists rs,
    @search string Faiss.exhaustive flat1 e1 2 0 = Ok rs
    /\ forall n x m,
         Faiss.xb flat1_store !! n = Some x -> metadata flat1 !! n = Some m ->
         0 <= Faiss.dot (Faiss.renorm e1) x ->
         exists r, r ∈ rs /\ r_index r = Z.of_nat n /\ r_metadata r = m
                   /\ similarity_score r = Faiss.dot (Faiss.renorm e1) x.
Proof.
  apply (flat_search_complete (H := Faiss.exhaustive) flat1 flat1_store e1 2 0).
  - exact flat1_reachable.
  - exact flat1_holds_store.
  - reflexivity.
  - reflexivity.
  - reflexivity.
  - unfold Faiss.ntotal. simpl. lia.
  - unfold Faiss.ntotal. simpl. lia.
Defined.

End VectorDBMore.

(** ** Properties of the hybrid store *)
Module HybridFacts.
Import Py PyFacts FaissFacts VectorDBFacts VectorDBMore Hybrid.
Local Open Scope R_scope.
Local Arguments Nat.leb : simpl never.
Local Arguments Nat.ltb : simpl never.

Lemma slice_to_sublist {A : Type} (l : list A) (k : Z) : slice_to l k `sublist_of` l.
Proof. unfold slice_to. destruct (k <? 0)%Z; apply sublist_take. Qed.

Lemma find_app_Some {A : Type} (f : A -> bool) (l1 l2 : list A) (a : A) :
  List.find f l1 = Some a -> List.find f (l1 ++ l2) = Some a.
Proof.
  induction l1 as [|x l1 IH]; simpl; [discriminate|].
  destruct (f x); [auto | exact IH].
Qed.

Lemma find_app_None {A : Type} (f : A -> bool) (l1 l2 : list A) :
  List.find f l1 = None -> List.find f (l1 ++ l2) = List.find f l2.
Proof.
  induction l1 as [|x l1 IH]; simpl; [reflexivity|].
  destruct (f x); [discriminate | exact IH].
Qed.

Lemma find_first {A : Type} (f : A -> bool) (pre post : list A) (a : A) :
  Forall (fun x => f x = false) pre -> f a = true ->
  List.find f (pre ++ a :: post) = Some a.
Proof.
  induction 1 as [|x pre Hx _ IH]; simpl; intros Ha.
  - rewrite Ha. reflexivity.
  - rewrite Hx. apply IH, Ha.
Qed.

Lemma filter_none {A : Type} (f : A -> bool) (l : list A) :
  Forall (fun x => f x = false) l -> List.filter f l = [].
Proof.
  induction 1 as [|x l Hx _ IH]; simpl; [reflexivity|].
  rewrite Hx. exact IH.
Qed.

Lemma getitem_Ok_lookup {A : Type} (l : list A) (z : Z) (a : A) :
  (0 <= z)%Z -> getitem l z = Ok a -> l !! Z.to_nat z = Some a.
Proof.
  intros Hz. unfold getitem. cbv zeta.
  assert (Hneg : (z <? 0)%Z = false) by (apply Z.ltb_ge; lia).
  rewrite Hneg.
  destruct (_ && _)%bool; [|discriminate].
  rewrite nth_error_is_lookup.
  destruct (l !! Z.to_nat z); [intros [= ->]; reflexivity | discriminate].
Qed.

(** A FAQ item yields a dictionary of type ['faq'] or a [KeyError]. *)
Lemma faq_metadata_cases (item : faq_item) :
  (exists q a, f_question item = Some q /\ f_answer item = Some a
               /\ faq_metadata item =
                    Ok (Faq q a (default "general" (f_category item))
                            (default [] (f_tags item))))
  \/ ((f_question item = None \/ f_answer item = None)
      /\ faq_metadata item = Raise KeyError).
Proof.
  unfold faq_metadata.
  destruct (f_question item) as [q|]; simpl; [|right; auto].
  destruct (f_answer item) as [a|]; simpl; [|right; auto].
  left. eauto.
Qed.

Lemma faq_metadata_list_Ok (faq_data : list faq_item) (ms : list metadata) :
  faq_metadata_list faq_data = Ok ms ->
  length ms = length faq_data /\ Forall (fun m => type_of m = "faq") ms.
Proof.
  revert ms. induction faq_data as [|item rest IH]; simpl; intros ms.
  - intros [= <-]. split; [reflexivity | constructor].
  - intros Hb. apply bind_ok in Hb as (m & Hm & Hb).
    apply bind_ok in Hb as (ms' & Hms' & [= <-]).
    destruct (IH ms' Hms') as (Hlen & Hall).
    split; [simpl; congruence|].
    constructor; [|exact Hall].
    destruct (faq_metadata_cases item) as [(q & a & _ & _ & He) | (_ & He)];
      rewrite He in Hm; [injection Hm as <-; reflexivity | discriminate].
Qed.

Lemma faq_metadata_list_missing (faq_data : list faq_item) :
  Exists (fun item => f_question item = None \/ f_answer item = None) faq_data ->
  faq_metadata_list faq_data = Raise KeyError.
Proof.
  induction faq_data as [|item rest IH]; intros He; [inversion He|].
  simpl.
  destruct (faq_metadata_cases item) as [(q & a & Hq & Ha & ->) | (_ & ->)]; [|reflexivity].
  simpl. inversion He as [? ? [Hbad | Hbad] | ? ? Hrest]; subst; try congruence.
  rewrite (IH Hrest). reflexivity.
Qed.

Lemma add_recipe_data_inv (self self' : HybridVectorDB) docs e :
  add_recipe_data docs e self = (Ok tt, self') ->
  exists m',
    VectorDB.add_documents e (map recipe_metadata docs) (manager self) = (Ok tt, m')
    /\ self' = {| manager := m'; faq := faq self;
                  recipes := map recipe_metadata docs; tips := tips self |}.
Proof.
  unfold add_recipe_data, mbind, inherited, set_recipes.
  destruct (VectorDB.add_documents e (map recipe_metadata docs) (manager self))
    as [[[]|ex] m'] eqn:Ha; simpl; [|discriminate].
  intros [= <-]. eauto.
Qed.

Lemma add_faq_data_inv (self self' : HybridVectorDB) faq_data e :
  add_faq_data faq_data e self = (Ok tt, self') ->
  exists ms m',
    faq_metadata_list faq_data = Ok ms
    /\ VectorDB.add_documents e ms (manager self) = (Ok tt, m')
    /\ self' = {| manager := m'; faq := ms; recipes := recipes self; tips := tips self |}.
Proof.
  unfold add_faq_data, mbind, mlift, inherited, set_faq.
  destruct (faq_metadata_list faq_data) as [ms|ex]; [|discriminate].
  destruct (VectorDB.add_documents e ms (manager self)) as [[[]|ex] m'] eqn:Ha;
    simpl; [|discriminate].
  intros [= <-]. eauto.
Qed.

Lemma add_documents_metadata {Meta : Type} (m m' : VectorDB.VectorDBManager Meta) e md :
  VectorDB.add_documents e md m = (Ok tt, m') ->
  VectorDB.metadata m' = VectorDB.metadata m ++ md.
Proof.
  intros Ha. apply add_documents_inv in Ha as (_ & i0 & i' & t' & _ & -> & _).
  reflexivity.
Qed.

Lemma is_recipe_with_id_own (doc : recipe_doc) (id : string) :
  is_recipe_with_id id (recipe_metadata doc) = bool_decide (default "" (d_id doc) = id).
Proof.
  unfold is_recipe_with_id, recipe_metadata. cbn [type_of recipe_id_of].
  change (String.eqb "recipe" "recipe") with true. cbn [andb].
  apply bool_decide_ext. split; [intros [= ->]; reflexivity | intros ->; reflexivity].
Qed.

Section TypedSearch.
Context `{Faiss.Scan}.

(** X10: [search_by_type] returns at most [k] entries (none for a negative
    [k]); each has the requested type, a score of at least 0.5 -- the
    default threshold of the inner search -- and the metadata stored at its
    index. *)
Theorem search_by_type_sound (self : HybridVectorDB) q ty k rs :
  search_by_type self q ty k = Ok rs ->
  (length rs <= Z.to_nat k)%nat
  /\ Forall (fun r => type_of (VectorDB.r_metadata r) = ty
                      /\ 1 / 2 <= VectorDB.similarity_score r
                      /\ getitem (VectorDB.metadata (manager self)) (VectorDB.r_index r)
                         = Ok (VectorDB.r_metadata r)) rs.
Proof.
  unfold search_by_type. intros Hs.
  apply bind_ok in Hs as (all & Hall & Hrs). apply Ok_inj in Hrs. subst rs.
  split.
  - destruct (Z.ltb_spec k 0) as [Hneg | Hpos].
    + pose proof (search_at_most_k _ _ _ _ _ Hall) as Hlen.
      assert (all = []) as -> by (destruct all; [reflexivity | simpl in Hlen; lia]).
      simpl. unfold slice_to. destruct (k <? 0)%Z; rewrite take_nil; simpl; lia.
    + unfold slice_to. rewrite (proj2 (Z.ltb_ge k 0)) by lia.
      rewrite length_take. lia.
  - pose proof (search_above_threshold _ _ _ _ _ Hall) as Hthr.
    pose proof (search_metadata _ _ _ _ _ Hall) as Hmeta.
    rewrite Forall_forall in Hthr, Hmeta. apply Forall_forall. intros r Hr.
    pose proof (elem_of_sublist _ _ _ Hr (slice_to_sublist _ _)) as Hr'.
    clear Hr. apply list_elem_of_In, filter_In in Hr' as [Hin Hty].
    apply list_elem_of_In in Hin. apply String.eqb_eq in Hty.
    auto.
Qed.

(** X15: on a fresh hybrid store, loading a batch of FAQ items and then a
    batch of at most as many recipes, both under 100 vectors, leaves the
    recipes beyond reach: the second load starts the index afresh, so every
    label the index returns points at a FAQ entry of the metadata table, and
    a search for type ['recipe'] returns the empty list for every query. *)
Theorem recipes_unfindable_after_small_loads (dim : nat) faq_data e1 docs e2
    (s1 s2 : HybridVectorDB) q k :
  add_faq_data faq_data e1 (__init__ dim) = (Ok tt, s1) ->
  add_recipe_data docs e2 s1 = (Ok tt, s2) ->
  (Faiss.nrows e1 < 100)%nat -> (Faiss.nrows e2 < 100)%nat ->
  (Faiss.nrows e2 <= length faq_data)%nat ->
  length q = dim -> (0 < k)%Z ->
  search_by_type s2 q "recipe" k = Ok [].
Proof.
  intros H1 H2 Hn1 Hn2 Hle Hq Hk.
  apply add_faq_data_inv in H1 as (ms & m1 & Hms & Ha1 & ->).
  pose proof (add_documents_inv _ _ _ _ Ha1) as (Hd1 & _).
  rewrite (add_documents_fallback (manager (__init__ dim)) e1 ms eq_refl eq_refl Hd1 Hn1)
    in Ha1.
  injection Ha1 as <-.
  apply add_recipe_data_inv in H2 as (m2 & Ha2 & ->).
  pose proof (add_documents_inv _ _ _ _ Ha2) as (Hd2 & _).
  cbn [manager] in Ha2, Hd2.
  match type of Ha2 with
  | VectorDB.add_documents _ ?md ?m = _ =>
      rewrite (add_documents_fallback m e2 md eq_refl eq_refl Hd2 Hn2) in Ha2
  end.
  injection Ha2 as <-.
  apply faq_metadata_list_Ok in Hms as (Hlen & Hfaq).
  unfold search_by_type. cbn [manager].
  match goal with
  | |- context [VectorDB.search ?m _ _ _] => set (m2 := m)
  end.
  set (i2 := {| Faiss.cls := Faiss.IndexFlat; Faiss.d := dim;
                Faiss.metric_type := Faiss.METRIC_INNER_PRODUCT;
                Faiss.is_trained := true;
                Faiss.xb := Faiss.rows (Faiss.normalize_L2 e2) |}).
  assert (Hi2 : VectorDB.index m2 = Some i2) by reflexivity.
  assert (Hnt : Faiss.ntotal i2 = Faiss.nrows e2).
  { unfold Faiss.ntotal, i2. simpl. apply length_map. }
  assert (Hmd : VectorDB.metadata m2 = ms ++ map recipe_metadata docs) by reflexivity.
  destruct (search_returns m2 i2 q (k * 3) (1 / 2) Hi2) as (all & Hall).
  { exact Hq. }
  { lia. }
  { rewrite Hnt, Hmd, length_app. lia. }
  rewrite Hall. cbn [bind]. f_equal.
  rewrite filter_none; [unfold slice_to; destruct (k <? 0)%Z; apply take_nil|].
  pose proof (search_entries_in_range m2 i2 _ _ _ _ Hi2 Hall) as Hrange.
  pose proof (search_metadata m2 _ _ _ _ Hall) as Hmeta.
  rewrite Forall_forall in Hrange, Hmeta. apply Forall_forall. intros r Hr.
  specialize (Hrange r Hr). specialize (Hmeta r Hr).
  apply getitem_Ok_lookup in Hmeta; [|lia].
  rewrite Hmd in Hmeta.
  rewrite lookup_app_l in Hmeta by lia.
  apply list_elem_of_lookup_2 in Hmeta.
  rewrite Forall_forall in Hfaq. rewrite (Hfaq _ Hmeta). reflexivity.
Qed.

End TypedSearch.

(** X11: an id the store already resolves keeps resolving to the same
    item: loading a recipe again under that id, whatever its new content,
    does not change what [get_recipe_by_id] returns. *)
Theorem add_recipe_data_keeps_first (self self' : HybridVectorDB) docs e id m :
  add_recipe_data docs e self = (Ok tt, self') ->
  get_recipe_by_id self id = Some m ->
  get_recipe_by_id self' id = Some m.
Proof.
  intros Ha Hg. apply add_recipe_data_inv in Ha as (m' & Ha & ->).
  unfold get_recipe_by_id in *. cbn [manager].
  rewrite (add_documents_metadata _ _ _ _ Ha). apply find_app_Some, Hg.
Qed.

(** X12: a recipe loaded under an id the store does not resolve yet is
    found under that id afterwards, as the metadata built from the first
    document of the batch with that id; a document without ['_id'] is filed
    under the empty id. *)
Theorem add_recipe_data_then_get (self self' : HybridVectorDB) e pre doc post :
  add_recipe_data (pre ++ doc :: post) e self = (Ok tt, self') ->
  get_recipe_by_id self (default "" (d_id doc)) = None ->
  Forall (fun d' => default "" (d_id d') <> default "" (d_id doc)) pre ->
  get_recipe_by_id self' (default "" (d_id doc)) = Some (recipe_metadata doc).
Proof.
  intros Ha Hg Hpre. apply add_recipe_data_inv in Ha as (m' & Ha & ->).
  unfold get_recipe_by_id in *. cbn [manager].
  rewrite (add_documents_metadata _ _ _ _ Ha).
  rewrite (find_app_None _ _ _ Hg), map_app. cbn [map].
  apply find_first.
  - apply Forall_forall. intros x Hx.
    apply list_elem_of_fmap in Hx as (d' & -> & Hd').
    rewrite Forall_forall in Hpre.
    rewrite is_recipe_with_id_own. apply bool_decide_eq_false, Hpre, Hd'.
  - rewrite is_recipe_with_id_own. apply bool_decide_eq_true. reflexivity.
Qed.

(** X13: a FAQ batch with an item that lacks ['question'] or ['answer']
    raises [KeyError] before anything is stored: the index, the metadata
    table and the data sources are as before the call. *)
Theorem add_faq_data_missing_key (self : HybridVectorDB) faq_data e :
  Exists (fun item => f_question item = None \/ f_answer item = None) faq_data ->
  add_faq_data faq_data e self = (Raise KeyError, self).
Proof.
  intros He. unfold add_faq_data, mbind, mlift.
  rewrite (faq_metadata_list_missing _ He). reflexivity.
Qed.

(** X14: the data-source list holds the last batch only, while the metadata
    table accumulates: after two recipe loads ['recipes'] is the metadata
    of the second batch, the table is the old table followed by both
    batches, and the other sources are untouched. *)
Theorem data_sources_hold_last_batch (s s1 s2 : HybridVectorDB) d1 e1 d2 e2 :
  add_recipe_data d1 e1 s = (Ok tt, s1) ->
  add_recipe_data d2 e2 s1 = (Ok tt, s2) ->
  recipes s2 = map recipe_metadata d2
  /\ VectorDB.metadata (manager s2) =
       VectorDB.metadata (manager s) ++ map recipe_metadata d1 ++ map recipe_metadata d2
  /\ faq s2 = faq s /\ tips s2 = tips s.
Proof.
  intros H1 H2.
  apply add_recipe_data_inv in H1 as (m1 & Ha1 & ->).
  apply add_recipe_data_inv in H2 as (m2 & Ha2 & ->).
  cbn [manager recipes faq tips] in *.
  rewrite (add_documents_metadata _ _ _ _ Ha2), (add_documents_metadata _ _ _ _ Ha1).
  rewrite <- app_assoc. auto.
Qed.

Import Examples MoreExamples.

Lemma hybrid_recipe_typed_search :
  @search_by_type Faiss.exhaustive hybrid_recipe e1 "recipe" 1 = Ok [hybrid_recipe_hit].
Proof.
  unfold search_by_type.
  assert (Hm : manager hybrid_recipe =
     {| VectorDB.dimension := 2; VectorDB.index_type := "IVF";
        VectorDB.index := Some {| Faiss.cls := Faiss.IndexFlat; Faiss.d := 2;
          Faiss.metric_type := Faiss.METRIC_INNER_PRODUCT; Faiss.is_trained := true;
          Faiss.xb := [e1] |};
        VectorDB.metadata := [recipe_metadata doc_pho]; VectorDB.is_trained := false |}).
  { change (manager hybrid_recipe) with
     {| VectorDB.dimension := 2; VectorDB.index_type := "IVF";
        VectorDB.index := Some {| Faiss.cls := Faiss.IndexFlat; Faiss.d := 2;
          Faiss.metric_type := Faiss.METRIC_INNER_PRODUCT; Faiss.is_trained := true;
          Faiss.xb := [Faiss.renorm e1] |};
        VectorDB.metadata := [recipe_metadata doc_pho]; VectorDB.is_trained := false |}.
    rewrite e1_unit. reflexivity. }
  rewrite Hm. unfold VectorDB.search. cbn [VectorDB.index VectorDB.metadata].
  change (Faiss.ntotal _ =? 0)%nat with false. cbv iota.
  rewrite e1_unit.
  unfold Faiss.search. simpl negb. cbv iota.
  change (1 * 3 <=? 0)%Z with false. cbv iota.
  unfold Faiss.candidates. simpl Faiss.cls. cbv iota.
  unfold Faiss.hit. simpl omap.
  unfold Faiss.distance. simpl Faiss.metric_type. cbv iota.
  replace (Faiss.dot e1 e1) with 1 by (unfold Faiss.dot, e1; simpl; lra).
  unfold Faiss.ranked. simpl Faiss.metric_type. cbv iota.
  unfold sorted_desc, sort_by. simpl foldr.
  change (Z.to_nat (1 * 3)) with 3%nat. simpl take. simpl length. simpl replicate.
  cbn [app bind].
  unfold VectorDB.collect, VectorDB.keeps. cbn [fst snd].
  unfold Faiss.padding. cbn [Faiss.metric_type].
  change (Z.of_nat 0) with 0%Z.
  change (0 =? -1)%Z with false. change (-1 =? -1)%Z with true. cbn [negb andb].
  rewrite getitem_first. cbn [bind].
  fcompare. reflexivity.
Qed.

Lemma search_by_type_sound_witness :
  (length [hybrid_recipe_hit] <= Z.to_nat 1)%nat
  /\ Forall (fun r => type_of (VectorDB.r_metadata r) = "recipe"
                      /\ 1 / 2 <= VectorDB.similarity_score r
                      /\ getitem (VectorDB.metadata (manager hybrid_recipe)) (VectorDB.r_index r)
                         = Ok (VectorDB.r_metadata r)) [hybrid_recipe_hit].
Proof.
  apply (search_by_type_sound (H := Faiss.exhaustive) hybrid_recipe e1 "recipe" 1
           [hybrid_recipe_hit]).
  exact hybrid_recipe_typed_search.
Defined.

Lemma recipes_unfindable_witness :
  @search_by_type Faiss.exhaustive hybrid_faq_recipe e2 "recipe" 1 = Ok [].
Proof.
  apply (recipes_unfindable_after_small_loads (H := Faiss.exhaustive)
           2 [faq1] (batch [e1]) [doc_pho] (batch [e2]) hybrid_faq hybrid_faq_recipe e2 1).
  - reflexivity.
  - reflexivity.
  - unfold Faiss.nrows. simpl. lia.
  - unfold Faiss.nrows. simpl. lia.
  - unfold Faiss.nrows. simpl. lia.
  - reflexivity.
  - lia.
Defined.

Lemma add_recipe_data_keeps_first_witness :
  get_recipe_by_id hybrid_revised "r1" = Some (recipe_metadata doc_pho).
Proof.
  apply (add_recipe_data_keeps_first hybrid_recipe hybrid_revised
           [doc_pho_revised] (batch [e2]) "r1" (recipe_metadata doc_pho)).
  - reflexivity.
  - reflexivity.
Defined.

Lemma add_recipe_data_then_get_witness :
  get_recipe_by_id hybrid_recipe (default "" (d_id doc_pho)) = Some (recipe_metadata doc_pho).
Proof.
  apply (add_recipe_data_then_get hybrid0 hybrid_recipe (batch [e1]) [] doc_pho []).
  - reflexivity.
  - reflexivity.
  - constructor.
Defined.

Lemma add_faq_data_missing_key_witness :
  add_faq_data [faq1; faq_without_answer] (batch [e1; e2]) hybrid0 = (Raise KeyError, hybrid0).
Proof.
  apply (add_faq_data_missing_key hybrid0 [faq1; faq_without_answer] (batch [e1; e2])).
  apply Exists_cons_tl, Exists_cons_hd. right. reflexivity.
Defined.

Lemma data_sources_hold_last_batch_witness :
  recipes hybrid_revised = map recipe_metadata [doc_pho_revised]
  /\ VectorDB.metadata (manager hybrid_revised) =
       VectorDB.metadata (manager hybrid0)
       ++ map recipe_metadata [doc_pho] ++ map recipe_metadata [doc_pho_revised]
  /\ faq hybrid_revised = faq hybrid0 /\ tips hybrid_revised = tips hybrid0.
Proof.
  apply (data_sources_hold_last_batch hybrid0 hybrid_recipe hybrid_revised
           [doc_pho] (batch [e1]) [doc_pho_revised] (batch [e2])).
  - reflexivity.
  - reflexivity.
Defined.

End HybridFacts.

(** ** Properties of save and load *)
Module PersistenceFacts.
Import Py Persistence.

Section FileFacts.
Context {Meta : Type}.
Abbreviation manager := (VectorDB.VectorDBManager Meta).

(** X16: what [save] writes, [load] reads back.  After a successful save to
    two distinct paths, loading from these paths into any manager returns
    [True] and makes that manager equal to the saved one: index, metadata
    table, dimension, index type and training flag. *)
Theorem load_after_save (self other : manager) (index_path metadata_path : string)
    (fs fs' : filesystem) :
  save self index_path metadata_path fs = (Done unit tt, fs') ->
  index_path <> metadata_path ->
  load other index_path metadata_path fs' = (Done bool true, self).
Proof.
  unfold save. destruct (VectorDB.index self) as [i|] eqn:Hi; [|discriminate].
  intros [= <-] Hne. unfold load, filesystem in *.
  rewrite lookup_insert_ne by congruence.
  rewrite !lookup_insert_eq. simpl.
  destruct self. simpl in *. subst. reflexivity.
Qed.

(** X17: [load] returns [False] exactly when one of the two files is
    missing, and then the manager is left as it was. *)
Theorem load_missing_file (self self' : manager) (index_path metadata_path : string)
    (fs : filesystem) :
  load self index_path metadata_path fs = (Done bool false, self')
  <-> (fs !! index_path = None \/ fs !! metadata_path = None) /\ self' = self.
Proof.
  unfold load. split.
  - destruct (fs !! index_path) as [[i|pk]|]; destruct (fs !! metadata_path) as [[j|pk']|];
      intros [= <-]; auto.
  - intros [[Hi | Hm] ->].
    + rewrite Hi. reflexivity.
    + rewrite Hm. destruct (fs !! index_path) as [[i|pk]|]; reflexivity.
Qed.

End FileFacts.

Import Examples MoreExamples.

Lemma load_after_save_witness :
  load flat0 index_path metadata_path saved_files = (Done bool true, flat1).
Proof.
  apply (load_after_save flat1 flat0 index_path metadata_path ∅ saved_files).
  - reflexivity.
  - discriminate.
Defined.

Lemma load_missing_file_witness :
  load flat0 index_path metadata_path ∅ = (Done bool false, flat0).
Proof.
  apply (load_missing_file flat0 flat0 index_path metadata_path ∅).
  split; [left; reflexivity | reflexivity].
Defined.

End PersistenceFacts.

(** ** Further properties of the multi-strategy search *)
Module RetrievalMore.
Import Py PyFacts Retrieval RetrievalFacts.
Local Open Scope R_scope.

Section MoreMergeFacts.
Context `{Countable Id}.
Variable lower : string -> string.
Abbreviation found := (@Retrieval.found Id).
Abbreviation recipe := (@Retrieval.recipe Id).

(** The set [seen_ids] holds the ids of the entries processed so far. *)
Lemma dedup_seen (l : list found) (i : option Id) :
  i ∈ (fold_left dedup_step l (∅, [])).1 <-> i ∈ map get_id l.
Proof.
  revert i. induction l as [|a l IH] using rev_ind; intros i.
  - simpl. rewrite elem_of_nil. set_solver.
  - rewrite fold_left_app. simpl. unfold dedup_step at 1.
    rewrite map_app, elem_of_app. simpl. rewrite list_elem_of_singleton.
    destruct (decide _) as [Hin | Hnin].
    + rewrite IH. split; [auto|]. intros [Hi | ->]; [exact Hi | apply IH, Hin].
    + simpl. rewrite elem_of_union, elem_of_singleton, IH. tauto.
Qed.

Lemma unique_results_snoc (l : list found) (a : found) :
  unique_results (l ++ [a]) =
  if decide (get_id a ∈ map get_id l) then unique_results l
  else unique_results l ++ [a].
Proof.
  unfold unique_results. rewrite fold_left_app. simpl. unfold dedup_step at 1.
  destruct (decide (get_id a ∈ (fold_left dedup_step l (∅, [])).1)) as [Hin | Hnin];
    destruct (decide (get_id a ∈ map get_id l)) as [Hin' | Hnin']; try reflexivity;
    exfalso.
  - apply Hnin', dedup_seen, Hin.
  - apply Hnin, dedup_seen, Hin'.
Qed.

Lemma unique_results_incl (l : list found) (y : found) :
  y ∈ unique_results l -> y ∈ l.
Proof.
  induction l as [|a l IH] using rev_ind.
  - unfold unique_results. simpl. auto.
  - rewrite unique_results_snoc, elem_of_app.
    destruct (decide _); [auto|].
    rewrite elem_of_app. intros [Hy | Hy]; auto.
Qed.

Lemma unique_results_ids (l : list found) (x : found) :
  x ∈ l -> get_id x ∈ map get_id (unique_results l).
Proof.
  revert x. induction l as [|a l IH] using rev_ind; intros x.
  - intros Hx. apply elem_of_nil in Hx. contradiction.
  - rewrite unique_results_snoc, elem_of_app, list_elem_of_singleton.
    destruct (decide (get_id a ∈ map get_id l)) as [Hin | Hnin].
    + intros [Hx | ->]; [auto|].
      apply list_elem_of_fmap in Hin as (y & -> & Hy). auto.
    + rewrite map_app, elem_of_app. simpl. rewrite list_elem_of_singleton.
      intros [Hx | ->]; auto.
Qed.

Lemma unique_results_NoDup (l : list found) : NoDup (map get_id (unique_results l)).
Proof.
  induction l as [|a l IH] using rev_ind.
  - unfold unique_results. simpl. constructor.
  - rewrite unique_results_snoc.
    destruct (decide (get_id a ∈ map get_id l)) as [Hin | Hnin]; [exact IH|].
    rewrite map_app. apply NoDup_app. split; [exact IH|]. split.
    + intros i Hi Hi'. simpl in Hi'. apply list_elem_of_singleton in Hi'. subst i.
      apply Hnin. apply list_elem_of_fmap in Hi as (y & -> & Hy).
      apply list_elem_of_fmap. exists y. split; [reflexivity|].
      apply unique_results_incl, Hy.
    + simpl. apply NoDup_singleton.
Qed.

(** The entries of the three lexical strategies. *)
Lemma lexical_entry (query : string) (recipes : list recipe) (f : found) :
  f ∈ _exact_match_search lower query recipes
        ++ _ingredient_based_search lower query recipes
        ++ _category_filter_search lower query recipes ->
  similarity_score f = None
  /\ match_type f ∈ ["exact_name"; "ingredient"; "category"]
  /\ source f ∈ recipes.
Proof.
  rewrite !elem_of_app.
  unfold _exact_match_search, _ingredient_based_search, _category_filter_search.
  intros [Hf | [Hf | Hf]].
  - apply list_elem_of_fmap in Hf as (r & -> & Hr).
    apply list_elem_of_In, filter_In in Hr as [Hr _]. apply list_elem_of_In in Hr.
    simpl. repeat split; [set_solver | exact Hr].
  - apply list_elem_of_fmap in Hf as (r & -> & Hr).
    apply list_elem_of_In, filter_In in Hr as [Hr _]. apply list_elem_of_In in Hr.
    simpl. repeat split; [set_solver | exact Hr].
  - destruct (target_category (lower query)) as [t|]; [|apply elem_of_nil in Hf; contradiction].
    apply list_elem_of_fmap in Hf as (r & -> & Hr).
    apply list_elem_of_In, filter_In in Hr as [Hr _]. apply list_elem_of_In in Hr.
    simpl. repeat split; [set_solver | exact Hr].
Qed.

(** X18: no two entries of the result share a document id; in particular
    at most one entry comes from a recipe without ['_id']. *)
Theorem multi_strategy_search_distinct_ids (query : string) (recipes : list recipe)
    embeddings model (res : list found) :
  multi_strategy_search lower query recipes embeddings model = Ok res ->
  NoDup (map get_id res).
Proof.
  unfold multi_strategy_search. intros Hm.
  apply bind_ok in Hm as (semantic & _ & Hres). apply Ok_inj in Hres. subst res.
  change (map get_id ?l) with (get_id <$> l). rewrite fmap_take.
  eapply sublist_NoDup; [apply unique_results_NoDup | apply sublist_take].
Qed.

(** X19: unless the cut at 10 entries applies, no match is lost: when the
    result has fewer than 10 entries, every recipe whose name or ingredients
    contain the query, or whose category the query names, has its id among
    the entries. *)
Theorem multi_strategy_search_covers (query : string) (recipes : list recipe)
    embeddings model (res : list found) (r : recipe) :
  multi_strategy_search lower query recipes embeddings model = Ok res ->
  (length res < 10)%nat ->
  r ∈ recipes ->
  name_matches lower (lower query) r = true
  \/ ingredients_match lower (lower query) r = true
  \/ (exists t, target_category (lower query) = Some t /\ category r = Some t) ->
  exists f, f ∈ res /\ get_id f = _id r.
Proof.
  unfold multi_strategy_search. intros Hm Hlen Hr Hmatch.
  apply bind_ok in Hm as (semantic & _ & Hres). apply Ok_inj in Hres. subst res.
  set (all := _exact_match_search lower query recipes
              ++ _ingredient_based_search lower query recipes
              ++ _category_filter_search lower query recipes ++ semantic) in *.
  assert (Hall : exists x, x ∈ all /\ get_id x = _id r).
  { unfold all. apply list_elem_of_In in Hr.
    destruct Hmatch as [Hn | [Hi | (t & Ht & Hc)]].
    - exists (tagged "exact_name" r). split; [|reflexivity].
      apply elem_of_app. left. unfold _exact_match_search.
      apply list_elem_of_fmap. exists r. split; [reflexivity|].
      apply list_elem_of_In, filter_In. auto.
    - exists (tagged "ingredient" r). split; [|reflexivity].
      apply elem_of_app. right. apply elem_of_app. left.
      unfold _ingredient_based_search.
      apply list_elem_of_fmap. exists r. split; [reflexivity|].
      apply list_elem_of_In, filter_In. auto.
    - exists (tagged "category" r). split; [|reflexivity].
      apply elem_of_app. right. apply elem_of_app. right. apply elem_of_app. left.
      unfold _category_filter_search. rewrite Ht.
      apply list_elem_of_fmap. exists r. split; [reflexivity|].
      apply list_elem_of_In, filter_In. split; [exact Hr|].
      apply bool_decide_eq_true. exact Hc. }
  destruct Hall as (x & Hx & Hid).
  assert (Hfull : take 10 (unique_results all) = unique_results all).
  { apply take_ge. rewrite length_take in Hlen. lia. }
  rewrite Hfull.
  apply unique_results_ids in Hx.
  apply list_elem_of_fmap in Hx as (f & Hf & Hin).
  exists f. split; [exact Hin | congruence].
Qed.

(** X20: called without embeddings -- as the chat pipeline calls it -- or
    without a model, the search never raises, and every entry comes from one
    of the three lexical strategies: it is one of the given recipes, tagged
    ['exact_name'], ['ingredient'] or ['category'], and carries no
    ['similarity_score']. *)
Theorem multi_strategy_search_lexical_only (query : string) (recipes : list recipe)
    embeddings model :
  embeddings = None \/ model = None ->
  exists res,
    multi_strategy_search lower query recipes embeddings model = Ok res
    /\ Forall (fun f => similarity_score f = None
                        /\ match_type f ∈ ["exact_name"; "ingredient"; "category"]
                        /\ source f ∈ recipes) res.
Proof.
  intros Hnone. unfold multi_strategy_search.
  assert (Hs : semantic_results query recipes embeddings model = Ok []).
  { unfold semantic_results. destruct Hnone as [-> | ->]; [reflexivity|].
    destruct embeddings; reflexivity. }
  rewrite Hs. cbn [bind]. eexists. split; [reflexivity|].
  apply Forall_forall. intros f Hf.
  apply elem_of_take in Hf as (i & Hf & _). apply list_elem_of_lookup_2 in Hf.
  apply unique_results_incl in Hf.
  rewrite app_nil_r in Hf. eapply lexical_entry, Hf.
Qed.

(** X21: whenever [_semantic_search] returns, its scores never increase
    along the list, and every entry is one of the given recipes, tagged
    ['semantic'], with a score at or above the threshold; when the number of
    recipes differs from the number of embedding rows the list is empty. *)
Theorem semantic_search_sound (query : string) (recipes : list recipe)
    (embeddings : Faiss.ndarray) (model : string -> Faiss.vec) (threshold : R)
    (res : list found) :
  _semantic_search query recipes embeddings model threshold = Ok res ->
  descending score_of res
  /\ Forall (fun f => match_type f = "semantic" /\ source f ∈ recipes
                      /\ exists s, similarity_score f = Some s /\ threshold <= s) res
  /\ (length recipes <> Faiss.nrows embeddings -> res = []).
Proof.
  unfold _semantic_search.
  destruct (Nat.eqb_spec (length recipes) (Faiss.nrows embeddings)) as [Hlen | Hlen]; simpl.
  2:{ intros [= <-]. repeat split; constructor. }
  destruct (negb _); [discriminate|].
  intros Hres. apply Ok_inj in Hres. subst res.
  split; [apply sorted_desc_descending|]. split; [|contradiction].
  apply Forall_forall. intros f Hf.
  unfold sorted_desc in Hf. rewrite sort_by_perm in Hf.
  apply list_elem_of_omap in Hf as ([r s] & Hrs & Hsome).
  simpl in Hsome. destruct (fge s threshold) eqn:Hge; [|discriminate].
  injection Hsome as <-. simpl.
  split; [reflexivity|]. split.
  - apply elem_of_zip_l in Hrs. exact Hrs.
  - exists s. split; [reflexivity | apply fge_true, Hge].
Qed.

End MoreMergeFacts.

Import Examples.

Lemma multi_strategy_search_distinct_ids_witness :
  NoDup (map get_id [tagged "exact_name" pho]).
Proof.
  apply (multi_strategy_search_distinct_ids already_lower "pho" [pho; che] None None).
  exact multi_strategy_search_pho.
Defined.

Lemma multi_strategy_search_covers_witness :
  exists f, f ∈ [tagged "exact_name" pho] /\ get_id f = _id pho.
Proof.
  apply (multi_strategy_search_covers already_lower "pho" [pho; che] None None
           [tagged "exact_name" pho] pho).
  - exact multi_strategy_search_pho.
  - simpl. lia.
  - apply list_elem_of_here.
  - left. vm_compute. reflexivity.
Defined.

Lemma multi_strategy_search_lexical_only_witness :
  exists res,
    multi_strategy_search already_lower "pho" [pho; che] None
      (Some (fun _ : string => e1)) = Ok res
    /\ Forall (fun f => similarity_score f = None
                        /\ match_type f ∈ ["exact_name"; "ingredient"; "category"]
                        /\ source f ∈ [pho; che]) res.
Proof.
  apply (multi_strategy_search_lexical_only already_lower "pho" [pho; che] None
           (Some (fun _ : string => e1))).
  left. reflexivity.
Defined.

Lemma semantic_search_sound_witness :
  descending score_of
    [ {| source := pho; match_type := "semantic"; similarity_score := Some 1%R |} ]
  /\ Forall (fun f => match_type f = "semantic" /\ source f ∈ [pho; che]
                      /\ exists s, similarity_score f = Some s /\ 7 / 10 <= s)
       [ {| source := pho; match_type := "semantic"; similarity_score := Some 1%R |} ]
  /\ (length [pho; che] <> Faiss.nrows (batch [e1; e2]) ->
      [ {| source := pho; match_type := "semantic"; similarity_score := Some 1%R |} ] = []).
Proof.
  apply (semantic_search_sound "pho" [pho; che] (batch [e1; e2]) (fun _ => e1) (7 / 10)).
  exact semantic_search_pho.
Defined.

End RetrievalMore.

(** ** Further properties of the confidence scorer *)
Module ScorerMore.
Import Py PyFacts Scorer ScorerFacts.
Local Open Scope R_scope.
Local Arguments Nat.leb : simpl never.
Local Arguments Nat.ltb : simpl never.

Ltac fge_hyps :=
  repeat match goal with
         | H : fge _ _ = true |- _ => apply fge_true in H
         | H : fge _ _ = false |- _ => apply fge_false in H
         end.

(** X24: the level never drops when the score grows. *)
Theorem confidence_level_monotone (s1 s2 : R) :
  s1 <= s2 ->
  (Levels.rank (_get_confidence_level s1) <= Levels.rank (_get_confidence_level s2))%nat.
Proof.
  intros Hle. unfold _get_confidence_level.
  destruct (fge s1 (9 / 10)) eqn:H1; destruct (fge s1 (7 / 10)) eqn:H2;
    destruct (fge s1 (5 / 10)) eqn:H3; destruct (fge s1 (3 / 10)) eqn:H4;
    destruct (fge s2 (9 / 10)) eqn:H5; destruct (fge s2 (7 / 10)) eqn:H6;
    destruct (fge s2 (5 / 10)) eqn:H7; destruct (fge s2 (3 / 10)) eqn:H8;
    simpl; try lia; exfalso; fge_hyps; lra.
Qed.

Lemma exp_le_1 (x : R) : x <= 0 -> exp x <= 1.
Proof.
  intros [Hlt | ->].
  - left. rewrite <- exp_0. apply exp_increasing, Hlt.
  - rewrite exp_0. lra.
Qed.

(** A weighted sum with positive weights is at least the smallest score
    times the sum of the weights. *)
Lemma weighted_lower (a : R) (ss ws : list R) :
  Forall (fun s => a <= s) ss -> Forall (fun w => 0 < w) ws ->
  length ss = length ws ->
  a * fsum ws <= fsum (zip_with Rmult ss ws).
Proof.
  intros Hs. revert ws. induction Hs as [|s ss Ha _ IH]; intros ws Hw Hlen.
  - destruct ws; [simpl; lra | discriminate].
  - destruct ws as [|w ws]; [discriminate|].
    inversion Hw as [|? ? Hw0 Hws]; subst. injection Hlen as Hlen.
    specialize (IH ws Hws Hlen). simpl. nra.
Qed.

Lemma weighted_avg_lower (a s : R) (rest : list R) :
  Forall (fun x => a <= x) (s :: rest) -> a <= weighted_avg (s :: rest).
Proof.
  intros Hall. rewrite weighted_avg_decay.
  pose proof (decay_weights_sum_pos (length rest)) as Hpos.
  change (S (length rest)) with (length (s :: rest)) in Hpos.
  pose proof (weighted_lower a (s :: rest) (decay_weights (length (s :: rest))) Hall
                (decay_weights_pos _)) as Hnum.
  assert (Hlen : length (s :: rest) = length (decay_weights (length (s :: rest)))).
  { unfold decay_weights. rewrite length_map, length_seq. reflexivity. }
  specialize (Hnum Hlen).
  set (num := fsum (zip_with Rmult (s :: rest) (decay_weights (length (s :: rest))))) in *.
  set (den := fsum (decay_weights (length (s :: rest)))) in *.
  apply (Rmult_le_reg_r den); [exact Hpos|].
  unfold Rdiv. rewrite Rmult_assoc, Rinv_l by lra. lra.
Qed.

(** X25: the semantic factor saturates.  When every score is at least 0.5
    -- which the default threshold of the vector search guarantees for the
    entries it returns -- the factor is exactly 1, whatever the scores. *)
Theorem semantic_similarity_saturates (s : R) (rest : list R) :
  Forall (fun x => 1 / 2 <= x) (s :: rest) ->
  _calculate_semantic_similarity (s :: rest) = 1.
Proof.
  intros Hall. pose proof (weighted_avg_lower (1 / 2) s rest Hall) as Hw.
  unfold _calculate_semantic_similarity.
  match goal with
  | |- context [exp ?x] =>
      pose proof (exp_pos x) as Hpos;
      assert (Hexp : exp x <= 1) by (apply exp_le_1; lra);
      set (e := exp x) in *
  end.
  apply Rmin_right.
  apply (Rmult_le_reg_r (1 + e)); [lra|].
  unfold Rdiv. rewrite Rmult_assoc, Rinv_l by lra. lra.
Qed.

Section MoreFactorFacts.
Variable lower : string -> string.
Variable strip : string -> string.
Variable words : string -> list string.
Variable fmt2 : R -> string.

Lemma calculate_confidence_inv (current_time : Z) (query : string) (docs : list doc)
    (similarity_scores : list R) (ans : string) (cs : ConfidenceScore) :
  calculate_confidence lower strip words fmt2 current_time query docs similarity_scores ans
  = Ok cs ->
  factors cs = compute_factors lower strip words current_time query docs similarity_scores ans
  /\ weighted_sum (factors cs) = Ok (overall_score cs)
  /\ level cs = _get_confidence_level (overall_score cs)
  /\ _generate_explanation fmt2 (factors cs) (overall_score cs) = Ok (explanation cs)
  /\ _generate_recommendations (factors cs) (level cs) = Ok (recommendations cs).
Proof.
  unfold calculate_confidence. cbv zeta. intros Hc.
  apply bind_ok in Hc as (overall & Ho & Hc).
  apply bind_ok in Hc as (text & Ht & Hc).
  apply bind_ok in Hc as (recs & Hr & Hc).
  apply Ok_inj in Hc. subst cs.
  cbn [factors overall_score level explanation recommendations]. auto.
Qed.

Lemma query_clarity_floor (query : string) :
  2 / 10 <= _calculate_query_clarity lower strip query.
Proof.
  unfold _calculate_query_clarity. cbv zeta.
  destruct (len (strip (lower query)) <? 5)%nat; [lra|].
  apply Rmin_glb; [|lra]. split_ifs; lra.
Qed.

Lemma answer_completeness_floor (query ans : string) :
  1 / 10 <= _calculate_answer_completeness lower query ans.
Proof.
  unfold _calculate_answer_completeness. cbv zeta.
  destruct (len ans <? 10)%nat; [lra|].
  apply Rmin_glb; [|lra]. split_ifs; lra.
Qed.

(** X22: [calculate_confidence] never raises, whatever the query, the
    documents, the scores and the answer.  Its result carries the seven
    factors under their names, in the order of computation, a level that is
    the classification of its overall score, and an overall score that is
    not negative. *)
Theorem calculate_confidence_total (current_time : Z) (query : string) (docs : list doc)
    (similarity_scores : list R) (ans : string) :
  exists cs,
    calculate_confidence lower strip words fmt2 current_time query docs similarity_scores ans
    = Ok cs
    /\ map fst (factors cs) =
         [ "semantic_similarity"; "keyword_match"; "context_relevance"; "data_freshness";
           "source_reliability"; "query_clarity"; "answer_completeness" ]
    /\ level cs = _get_confidence_level (overall_score cs)
    /\ 0 <= overall_score cs.
Proof.
  destruct (calculate_confidence_returns lower strip words fmt2
              current_time query docs similarity_scores ans) as (cs & Hcs & _).
  exists cs. split; [exact Hcs|].
  destruct (calculate_confidence_inv _ _ _ _ _ _ Hcs) as (Hf & Hsum & Hl & _).
  split; [rewrite Hf; reflexivity|]. split; [exact Hl|].
  rewrite Hf, weighted_sum_factors in Hsum. apply Ok_inj in Hsum. rewrite <- Hsum.
  pose proof (semantic_similarity_bounds similarity_scores).
  pose proof (keyword_match_bounds lower words query docs).
  pose proof (context_relevance_bounds lower query docs).
  pose proof (data_freshness_nonneg current_time docs).
  pose proof (source_reliability_bounds docs).
  pose proof (query_clarity_bounds lower strip query).
  pose proof (answer_completeness_bounds lower query ans).
  lra.
Qed.

(** X23: when no retrieved document is dated after the reading of the
    clock, each of the seven factors and the overall score lie between 0
    and 1. *)
Theorem confidence_within_unit_interval (current_time : Z) (query : string)
    (docs : list doc) (similarity_scores : list R) (ans : string) :
  Forall (not_future current_time) docs ->
  exists cs,
    calculate_confidence lower strip words fmt2 current_time query docs similarity_scores ans
    = Ok cs
    /\ Forall (fun kv => 0 <= snd kv <= 1) (factors cs)
    /\ 0 <= overall_score cs <= 1.
Proof.
  intros Hnf.
  destruct (calculate_confidence_returns lower strip words fmt2
              current_time query docs similarity_scores ans) as (cs & Hcs & _).
  exists cs. split; [exact Hcs|].
  destruct (calculate_confidence_inv _ _ _ _ _ _ Hcs) as (Hf & Hsum & _).
  pose proof (semantic_similarity_bounds similarity_scores) as H1.
  pose proof (keyword_match_bounds lower words query docs) as H2.
  pose proof (context_relevance_bounds lower query docs) as H3.
  pose proof (data_freshness_bounds current_time docs Hnf) as H4.
  pose proof (source_reliability_bounds docs) as H5.
  pose proof (query_clarity_bounds lower strip query) as H6.
  pose proof (answer_completeness_bounds lower query ans) as H7.
  split.
  - rewrite Hf. unfold compute_factors.
    do 7 (constructor; [cbn [snd]; lra|]). constructor.
  - rewrite Hf, weighted_sum_factors in Hsum. apply Ok_inj in Hsum. lra.
Qed.

(** X26: with nothing retrieved -- no document, no score -- the overall
    score is [0.1 + 0.1 * clarity + 0.1 * completeness], between 0.13 and
    0.3, and the level is LOW or VERY_LOW: such an answer is never rated
    MEDIUM or better. *)
Theorem nothing_retrieved_rates_low (current_time : Z) (query ans : string) :
  exists cs,
    calculate_confidence lower strip words fmt2 current_time query [] [] ans = Ok cs
    /\ overall_score cs =
         1 / 10 + _calculate_query_clarity lower strip query * (10 / 100)
         + _calculate_answer_completeness lower query ans * (10 / 100)
    /\ 13 / 100 <= overall_score cs <= 3 / 10
    /\ (level cs = LOW \/ level cs = VERY_LOW).
Proof.
  destruct (calculate_confidence_returns lower strip words fmt2
              current_time query [] [] ans) as (cs & Hcs & _).
  exists cs. split; [exact Hcs|].
  destruct (calculate_confidence_inv _ _ _ _ _ _ Hcs) as (Hf & Hsum & Hl & _).
  rewrite Hf, weighted_sum_factors in Hsum. apply Ok_inj in Hsum.
  pose proof (query_clarity_floor query) as Hq1.
  pose proof (query_clarity_bounds lower strip query) as Hq2.
  pose proof (answer_completeness_floor query ans) as Ha1.
  pose proof (answer_completeness_bounds lower query ans) as Ha2.
  assert (Ho : overall_score cs =
               1 / 10 + _calculate_query_clarity lower strip query * (10 / 100)
               + _calculate_answer_completeness lower query ans * (10 / 100)).
  { rewrite <- Hsum.
    unfold _calculate_semantic_similarity, _calculate_keyword_match,
      _calculate_context_relevance, _calculate_data_freshness,
      _calculate_source_reliability. lra. }
  split; [exact Ho|]. split; [lra|].
  rewrite Hl. unfold _get_confidence_level.
  destruct (fge (overall_score cs) (9 / 10)) eqn:H1; [exfalso; fge_hyps; lra|].
  destruct (fge (overall_score cs) (7 / 10)) eqn:H2; [exfalso; fge_hyps; lra|].
  destruct (fge (overall_score cs) (5 / 10)) eqn:H3; [exfalso; fge_hyps; lra|].
  destruct (fge (overall_score cs) (3 / 10)); auto.
Qed.

(** X27: the two floors.  A query of fewer than 5 characters (lower-cased
    and stripped) has clarity exactly 0.2 and any longer one at least 0.5;
    an answer of fewer than 10 characters has completeness exactly 0.1 and
    any longer one at least 0.5. *)
Theorem short_inputs_hit_the_floor (query ans : string) :
  ((len (strip (lower query)) < 5)%nat ->
     _calculate_query_clarity lower strip query = 2 / 10)
  /\ ((5 <= len (strip (lower query)))%nat ->
       5 / 10 <= _calculate_query_clarity lower strip query <= 1)
  /\ ((len ans < 10)%nat -> _calculate_answer_completeness lower query ans = 1 / 10)
  /\ ((10 <= len ans)%nat ->
       5 / 10 <= _calculate_answer_completeness lower query ans <= 1).
Proof.
  unfold _calculate_query_clarity, _calculate_answer_completeness. cbv zeta.
  split; [|split; [|split]].
  - intros Hl. apply Nat.ltb_lt in Hl. rewrite Hl. reflexivity.
  - intros Hl. apply Nat.ltb_ge in Hl. rewrite Hl. split; [|apply Rmin_r].
    apply Rmin_glb; [|lra]. split_ifs; lra.
  - intros Hl. apply Nat.ltb_lt in Hl. rewrite Hl. reflexivity.
  - intros Hl. apply Nat.ltb_ge in Hl. rewrite Hl. split; [|apply Rmin_r].
    apply Rmin_glb; [|lra]. split_ifs; lra.
Qed.

Lemma first_strongest_bound (fs : factor_dict) (s : string * R) :
  first_strongest fs s -> Forall (fun f => snd f <= snd s) fs.
Proof.
  intros (pre & post & -> & Hpre & Hpost).
  apply Forall_app. split.
  - apply (Forall_impl _ _ _ Hpre). intros f Hf. lra.
  - constructor; [lra | exact Hpost].
Qed.

Lemma last_weakest_bound (fs : factor_dict) (w : string * R) :
  last_weakest fs w -> Forall (fun f => snd w <= snd f) fs.
Proof.
  intros (pre & post & -> & Hpre & Hpost).
  apply Forall_app. split; [exact Hpre|].
  constructor; [lra|]. apply (Forall_impl _ _ _ Hpost). intros f Hf. lra.
Qed.

(** X28: the weights sum to 1, so the overall score lies between the two
    factors the explanation names: it is at least the weakest factor and at
    most the strongest. *)
Theorem overall_between_extremes (current_time : Z) (query : string) (docs : list doc)
    (similarity_scores : list R) (ans : string) :
  exists cs strongest weakest,
    calculate_confidence lower strip words fmt2 current_time query docs similarity_scores ans
    = Ok cs
    /\ extremes (factors cs) = Ok (strongest, weakest)
    /\ explanation cs = explanation_text fmt2 (overall_score cs) strongest weakest
    /\ snd weakest <= overall_score cs <= snd strongest.
Proof.
  destruct (calculate_confidence_returns lower strip words fmt2
              current_time query docs similarity_scores ans) as (cs & Hcs & _).
  destruct (calculate_confidence_inv _ _ _ _ _ _ Hcs) as (Hf & Hsum & _ & Hexp & _).
  destruct (extremes_nonempty
              ("semantic_similarity", _calculate_semantic_similarity similarity_scores)
              (tail (compute_factors lower strip words current_time query docs
                       similarity_scores ans)))
    as (s & w & He & Hs & Hw).
  change (("semantic_similarity", _calculate_semantic_similarity similarity_scores)
          :: tail (compute_factors lower strip words current_time query docs
                     similarity_scores ans))
    with (compute_factors lower strip words current_time query docs similarity_scores ans)
    in He, Hs, Hw.
  exists cs, s, w. split; [exact Hcs|].
  rewrite Hf. split; [exact He|]. split.
  - unfold _generate_explanation in Hexp. rewrite Hf, He in Hexp.
    cbn [bind fst snd] in Hexp. apply Ok_inj in Hexp. symmetry. exact Hexp.
  - rewrite Hf, weighted_sum_factors in Hsum. apply Ok_inj in Hsum. rewrite <- Hsum.
    apply first_strongest_bound in Hs. apply last_weakest_bound in Hw.
    unfold compute_factors in Hs, Hw.
    repeat match goal with
           | H : Forall _ (_ :: _) |- _ =>
               let H1 := fresh "Hb" in
               let H2 := fresh "Hrest" in
               apply Forall_cons_iff in H as [H1 H2]; cbn [snd] in H1
           end.
    lra.
Qed.

End MoreFactorFacts.

Import Examples MoreExamples.

Lemma confidence_level_monotone_witness :
  (Levels.rank (_get_confidence_level (1 / 2))
   <= Levels.rank (_get_confidence_level (3 / 4)))%nat.
Proof. apply (confidence_level_monotone (1 / 2) (3 / 4)). lra. Defined.

Lemma semantic_similarity_saturates_witness :
  _calculate_semantic_similarity [1 / 2; 3 / 4] = 1.
Proof.
  apply (semantic_similarity_saturates (1 / 2) [3 / 4]).
  constructor; [lra|]. constructor; [lra|]. constructor.
Defined.

Lemma confidence_within_unit_interval_witness :
  exists cs,
    calculate_confidence already_lower already_lower one_word no_digits
      clock "pho" [recipe_ahead 0] [1] "nau pho" = Ok cs
    /\ Forall (fun kv => 0 <= snd kv <= 1) (factors cs)
    /\ 0 <= overall_score cs <= 1.
Proof.
  apply (confidence_within_unit_interval already_lower already_lower one_word no_digits
           clock "pho" [recipe_ahead 0] [1] "nau pho").
  constructor; [|constructor].
  unfold not_future, recipe_ahead, clock, microseconds_per_day. simpl. lia.
Defined.

Lemma short_inputs_hit_the_floor_witness :
  _calculate_query_clarity already_lower already_lower "pho" = 2 / 10
  /\ _calculate_answer_completeness already_lower "pho" "ngon" = 1 / 10.
Proof.
  destruct (short_inputs_hit_the_floor already_lower already_lower "pho" "ngon")
    as (Hq & _ & Ha & _).
  split; [apply Hq | apply Ha]; vm_compute; lia.
Defined.

End ScorerMore.

(** ** Properties of the searchable text *)
Module SyncFacts.
Import Py Sync.

Lemma contains_empty (s : string) : contains "" s = true.
Proof. destruct s; reflexivity. Qed.

Lemma prefix_refl (s : string) : String.prefix s s = true.
Proof.
  induction s as [|a s IH]; simpl; [reflexivity|].
  destruct (Ascii.ascii_dec a a); [exact IH | contradiction].
Qed.

Lemma prefix_app_l (n s t : string) :
  String.prefix n s = true -> String.prefix n (s ++ t) = true.
Proof.
  revert n. induction s as [|a s IH]; intros n; destruct n as [|b n]; simpl.
  - intros _. destruct t; reflexivity.
  - discriminate.
  - reflexivity.
  - destruct (Ascii.ascii_dec b a); [apply IH | discriminate].
Qed.

Lemma contains_refl (s : string) : contains s s = true.
Proof. destruct s; [reflexivity|]. cbn [contains]. rewrite prefix_refl. reflexivity. Qed.

Lemma contains_app_r (n s t : string) :
  contains n t = true -> contains n (s ++ t) = true.
Proof.
  intros Ht. induction s as [|a s IH]; [exact Ht|].
  change (contains n (String a s ++ t))
    with (String.prefix n (String a (s ++ t)) || contains n (s ++ t)).
  rewrite IH. apply orb_true_r.
Qed.

Lemma contains_app_l (n s t : string) :
  contains n s = true -> contains n (s ++ t) = true.
Proof.
  induction s as [|a s IH].
  - destruct n; [intros _; apply contains_empty | discriminate].
  - change (contains n (String a s))
      with (String.prefix n (String a s) || contains n s).
    change (contains n (String a s ++ t))
      with (String.prefix n (String a s ++ t) || contains n (s ++ t)).
    intros Hc. apply orb_true_iff in Hc as [Hp | Hc].
    + rewrite (prefix_app_l _ _ t Hp). reflexivity.
    + rewrite (IH Hc). apply orb_true_r.
Qed.

(** What occurs in a part occurs in the joined text. *)
Lemma contains_join (sep : string) (parts : list string) (p x : string) :
  p ∈ parts -> contains x p = true -> contains x (join sep parts) = true.
Proof.
  intros Hp Hx. induction parts as [|a parts IH]; [apply elem_of_nil in Hp; contradiction|].
  apply elem_of_cons in Hp as [-> | Hp].
  - destruct parts as [|b parts]; [exact Hx|].
    change (join sep (a :: b :: parts)) with (a ++ sep ++ join sep (b :: parts))%string.
    apply contains_app_l, Hx.
  - destruct parts as [|b parts]; [apply elem_of_nil in Hp; contradiction|].
    change (join sep (a :: b :: parts)) with (a ++ sep ++ join sep (b :: parts))%string.
    apply contains_app_r, contains_app_r, IH, Hp.
Qed.

Lemma text_part_mentions (label : string) (field : option string) (v : string) :
  field = Some v -> v <> "" ->
  exists p, text_part label field = [p] /\ contains v p = true.
Proof.
  intros -> Hv. unfold text_part.
  destruct (String.eqb_spec v ""); [contradiction|].
  eexists. split; [reflexivity|]. apply contains_app_r, contains_refl.
Qed.

Lemma list_part_mentions (label sep : string) (field : option (list string))
    (l : list string) (x : string) :
  field = Some l -> x ∈ l ->
  exists p, list_part label sep field = [p] /\ contains x p = true.
Proof.
  intros -> Hx. unfold list_part.
  destruct l as [|y l]; [apply elem_of_nil in Hx; contradiction|].
  eexists. split; [reflexivity|].
  apply contains_app_r. apply (contains_join sep (y :: l) x x Hx), contains_refl.
Qed.

Lemma category_part_mentions (field : option string) (c : string) :
  field = Some c -> c <> "" ->
  exists p, category_part field = [p] /\ contains (category_name c) p = true.
Proof.
  intros -> Hc. unfold category_part.
  destruct (String.eqb_spec c ""); [contradiction|].
  eexists. split; [reflexivity|]. apply contains_app_r, contains_refl.
Qed.

(** X29: nothing a recipe says is lost in its searchable text: the name,
    the description, the cooking time and the difficulty, the display name
    of the category, and every single ingredient, instruction and tag occur
    in the text that is embedded. *)
Theorem searchable_text_mentions (r : recipe) :
  (forall v, name r = Some v -> contains v (_recipe_to_searchable_text r) = true)
  /\ (forall v, description r = Some v -> contains v (_recipe_to_searchable_text r) = true)
  /\ (forall c, category r = Some c ->
                 contains (category_name c) (_recipe_to_searchable_text r) = true)
  /\ (forall l x, ingredients r = Some l -> x ∈ l ->
                   contains x (_recipe_to_searchable_text r) = true)
  /\ (forall l x, instructions r = Some l -> x ∈ l ->
                   contains x (_recipe_to_searchable_text r) = true)
  /\ (forall v, cookingTime r = Some v -> contains v (_recipe_to_searchable_text r) = true)
  /\ (forall v, difficulty r = Some v -> contains v (_recipe_to_searchable_text r) = true)
  /\ (forall l x, tags r = Some l -> x ∈ l ->
                   contains x (_recipe_to_searchable_text r) = true).
Proof.
  unfold _recipe_to_searchable_text. cbv zeta.
  repeat apply conj.
  - intros v Hv. destruct (String.eqb_spec v "") as [-> | Hne]; [apply contains_empty|].
    destruct (text_part_mentions "Tên món: " _ v Hv Hne) as (p & Hp & Hc).
    apply (contains_join _ _ p); [|exact Hc]. rewrite Hp. set_solver.
  - intros v Hv. destruct (String.eqb_spec v "") as [-> | Hne]; [apply contains_empty|].
    destruct (text_part_mentions "Mô tả: " _ v Hv Hne) as (p & Hp & Hc).
    apply (contains_join _ _ p); [|exact Hc]. rewrite Hp. set_solver.
  - intros c Hv. destruct (String.eqb_spec c "") as [-> | Hne]; [apply contains_empty|].
    destruct (category_part_mentions _ c Hv Hne) as (p & Hp & Hc).
    apply (contains_join _ _ p); [|exact Hc]. rewrite Hp. set_solver.
  - intros l x Hl Hx.
    destruct (list_part_mentions "Nguyên liệu: " ", " _ l x Hl Hx) as (p & Hp & Hc).
    apply (contains_join _ _ p); [|exact Hc]. rewrite Hp. set_solver.
  - intros l x Hl Hx.
    destruct (list_part_mentions "Cách làm: " ". " _ l x Hl Hx) as (p & Hp & Hc).
    apply (contains_join _ _ p); [|exact Hc]. rewrite Hp. set_solver.
  - intros v Hv. destruct (String.eqb_spec v "") as [-> | Hne]; [apply contains_empty|].
    destruct (text_part_mentions "Thời gian: " _ v Hv Hne) as (p & Hp & Hc).
    apply (contains_join _ _ p); [|exact Hc]. rewrite Hp. set_solver.
  - intros v Hv. destruct (String.eqb_spec v "") as [-> | Hne]; [apply contains_empty|].
    destruct (text_part_mentions "Độ khó: " _ v Hv Hne) as (p & Hp & Hc).
    apply (contains_join _ _ p); [|exact Hc]. rewrite Hp. set_solver.
  - intros l x Hl Hx.
    destruct (list_part_mentions "Tags: " ", " _ l x Hl Hx) as (p & Hp & Hc).
    apply (contains_join _ _ p); [|exact Hc]. rewrite Hp. set_solver.
Qed.

Section CategoryFacts.
Context `{Countable Id}.
Variable lower : string -> string.

(** X30: the two category tables agree.  A query that, lower-cased, is the
    display name the sync layer gives a category code makes
    [_category_filter_search] return exactly the recipes stored under that
    code, each tagged ['category'], in their order. *)
Theorem category_name_selects_code (code display query : string)
    (recipes : list (@Retrieval.recipe Id)) :
  (code, display) ∈ category_map ->
  lower query = display ->
  Retrieval._category_filter_search lower query recipes =
    map (Retrieval.tagged "category")
        (List.filter (fun r => bool_decide (Retrieval.category r = Some code)) recipes).
Proof.
  intros Hin Hq. unfold Retrieval._category_filter_search. cbv zeta. rewrite Hq.
  assert (Ht : Retrieval.target_category display = Some code).
  { unfold category_map in Hin.
    repeat (apply elem_of_cons in Hin as [Hin | Hin];
            [injection Hin as -> ->; vm_compute; reflexivity|]).
    apply elem_of_nil in Hin. contradiction. }
  rewrite Ht. reflexivity.
Qed.

End CategoryFacts.

Import Examples MoreExamples.

Lemma searchable_text_mentions_witness :
  contains "thit bo" (_recipe_to_searchable_text sync_pho) = true
  /\ contains (category_name "monchinh") (_recipe_to_searchable_text sync_pho) = true.
Proof.
  destruct (searchable_text_mentions sync_pho) as (_ & _ & Hc & Hi & _).
  split.
  - apply (Hi ["banh pho"; "thit bo"]); [reflexivity | set_solver].
  - apply Hc. reflexivity.
Defined.

Lemma category_name_selects_code_witness :
  Retrieval._category_filter_search already_lower "món chính" [pho; che] =
    map (Retrieval.tagged "category")
        (List.filter (fun r => bool_decide (Retrieval.category r = Some "monchinh"))
                     [pho; che]).
Proof.
  apply (category_name_selects_code already_lower "monchinh" "món chính" "món chính"
           [pho; che]).
  - unfold category_map. set_solver.
  - reflexivity.
Defined.

End SyncFacts.
